(** * StorageDistributed: the distributed-table engine

    A shallow embedding of [dbms/src/Storages/StorageDistributed.cpp]:
    the two query rewriters, the constructors with their
    [write_enabled] flag, [read], [write], [alter], [shutdown],
    [reshardPartitions], [describe], the directory monitors and
    [getShardCount].  [getColumn] and [hasColumn] only forward to
    [VirtualColumnFactory] and [IStorage] and are left out.

    C++ objects that are mutated in place (the table itself, the AST
    objects behind [ASTPtr], the resharding worker, the file system, the
    metadata of the owning database) live in an explicit state that is
    threaded through a small state-and-exception monad. *)

From stdpp Require Import gmap strings list fin_maps numbers pretty.

Local Open Scope Z_scope.

(** ** Machine integers *)

(** [size_t] and [UInt64] are 64-bit unsigned on every platform the
    server is built for; their arithmetic wraps around. *)
Definition size_t_bits : Z := 64.
Definition size_t_modulus : Z := 2 ^ size_t_bits.
Definition size_t_wrap (z : Z) : Z := z mod size_t_modulus.
Definition size_t_add (a b : Z) : Z := size_t_wrap (a + b).
Definition size_t_mul (a b : Z) : Z := size_t_wrap (a * b).

(** ** Error codes and exceptions *)

(** The [ErrorCodes] this file throws, plus the code of the failed
    [typeid_cast]; every other code is kept by its number. *)
Inductive ErrorCode :=
| STORAGE_REQUIRES_PARAMETER
| RESHARDING_NO_WORKER
| RESHARDING_INVALID_PARAMETERS
| RESHARDING_INITIATOR_CHECK_FAILED
| NOT_IMPLEMENTED
| LOGICAL_ERROR
| BAD_CAST
| OTHER_ERROR (code : Z).

(** What a [throw] can carry, by the three handlers of
    [reshardPartitions]: a [DB::Exception], another [std::exception], or
    anything else. *)
Inductive Exn :=
| Exception (msg : string) (code : ErrorCode)
| std_exception (what : string)
| foreign_exception (tag : Z).

(** ** The state-and-exception monad *)

Inductive Outcome (A : Type) :=
| Returned (a : A)
| Thrown (e : Exn).
Arguments Returned {A} a.
Arguments Thrown {A} e.

Definition M (S A : Type) : Type := S -> Outcome A * S.

Definition ret {S A} (a : A) : M S A := fun s => (Returned a, s).
Definition throw {S A} (e : Exn) : M S A := fun s => (Thrown e, s).
Definition bind {S A B} (m : M S A) (k : A -> M S B) : M S B :=
  fun s =>
    match m s with
    | (Returned a, s') => k a s'
    | (Thrown e, s') => (Thrown e, s')
    end.
Definition gets {S A} (f : S -> A) : M S A := fun s => (Returned (f s), s).
Definition modify {S} (f : S -> S) : M S unit := fun s => (Returned tt, f s).

(** [try { m } catch (e) { h e }]: the effects of [m] up to the throw stay. *)
Definition try_catch {S A} (m : M S A) (h : Exn -> M S A) : M S A :=
  fun s =>
    match m s with
    | (Returned a, s') => (Returned a, s')
    | (Thrown e, s') => h e s'
    end.

(** Run a computation on a component of the state. *)
Definition zoom {S T A} (proj : S -> T) (upd : T -> S -> S) (m : M T A) : M S A :=
  fun s =>
    match m (proj s) with
    | (r, t') => (r, upd t' s)
    end.

Declare Scope monad_scope.
Delimit Scope monad_scope with monad.
Notation "'let!' x ':=' m 'in' k" := (bind m (fun x => k))
  (at level 10, x name, m at level 100, k at level 200) : monad_scope.
Notation "m '>>' k" := (bind m (fun _ => k))
  (at level 90, right associativity) : monad_scope.
Local Open Scope monad_scope.

Definition when {S} (b : bool) (m : M S unit) : M S unit :=
  if b then m else ret tt.

(** A scope with a destructor: [cleanup] runs when [m] is left, by its
    end or by a throw, and the outcome of [m] stands. *)
Definition finally {S A} (m : M S A) (cleanup : M S unit) : M S A :=
  fun s =>
    match m s with
    | (r, s') =>
        match cleanup s' with
        | (Returned _, s'') => (r, s'')
        | (Thrown e, s'') => (Thrown e, s'')
        end
    end.

(** ** Cluster topology *)

(** [Cluster] is seen through [getLocalShardCount] and
    [getRemoteShardCount] only.  Both count shard objects held in
    memory, so together they stay below the range of [size_t]; the
    record carries that invariant. *)
Definition shard_counts_ok (l r : Z) : bool :=
  (0 <=? l) && (0 <=? r) && (l + r <? size_t_modulus).

Record Cluster := mkCluster {
  local_shard_count : Z;
  remote_shard_count : Z;
  shard_counts_in_range : shard_counts_ok local_shard_count remote_shard_count = true
}.

Definition getLocalShardCount (c : Cluster) : Z := local_shard_count c.
Definition getRemoteShardCount (c : Cluster) : Z := remote_shard_count c.

(** ** Syntax trees *)

Set Warnings "-register-all".

(** A [Field]: null, or a value of one of the kinds a partition name or
    a coordinator id has. *)
Inductive Field :=
| Null
| UInt64 (n : Z)
| String (s : string).

Definition isNull (f : Field) : bool :=
  match f with Null => true | _ => false end.

Inductive IdentifierKind := Column | Database | Table | Format.

(** [ASTAlterQuery::ParameterType]: the one this file sets, and the
    others by number. *)
Inductive ParameterType :=
| RESHARD_PARTITION
| OTHER_PARAMETER (tag : Z).

(** The node classes this file names.  The members of [ASTSelectQuery]
    other than [database] and [table] are its [clauses], by name; the
    members of [ASTInsertQuery] other than [database], [table] and
    [select] are its row payload.  A null [ASTPtr] member is [None]. *)
Inductive AST :=
| ASTIdentifier (name : string) (kind : IdentifierKind)
| ASTLiteral (value : Field)
| ASTExpressionList (children : list AST)
| ASTWeightedZooKeeperPath (path : string) (weight : Z)
| ASTSelectQuery (database table : option AST) (clauses : list (string * AST))
| ASTInsertQuery (database table : string) (select : option AST)
    (columns : option AST) (format : string) (data : string)
| ASTAlterQuery (database table : string) (parameters : list AlterParameters)
| ASTDescribeQuery (database table : string)
with AlterParameters :=
| mkAlterParameters (type : ParameterType)
    (partition last_partition : option AST)
    (weighted_zookeeper_paths : option AST)
    (sharding_key_expr : option AST)
    (do_copy : bool)
    (coordinator : option AST).

(** Text made by printers that are not part of these sources. *)
Inductive Text :=
| Plain (s : string)
| queryToString (q : AST)
| getColumnName (q : AST).

(** An [ASTPtr] is null or the address of an AST object; the objects
    live in a store, so that a mutation through one pointer is seen
    through every alias. *)
Definition ASTPtr : Type := option positive.
Definition nullptr : ASTPtr := None.

(** ** Schema and ALTER commands *)

Definition NamesAndTypesList : Type := list (string * string).

Record Schema := mkSchema {
  columns : NamesAndTypesList;
  materialized_columns : NamesAndTypesList;
  alias_columns : NamesAndTypesList;
  column_defaults : list (string * string)
}.

(** [AlterCommand::Type]: the one this file tests for, and the others
    by number. *)
Inductive AlterCommandType :=
| MODIFY_PRIMARY_KEY
| OTHER_COMMAND (tag : Z).

(** An [AlterCommand] is seen here through its [type] only. *)
Record AlterCommand := mkAlterCommand {
  command_type : AlterCommandType
}.

(** Modelled from the spec: [AlterCommands]
    ([DB/Storages/AlterCommands.h]) is not part of the sources.  It is
    the vector of the commands of one ALTER statement, with [apply],
    which per the spec applies the structural changes (add, drop or
    modify a column, defaults) to the four column lists that it is given
    by reference.  What [apply] does to them is carried by the value and
    left open: it may throw, and what it has done to the lists by then
    stays. *)
Record AlterCommands := mkAlterCommands {
  commands : list AlterCommand;
  apply : Schema -> Outcome unit * Schema
}.

Definition is_modify_primary_key (param : AlterCommand) : bool :=
  match command_type param with MODIFY_PRIMARY_KEY => true | _ => false end.

(** ** The resharding worker *)

(** Modelled from the spec: the states of a coordination record,
    CREATED, REGISTERED, RUNNING, COMPLETED or ERROR, until it is
    deleted; [ReshardingWorker::STATUS_ERROR] is the last of them. *)
Inductive StatusCode :=
| STATUS_CREATED
| STATUS_REGISTERED
| STATUS_RUNNING
| STATUS_COMPLETED
| STATUS_ERROR.

Inductive WorkerCall :=
| createCoordinator_call
| registerQuery_call (coordinator_id : string) (query : Text)
| setStatus_call (coordinator_id : string) (status : StatusCode) (msg : string)
| dumpCoordinatorState_call (coordinator_id : string)
| deleteCoordinator_call (coordinator_id : string).

Record Coordinator := mkCoordinator {
  registered_query : option Text;
  status : StatusCode;
  status_message : string
}.

(** Modelled from the spec: [ReshardingWorker]
    ([DB/Storages/MergeTree/ReshardingWorker.h]) is not part of the
    sources.  It offers [isStarted], [createCoordinator],
    [registerQuery], [setStatus], [dumpCoordinatorState] and
    [deleteCoordinator] over records keyed by coordinator id.  Each of
    its calls can throw: [faults] says, call after call, whether the
    next one does (an exhausted list means no more failures).

    The records are kept as this client's calls leave them: here a call
    that throws leaves them as they were, on which the spec is silent,
    and nothing is said of the per-shard agents of the spec, which move
    a record on to RUNNING and COMPLETED and delete it while a statement
    runs.  So what is stated about a resharding call is which calls it
    makes, in which order and with which arguments; a record is looked
    at only right after the call that wrote or deleted it. *)
Record ReshardingWorker := mkReshardingWorker {
  started : bool;
  coordinators : gmap string Coordinator;
  created : nat;
  faults : list (option Exn)
}.

(** ** Settings *)

Inductive GlobalSubqueriesMethod := PUSH | PULL.

Record Settings := mkSettings {
  max_parallel_replicas : Z;
  distributed_group_by_no_merge : bool;
  global_subqueries_method : GlobalSubqueriesMethod;
  max_distributed_connections : Z
}.

(** ** Streams *)

Inductive QueryProcessingStage := FetchColumns | WithMergeableState | Complete.

(** One turn of the loop that drains the union stream:
    [isCancelled()] answers true, [read()] gives a block, or a shard
    failed, in which case the stream calls the exception callback and
    rethrows.  When the steps run out [read()] gives the empty block. *)
Inductive ReadStep :=
| Cancelled
| Block
| ShardFailure (e : Exn).

(** Modelled from the spec: [ClusterProxy::Query] and
    [UnionBlockInputStream] are not part of the sources.  [execute]
    gives one stream per shard, at least one; unioned, they behave as
    scripted here:
    whether the union is an [IProfilingBlockInputStream], whether
    [readPrefix] and [readSuffix] throw, what each turn of the read loop
    meets, and whether the stream is found cancelled after its end. *)
Record BlockInputStreams := mkStreams {
  is_profiling : bool;
  prefix_failure : option Exn;
  steps : list ReadStep;
  cancelled_at_end : bool;
  suffix_failure : option Exn
}.

Inductive QueryConstructor :=
| SelectQueryConstructor (processed_stage : QueryProcessingStage) (external_tables : list string)
| DescribeQueryConstructor
| AlterQueryConstructor.

(** The arguments of one [ClusterProxy::Query{...}.execute()]. *)
Record Dispatch := mkDispatch {
  query_constructor : QueryConstructor;
  dispatched_cluster : Cluster;
  dispatched_query : ASTPtr;
  dispatched_tree : option AST;
  dispatched_settings : Settings;
  enable_shard_multiplexing : bool
}.

(** ** The table and its surroundings *)

Record DirectoryMonitor := mkDirectoryMonitor {
  monitor_storage : string;
  monitor_name : string
}.

(** An entry of a directory, as [Poco::DirectoryIterator] shows it, with
    the batches that wait inside when it is a shard subdirectory. *)
Record DirEntry := mkDirEntry {
  entry_name : string;
  isDirectory : bool;
  pending_batches : list string
}.

Inductive ExpressionActionsPtr :=
| no_actions
| getActions (sharding_key : option AST).

(** What the code does to its surroundings, most recent first, and when
    it lets [params.apply] work on the column lists of the table, with
    the lists as that call left them. *)
Inductive Event :=
| worker_event (call : WorkerCall) (succeeded : bool)
| tryLogCurrentException (e : Exn)
| LOG_ERROR (message : string)
| lockStructureForAlter
| unlockStructure
| apply_commands (schema : Schema)
| alterTable (database_name table_name : string) (schema : Schema)
| execute (d : Dispatch).

Record Context := mkContext {
  asts : gmap positive AST;
  files : gmap string (list DirEntry);
  resharding_worker : ReshardingWorker;
  databases : gmap string (gmap string Schema);
  getExternalTables : list string;
  clusters : gmap string Cluster;
  cluster_proxy : list (Exn + BlockInputStreams);
  trace : list Event
}.

Record StorageDistributed := mkStorageDistributed {
  name : string;
  schema : Schema;
  remote_database : string;
  remote_table : string;
  cluster : Cluster;
  sharding_key_expr : ExpressionActionsPtr;
  sharding_key_column_name : Text;
  write_enabled : bool;
  path : string;
  directory_monitors : gmap string DirectoryMonitor;
  owned_cluster : option Cluster
}.

Record State := mkState {
  this : StorageDistributed;
  context : Context
}.

Definition set_asts (h : gmap positive AST) (c : Context) : Context :=
  mkContext h (files c) (resharding_worker c) (databases c)
    (getExternalTables c) (clusters c) (cluster_proxy c) (trace c).
Definition set_files (f : gmap string (list DirEntry)) (c : Context) : Context :=
  mkContext (asts c) f (resharding_worker c) (databases c)
    (getExternalTables c) (clusters c) (cluster_proxy c) (trace c).
Definition set_resharding_worker (w : ReshardingWorker) (c : Context) : Context :=
  mkContext (asts c) (files c) w (databases c)
    (getExternalTables c) (clusters c) (cluster_proxy c) (trace c).
Definition set_databases (d : gmap string (gmap string Schema)) (c : Context) : Context :=
  mkContext (asts c) (files c) (resharding_worker c) d
    (getExternalTables c) (clusters c) (cluster_proxy c) (trace c).
Definition set_cluster_proxy (p : list (Exn + BlockInputStreams)) (c : Context) : Context :=
  mkContext (asts c) (files c) (resharding_worker c) (databases c)
    (getExternalTables c) (clusters c) p (trace c).
Definition record_event (ev : Event) (c : Context) : Context :=
  mkContext (asts c) (files c) (resharding_worker c) (databases c)
    (getExternalTables c) (clusters c) (cluster_proxy c) (ev :: trace c).

Definition set_schema (sc : Schema) (t : StorageDistributed) : StorageDistributed :=
  mkStorageDistributed (name t) sc (remote_database t) (remote_table t)
    (cluster t) (sharding_key_expr t) (sharding_key_column_name t)
    (write_enabled t) (path t) (directory_monitors t) (owned_cluster t).
Definition set_directory_monitors (m : gmap string DirectoryMonitor)
    (t : StorageDistributed) : StorageDistributed :=
  mkStorageDistributed (name t) (schema t) (remote_database t) (remote_table t)
    (cluster t) (sharding_key_expr t) (sharding_key_column_name t)
    (write_enabled t) (path t) m (owned_cluster t).
Definition set_owned_cluster (c : option Cluster)
    (t : StorageDistributed) : StorageDistributed :=
  mkStorageDistributed (name t) (schema t) (remote_database t) (remote_table t)
    (cluster t) (sharding_key_expr t) (sharding_key_column_name t)
    (write_enabled t) (path t) (directory_monitors t) c.

Definition on_this (f : StorageDistributed -> StorageDistributed) (s : State) : State :=
  mkState (f (this s)) (context s).
Definition on_context (f : Context -> Context) (s : State) : State :=
  mkState (this s) (f (context s)).

Definition emit (ev : Event) : M State unit := modify (on_context (record_event ev)).

(** ** AST objects behind pointers *)

Definition is_empty (s : string) : bool :=
  match s with EmptyString => true | _ => false end.

Definition is_null (p : ASTPtr) : bool :=
  match p with None => true | Some _ => false end.

(** Reading through a pointer.  Going through a null pointer is
    undefined in C++; here it throws, and no statement below relies on
    it. *)
Definition null_dereference : Exn := foreign_exception 11.

Definition deref (p : ASTPtr) : M State AST :=
  fun s =>
    match p ≫= (fun l => asts (context s) !! l) with
    | Some node => (Returned node, s)
    | None => (Thrown null_dereference, s)
    end.

(** [std::make_shared]: a new object at an address not in use. *)
Definition make_shared (node : AST) : M State ASTPtr :=
  fun s =>
    let l := fresh (dom (asts (context s))) in
    (Returned (Some l), on_context (set_asts (<[l := node]> (asts (context s)))) s).

(** Assignment to the object behind a pointer. *)
Definition assign (p : ASTPtr) (node : AST) : M State unit :=
  match p with
  | Some l => modify (on_context (fun c => set_asts (<[l := node]> (asts c)) c))
  | None => throw null_dereference
  end.

(** The last owner of an object goes away. *)
Definition release (p : ASTPtr) : M State unit :=
  match p with
  | Some l => modify (on_context (fun c => set_asts (delete l (asts c)) c))
  | None => ret tt
  end.

(** [IAST::clone]: a deep copy, that is a new object with an equal tree. *)
Definition clone (p : ASTPtr) : M State ASTPtr :=
  let! node := deref p in make_shared node.

(** Modelled from the spec: [typeid_cast] is not part of the sources; a
    statement that is not of the expected shape fails the cast. *)
Definition bad_cast : Exn := Exception "Bad cast" BAD_CAST.

(** ** The query rewriters *)

(** select query has database and table names as AST pointers *)
Definition rewriteSelectQuery (query : ASTPtr) (database table : string) : M State ASTPtr :=
  let! modified_query_ast := clone query in
  let! actual_query := deref modified_query_ast in
  match actual_query with
  | ASTSelectQuery _ _ clauses =>
      assign modified_query_ast
        (ASTSelectQuery (Some (ASTIdentifier database Database))
                        (Some (ASTIdentifier table Table)) clauses) >>
      ret modified_query_ast
  | _ => release modified_query_ast >> throw bad_cast
  end.

(** insert query has database and table names as bare strings *)
Definition rewriteInsertQuery (query : ASTPtr) (database table : string) : M State ASTPtr :=
  let! modified_query_ast := clone query in
  let! actual_query := deref modified_query_ast in
  match actual_query with
  | ASTInsertQuery _ _ _ columns format data =>
      assign modified_query_ast
        (ASTInsertQuery database table None columns format data) >>
      ret modified_query_ast
  | _ => release modified_query_ast >> throw bad_cast
  end.

(** ** Directory monitors *)

Fixpoint for_each {S A} (l : list A) (body : A -> M S unit) : M S unit :=
  match l with
  | [] => ret tt
  | x :: rest => body x >> for_each rest body
  end.

(** [std::map::emplace] keeps the element already under the key. *)
Definition emplace (k : string) (v : DirectoryMonitor)
    (m : gmap string DirectoryMonitor) : gmap string DirectoryMonitor :=
  match m !! k with
  | Some _ => m
  | None => <[k := v]> m
  end.

Definition getTableName (t : StorageDistributed) : string := name t.

Definition createDirectoryMonitor (name : string) : M State unit :=
  modify (on_this (fun t =>
    set_directory_monitors
      (emplace name (mkDirectoryMonitor (getTableName t) name) (directory_monitors t)) t)).

(** [Poco::File{path}.createDirectory()]: nothing to do when it exists.
    The file system is kept as a flat map from the path of a directory
    to its entries, which is what [createDirectoryMonitors] reads: that
    the call throws when the parent is missing, and that a new directory
    shows in the listing of its parent, is not part of it.  What is
    stated about the file system is about the entries of the directory
    of the table. *)
Definition createDirectory (p : string) : M State unit :=
  modify (on_context (fun c =>
    match files c !! p with
    | Some _ => c
    | None => set_files (<[p := []]> (files c)) c
    end)).

Definition DirectoryIterator (p : string) : M State (list DirEntry) :=
  gets (fun s => default [] (files (context s) !! p)).

Definition createDirectoryMonitors : M State unit :=
  let! p := gets (fun s => path (this s)) in
  if is_empty p then ret tt
  else
    createDirectory p >>
    let! entries := DirectoryIterator p in
    for_each entries (fun it =>
      when (isDirectory it) (createDirectoryMonitor (entry_name it))).

Definition requireDirectoryMonitor (name : string) : M State unit :=
  let! monitors := gets (fun s => directory_monitors (this s)) in
  when (negb (bool_decide (is_Some (monitors !! name)))) (createDirectoryMonitor name).

Definition shutdown : M State unit :=
  modify (on_this (set_directory_monitors ∅)).

Definition getShardCount (t : StorageDistributed) : Z :=
  getRemoteShardCount (cluster t).

(** ** Construction *)

Section Construction.

(** [escapeForFileName] ([DB/Common/escapeForFileName.h]) is not part of
    the sources. *)
Variable escapeForFileName : string -> string.

(** The member initialisers shared by the two constructors. *)
Definition initialise (name_ : string) (schema_ : Schema)
    (remote_database_ remote_table_ : string) (cluster_ : Cluster)
    (sharding_key_ : ASTPtr) (data_path_ : string) (c : Context) : StorageDistributed :=
  let key := sharding_key_ ≫= (fun l => asts c !! l) in
  {| name := name_;
     schema := schema_;
     remote_database := remote_database_;
     remote_table := remote_table_;
     cluster := cluster_;
     sharding_key_expr :=
       if is_null sharding_key_ then no_actions else getActions key;
     sharding_key_column_name :=
       match sharding_key_, key with
       | Some _, Some k => getColumnName k
       | _, _ => Plain ""
       end;
     write_enabled :=
       negb (is_empty data_path_)
       && ((size_t_add (getLocalShardCount cluster_) (getRemoteShardCount cluster_) <? 2)
           || negb (is_null sharding_key_));
     path :=
       if is_empty data_path_ then ""
       else data_path_ +:+ escapeForFileName name_ +:+ "/";
     directory_monitors := ∅;
     owned_cluster := None |}.

(** The constructor without materialized, alias and default columns. *)
Definition StorageDistributed_short (name_ : string) (columns_ : NamesAndTypesList)
    (remote_database_ remote_table_ : string) (cluster_ : Cluster)
    (sharding_key_ : ASTPtr) (data_path_ : string) (c : Context) : Outcome unit * State :=
  createDirectoryMonitors
    (mkState
       (initialise name_ (mkSchema columns_ [] [] [])
          remote_database_ remote_table_ cluster_ sharding_key_ data_path_ c)
       c).

(** The constructor with all column lists. *)
Definition StorageDistributed_full (name_ : string) (columns_ : NamesAndTypesList)
    (materialized_columns_ alias_columns_ : NamesAndTypesList)
    (column_defaults_ : list (string * string))
    (remote_database_ remote_table_ : string) (cluster_ : Cluster)
    (sharding_key_ : ASTPtr) (data_path_ : string) (c : Context) : Outcome unit * State :=
  createDirectoryMonitors
    (mkState
       (initialise name_
          (mkSchema columns_ materialized_columns_ alias_columns_ column_defaults_)
          remote_database_ remote_table_ cluster_ sharding_key_ data_path_ c)
       c).

(** Modelled from the spec: [Context::getCluster] is not part of the
    sources; a name without a cluster is an error of the registry. *)
Definition unknown_cluster : Exn := Exception "Requested cluster not found" (OTHER_ERROR 170).

(** [create] by cluster name. *)
Definition create (name_ : string) (columns_ : NamesAndTypesList)
    (materialized_columns_ alias_columns_ : NamesAndTypesList)
    (column_defaults_ : list (string * string))
    (remote_database_ remote_table_ cluster_name : string)
    (sharding_key_ : ASTPtr) (data_path_ : string) (c : Context) : Outcome unit * State + Exn :=
  match clusters c !! cluster_name with
  | Some cluster_ =>
      inl (StorageDistributed_full name_ columns_ materialized_columns_ alias_columns_
             column_defaults_ remote_database_ remote_table_ cluster_
             sharding_key_ data_path_ c)
  | None => inr unknown_cluster
  end.

(** [create] with a cluster of its own: no sharding key and no data
    path are passed, the constructor takes its defaults for them. *)
Definition create_owned (name_ : string) (columns_ : NamesAndTypesList)
    (remote_database_ remote_table_ : string) (owned_cluster_ : Cluster)
    (c : Context) : Outcome unit * State :=
  match StorageDistributed_short name_ columns_ remote_database_ remote_table_
          owned_cluster_ nullptr "" c with
  | (r, s) => (r, on_this (set_owned_cluster (Some owned_cluster_)) s)
  end.

End Construction.

(** ** Dispatch to the cluster *)

Definition finished_streams : BlockInputStreams := mkStreams true None [] false None.

(** [ClusterProxy::Query{constructor, cluster, query, context, settings,
    enable_shard_multiplexing}.execute()] *)
Definition ClusterProxy_Query_execute (constructor : QueryConstructor) (query : ASTPtr)
    (settings : Settings) (multiplexing : bool) : M State BlockInputStreams :=
  fun s =>
    let d := mkDispatch constructor (cluster (this s)) query
               (query ≫= (fun l => asts (context s) !! l)) settings multiplexing in
    let s1 := on_context (record_event (execute d)) s in
    match cluster_proxy (context s1) with
    | [] => (Returned finished_streams, s1)
    | inl e :: rest => (Thrown e, on_context (set_cluster_proxy rest) s1)
    | inr streams :: rest => (Returned streams, on_context (set_cluster_proxy rest) s1)
    end.

(** ** read *)

Definition result_size (c : Cluster) (settings : Settings) : Z :=
  size_t_add (size_t_mul (getRemoteShardCount c) (max_parallel_replicas settings))
             (getLocalShardCount c).

Definition processed_stage_of (c : Cluster) (settings : Settings) : QueryProcessingStage :=
  if (result_size c settings =? 1) || distributed_group_by_no_merge settings
  then Complete
  else WithMergeableState.

(** What [read] does after it has chosen the stage. *)
Definition read_streams (processed_stage : QueryProcessingStage) (query : ASTPtr)
    (settings : Settings) : M State BlockInputStreams :=
  let! t := gets this in
  let! modified_query_ast :=
    rewriteSelectQuery query (remote_database t) (remote_table t) in
  let! external_tables :=
    match global_subqueries_method settings with
    | PUSH => gets (fun s => getExternalTables (context s))
    | PULL => ret []
    end in
  let enable_shard_multiplexing := false in
  try_catch
    (ClusterProxy_Query_execute (SelectQueryConstructor processed_stage external_tables)
       modified_query_ast settings enable_shard_multiplexing)
    (fun e => release modified_query_ast >> throw e).

(** [processed_stage] is a reference parameter, assigned before anything
    in [read] can throw: the first component is what the caller finds in
    it after the call, however the call ends. *)
Definition read (column_names : list string) (query : ASTPtr) (settings : Settings)
    (max_block_size : Z) (threads : Z) (s : State)
    : QueryProcessingStage * (Outcome BlockInputStreams * State) :=
  let processed_stage := processed_stage_of (cluster (this s)) settings in
  (processed_stage, read_streams processed_stage query settings s).

(** ** write *)

Definition getName : string := "Distributed".

Record DistributedBlockOutputStream := mkDistributedBlockOutputStream {
  output_storage : string;
  query_ast : ASTPtr
}.

Definition write_not_supported : Exn :=
  Exception ("Method write is not supported by storage " +:+ getName +:+
             " with more than one shard and no sharding key provided")
            STORAGE_REQUIRES_PARAMETER.

Definition write (query : ASTPtr) (settings : Settings) : M State DistributedBlockOutputStream :=
  let! t := gets this in
  if negb (write_enabled t) then throw write_not_supported
  else
    let! q := rewriteInsertQuery query (remote_database t) (remote_table t) in
    ret (mkDistributedBlockOutputStream (getTableName t) q).

(** ** alter *)

Definition no_primary_key : Exn :=
  Exception ("Storage engine " +:+ getName +:+ " doesn't support primary key.")
            NOT_IMPLEMENTED.

(** Modelled from the spec: [Context::getDatabase] and
    [IDatabase::alterTable] are not part of the sources.  The owning
    database keeps, per table, the column lists last handed to its
    metadata-alteration call; a database that does not exist is an
    error. *)
Definition unknown_database : Exn := Exception "Database doesn't exist" (OTHER_ERROR 81).

Definition getDatabase_alterTable (database_name table_name : string) (sc : Schema)
    : M State unit :=
  let! dbs := gets (fun s => databases (context s)) in
  match dbs !! database_name with
  | None => throw unknown_database
  | Some tables =>
      emit (alterTable database_name table_name sc) >>
      modify (on_context (set_databases (<[database_name := <[table_name := sc]> tables]> dbs)))
  end.

(** The structure lock is held from its acquisition to the end of the
    scope, whichever way the scope is left. *)
Definition with_structure_lock {A} (body : M State A) : M State A :=
  emit lockStructureForAlter >>
  finally body (emit unlockStructure).

(** The call of [params.apply] on the four column members of the table:
    it works on the members themselves, so what it has done to them
    stays when it throws. *)
Definition apply_to_columns (params : AlterCommands) : M State unit :=
  fun s =>
    match apply params (schema (this s)) with
    | (r, sc) =>
        (r, on_context (record_event (apply_commands sc)) (on_this (set_schema sc) s))
    end.

Definition alter (params : AlterCommands) (database_name table_name : string) : M State unit :=
  for_each (commands params) (fun param =>
    if is_modify_primary_key param then throw no_primary_key else ret tt) >>
  with_structure_lock (
    apply_to_columns params >>
    let! sc := gets (fun s => schema (this s)) in
    getDatabase_alterTable database_name table_name sc).

(** ** describe *)

Definition describe (settings : Settings) : M State BlockInputStreams :=
  let! t := gets this in
  let! describe_query_ptr :=
    make_shared (ASTDescribeQuery (remote_database t) (remote_table t)) in
  let enable_shard_multiplexing := false in
  ClusterProxy_Query_execute DescribeQueryConstructor describe_query_ptr settings
    enable_shard_multiplexing.

(** ** Calls to the resharding worker *)

Definition set_faults (f : list (option Exn)) (w : ReshardingWorker) : ReshardingWorker :=
  mkReshardingWorker (started w) (coordinators w) (created w) f.
Definition set_coordinators (m : gmap string Coordinator) (w : ReshardingWorker)
    : ReshardingWorker :=
  mkReshardingWorker (started w) m (created w) (faults w).

(** One call: it throws when the next fault says so, otherwise [body]
    acts on the records and answers.  Either way the call is recorded. *)
Definition worker_call {A} (call : WorkerCall)
    (body : ReshardingWorker -> A * ReshardingWorker) : M State A :=
  fun s =>
    let w := resharding_worker (context s) in
    match faults w with
    | Some e :: rest =>
        (Thrown e,
         on_context (fun c =>
           record_event (worker_event call false)
             (set_resharding_worker (set_faults rest w) c)) s)
    | _ =>
        match body (set_faults (tail (faults w)) w) with
        | (a, w') =>
            (Returned a,
             on_context (fun c =>
               record_event (worker_event call true) (set_resharding_worker w' c)) s)
        end
    end.

Definition isStarted : M State bool :=
  gets (fun s => started (resharding_worker (context s))).

Definition coordinator_name (n : nat) : string := "coordinator-" +:+ pretty n.

Definition createCoordinator (c : Cluster) : M State string :=
  worker_call createCoordinator_call (fun w =>
    let id := coordinator_name (created w) in
    (id, mkReshardingWorker (started w)
           (<[id := mkCoordinator None STATUS_CREATED ""]> (coordinators w))
           (S (created w)) (faults w))).

Definition registerQuery (coordinator_id : string) (query : Text) : M State unit :=
  worker_call (registerQuery_call coordinator_id query) (fun w =>
    (tt, set_coordinators
           (base.alter (fun r => mkCoordinator (Some query) STATUS_REGISTERED (status_message r))
              coordinator_id (coordinators w)) w)).

Definition setStatus (coordinator_id : string) (st : StatusCode) (msg : string)
    : M State unit :=
  worker_call (setStatus_call coordinator_id st msg) (fun w =>
    (tt, set_coordinators
           (base.alter (fun r => mkCoordinator (registered_query r) st msg)
              coordinator_id (coordinators w)) w)).

Definition status_name (st : StatusCode) : string :=
  match st with
  | STATUS_CREATED => "CREATED"
  | STATUS_REGISTERED => "REGISTERED"
  | STATUS_RUNNING => "RUNNING"
  | STATUS_COMPLETED => "COMPLETED"
  | STATUS_ERROR => "ERROR"
  end.

Definition dumpCoordinatorState (coordinator_id : string) : M State string :=
  worker_call (dumpCoordinatorState_call coordinator_id) (fun w =>
    (match coordinators w !! coordinator_id with
     | Some r => coordinator_id +:+ ": " +:+ status_name (status r) +:+ " " +:+ status_message r
     | None => coordinator_id +:+ ": no such coordinator"
     end, w)).

Definition deleteCoordinator (coordinator_id : string) : M State unit :=
  worker_call (deleteCoordinator_call coordinator_id) (fun w =>
    (tt, set_coordinators (delete coordinator_id (coordinators w)) w)).

(** ** reshardPartitions *)

(** The locals that the two lambdas capture by reference, next to the
    state they act on. *)
Record Frame := mkFrame {
  has_notified_error : bool;
  dumped_coordinator_state : string;
  outer : State
}.

Definition lift {A} (m : M State A) : M Frame A :=
  zoom outer (fun s f => mkFrame (has_notified_error f) (dumped_coordinator_state f) s) m.
Definition set_has_notified_error (b : bool) : M Frame unit :=
  modify (fun f => mkFrame b (dumped_coordinator_state f) (outer f)).
Definition set_dumped_coordinator_state (d : string) : M Frame unit :=
  modify (fun f => mkFrame (has_notified_error f) d (outer f)).

(** Run a block with fresh locals; they go away with the block. *)
Definition with_locals {A} (m : M Frame A) : M State A :=
  fun s =>
    match m (mkFrame false "" s) with
    | (r, f) => (r, outer f)
    end.

Definition message (ex : Exn) : string :=
  match ex with
  | Exception msg _ => msg
  | std_exception what => what
  | foreign_exception _ => ""
  end.

Definition handle_exception (coordinator_id msg : string) : M Frame unit :=
  try_catch
    (let! notified := gets has_notified_error in
     when (negb notified) (lift (setStatus coordinator_id STATUS_ERROR msg)) >>
     let! dump := lift (dumpCoordinatorState coordinator_id) in
     set_dumped_coordinator_state dump >>
     lift (deleteCoordinator coordinator_id))
    (fun e => lift (emit (tryLogCurrentException e))).

Definition exception_callback (coordinator_id : string) : M Frame unit :=
  try_catch
    (lift (setStatus coordinator_id STATUS_ERROR "") >>
     set_has_notified_error true)
    (fun e => lift (emit (tryLogCurrentException e))).

(** [while (!stream.isCancelled() && stream.read());] answering whether
    the stream was found cancelled. *)
Fixpoint drain (coordinator_id : string) (todo : list ReadStep) : M Frame bool :=
  match todo with
  | [] => ret false
  | Cancelled :: _ => ret true
  | Block :: rest => drain coordinator_id rest
  | ShardFailure e :: _ => exception_callback coordinator_id >> throw e
  end.

Definition raise_if {S} (failure : option Exn) : M S unit :=
  match failure with
  | Some e => throw e
  | None => ret tt
  end.

Definition internal_error : Exn :=
  Exception "StorageDistributed: Internal error" LOGICAL_ERROR.

Definition weighted_path (entry : string * Z) : AST :=
  ASTWeightedZooKeeperPath (fst entry) (snd entry).

(** The [ALTER TABLE ... RESHARD [COPY] PARTITION ... COORDINATE WITH ...]
    query. *)
Definition reshard_query (t : StorageDistributed) (first_partition last_partition : Field)
    (weighted_zookeeper_paths : list (string * Z)) (sharding_key_expr : option AST)
    (do_copy : bool) (coordinator_id : string) : AST :=
  ASTAlterQuery (remote_database t) (remote_table t)
    [mkAlterParameters RESHARD_PARTITION
       (if isNull first_partition then None else Some (ASTLiteral first_partition))
       (if isNull last_partition then None else Some (ASTLiteral last_partition))
       (Some (ASTExpressionList (map weighted_path weighted_zookeeper_paths)))
       sharding_key_expr
       do_copy
       (Some (ASTLiteral (String coordinator_id)))].

(** The body of the [try] block. *)
Definition dispatch (first_partition last_partition : Field)
    (weighted_zookeeper_paths : list (string * Z)) (sharding_key_expr : ASTPtr)
    (do_copy : bool) (settings : Settings) (coordinator_id : string) : M Frame unit :=
  let! s := gets outer in
  let alter_query :=
    reshard_query (this s) first_partition last_partition weighted_zookeeper_paths
      (sharding_key_expr ≫= (fun l => asts (context s) !! l)) do_copy coordinator_id in
  let! alter_query_ptr := lift (make_shared alter_query) in
  finally
    (lift (registerQuery coordinator_id (queryToString alter_query)) >>
     let enable_shard_multiplexing := false in
     let! streams :=
       lift (ClusterProxy_Query_execute AlterQueryConstructor alter_query_ptr settings
               enable_shard_multiplexing) in
     (if is_profiling streams then ret tt else throw internal_error) >>
     raise_if (prefix_failure streams) >>
     let! cancelled := drain coordinator_id (steps streams) in
     when (negb (cancelled || cancelled_at_end streams)) (raise_if (suffix_failure streams)))
    (lift (release alter_query_ptr)).

Definition no_worker : Exn :=
  Exception "Resharding background thread is not running" RESHARDING_NO_WORKER.

Definition coordinate_with_forbidden : Exn :=
  Exception ("Use of COORDINATE WITH is forbidden in ALTER TABLE ... RESHARD" +:+
             " queries for distributed tables")
            RESHARDING_INVALID_PARAMETERS.

Definition reshardPartitions (query : ASTPtr) (database_name : string)
    (first_partition last_partition : Field)
    (weighted_zookeeper_paths : list (string * Z)) (sharding_key_expr : ASTPtr)
    (do_copy : bool) (coordinator : Field) (settings : Settings) : M State unit :=
  let! worker_started := isStarted in
  if negb worker_started then throw no_worker
  else if negb (isNull coordinator) then throw coordinate_with_forbidden
  else
    let! c := gets (fun s => cluster (this s)) in
    let! coordinator_id := createCoordinator c in
    with_locals (
      try_catch
        (dispatch first_partition last_partition weighted_zookeeper_paths
           sharding_key_expr do_copy settings coordinator_id)
        (fun ex =>
           handle_exception coordinator_id (message ex) >>
           let! dump := gets dumped_coordinator_state in
           lift (emit (LOG_ERROR dump)) >>
           throw ex)).

(** ** Every operation on a table *)

Inductive Operation :=
| do_read (column_names : list string) (query : ASTPtr) (settings : Settings)
    (max_block_size threads : Z)
| do_write (query : ASTPtr) (settings : Settings)
| do_alter (params : AlterCommands) (database_name table_name : string)
| do_shutdown
| do_reshardPartitions (query : ASTPtr) (database_name : string)
    (first_partition last_partition : Field)
    (weighted_zookeeper_paths : list (string * Z)) (sharding_key_expr : ASTPtr)
    (do_copy : bool) (coordinator : Field) (settings : Settings)
| do_describe (settings : Settings)
| do_createDirectoryMonitor (name : string)
| do_createDirectoryMonitors
| do_requireDirectoryMonitor (name : string).

(** The state an operation leaves, whether it returns or throws. *)
Definition perform (op : Operation) (s : State) : State :=
  match op with
  | do_read column_names query settings max_block_size threads =>
      snd (snd (read column_names query settings max_block_size threads s))
  | do_write query settings => snd (write query settings s)
  | do_alter params database_name table_name =>
      snd (alter params database_name table_name s)
  | do_shutdown => snd (shutdown s)
  | do_reshardPartitions query database_name first_partition last_partition
      weighted_zookeeper_paths sharding_key_expr do_copy coordinator settings =>
      snd (reshardPartitions query database_name first_partition last_partition
             weighted_zookeeper_paths sharding_key_expr do_copy coordinator settings s)
  | do_describe settings => snd (describe settings s)
  | do_createDirectoryMonitor name => snd (createDirectoryMonitor name s)
  | do_createDirectoryMonitors => snd (createDirectoryMonitors s)
  | do_requireDirectoryMonitor name => snd (requireDirectoryMonitor name s)
  end.

Definition perform_all (ops : list Operation) (s : State) : State :=
  foldl (fun acc op => perform op acc) s ops.

(** * The vocabulary of the statements *)

(** ** Frames *)

(** [preserves R m]: whatever the outcome of [m], the state it leaves is
    related by [R] to the state it started from. *)
Definition preserves {S A} (R : S -> S -> Prop) (m : M S A) : Prop :=
  forall s, R s (snd (m s)).

(** The flag of the table is the same in both states. *)
Definition same_write_enabled (s s' : State) : Prop :=
  write_enabled (this s') = write_enabled (this s).

(** The same, under the locals of [reshardPartitions]. *)
Definition frame_same_write_enabled (f f' : Frame) : Prop :=
  same_write_enabled (outer f) (outer f').

(** The flag as the member initialiser leaves it. *)
Definition write_enabled_at_construction (cluster_ : Cluster) (sharding_key_ : ASTPtr)
    (data_path_ : string) : bool :=
  negb (is_empty data_path_)
  && ((size_t_add (getLocalShardCount cluster_) (getRemoteShardCount cluster_) <? 2)
      || negb (is_null sharding_key_)).

(** ** Rewriting *)

(** Two states that differ in the AST objects only. *)
Definition same_but_asts (s s' : State) : Prop :=
  this s' = this s
  /\ files (context s') = files (context s)
  /\ resharding_worker (context s') = resharding_worker (context s)
  /\ databases (context s') = databases (context s)
  /\ trace (context s') = trace (context s).

(** What a rewriter leaves when the statement at [l] has the expected
    shape and [rewritten] is what the copy is changed to: a new object
    [l'] that holds [rewritten], every object that was there before
    untouched. *)
Definition rewritten_copy (l : positive) (rewritten : AST)
    (s : State) (result : Outcome ASTPtr * State) : Prop :=
  exists l',
    fst result = Returned (Some l')
    /\ asts (context s) !! l' = None
    /\ asts (context (snd result)) !! l' = Some rewritten
    /\ (forall k, k <> l' -> asts (context (snd result)) !! k = asts (context s) !! k)
    /\ asts (context (snd result)) !! l = asts (context s) !! l
    /\ same_but_asts s (snd result).

(** ** Directory monitors *)

(** What one turn of the loop of [createDirectoryMonitors] does to the
    monitors of the table called [storage]. *)
Definition adopt (storage : string) (monitors : gmap string DirectoryMonitor)
    (it : DirEntry) : gmap string DirectoryMonitor :=
  if isDirectory it
  then emplace (entry_name it) (mkDirectoryMonitor storage (entry_name it)) monitors
  else monitors.

(** The entries that are directories. *)
Definition subdirectories (entries : list DirEntry) : list DirEntry :=
  List.filter isDirectory entries.

(** Whether some entry is a directory called [n]. *)
Definition has_subdirectory (n : string) (entries : list DirEntry) : bool :=
  existsb (fun it => isDirectory it && bool_decide (entry_name it = n)) entries.

(** ** The trace of a resharding call *)

(** A call of [setStatus(_, STATUS_ERROR, _)], with whether it returned. *)
Definition error_notification (ev : Event) : option bool :=
  match ev with
  | worker_event (setStatus_call _ STATUS_ERROR _) succeeded => Some succeeded
  | _ => None
  end.

(** The error notifications among some events, in the order of the
    events. *)
Definition error_notifications (events : list Event) : list bool :=
  omap error_notification events.

(** [adds P s s']: from [s] to [s'] the trace has grown by events that
    satisfy [P]. *)
Definition adds (P : list Event -> Prop) (s s' : State) : Prop :=
  exists new, trace (context s') = new ++ trace (context s) /\ P new.

(** No error notification from [s] to [s']. *)
Definition silent : State -> State -> Prop :=
  adds (fun new => error_notifications new = []).

(** The same for the frames of [reshardPartitions]; the flag stays. *)
Definition quiet (f f' : Frame) : Prop :=
  has_notified_error f' = has_notified_error f
  /\ dumped_coordinator_state f' = dumped_coordinator_state f
  /\ silent (outer f) (outer f').

(** At most one error notification, and the flag is set exactly when
    there was one and it returned: what the read loop with its callback
    does.  The dump is not touched. *)
Definition notifies_once (f f' : Frame) : Prop :=
  exists new,
    trace (context (outer f')) = new ++ trace (context (outer f))
    /\ dumped_coordinator_state f' = dumped_coordinator_state f
    /\ ((error_notifications new = [] /\ has_notified_error f' = has_notified_error f)
        \/ (error_notifications new = [true] /\ has_notified_error f' = true)
        \/ (error_notifications new = [false]
            /\ has_notified_error f' = has_notified_error f)).

(** What the cleanup does: one error notification when the flag is not
    set, none when it is. *)
Definition notifies_unless_notified (f f' : Frame) : Prop :=
  exists new,
    trace (context (outer f')) = new ++ trace (context (outer f))
    /\ (if has_notified_error f then error_notifications new = []
        else exists b, error_notifications new = [b]).

(** The error notifications of a whole call, oldest first: none, one,
    or one that threw followed by a second. *)
Definition at_most_one_retry (outcomes : list bool) : Prop :=
  outcomes = [] \/ (exists b, outcomes = [b]) \/ (exists b, outcomes = [false; b]).

(** What the [try] block with its handlers does, started with the flag
    unset. *)
Definition settles (f f' : Frame) : Prop :=
  has_notified_error f = false ->
  exists new,
    trace (context (outer f')) = new ++ trace (context (outer f))
    /\ at_most_one_retry (reverse (error_notifications new)).

(** The calls [handle_exception] means to make, in order. *)
Definition cleanup_calls (notified : bool) (coordinator_id msg : string) : list WorkerCall :=
  (if notified then [] else [setStatus_call coordinator_id STATUS_ERROR msg])
  ++ [dumpCoordinatorState_call coordinator_id; deleteCoordinator_call coordinator_id].

(** The events of calls that all returned. *)
Definition completed (calls : list WorkerCall) : list Event :=
  (fun call => worker_event call true) <$> calls.

(** The events of one cleanup, oldest first: all the calls made and
    returned, or the calls up to the first that threw, that one, and the
    log entry of what it threw; the calls after it are not made. *)
Inductive cleanup_attempt (calls : list WorkerCall) : list Event -> Prop :=
| cleanup_completed :
    cleanup_attempt calls (completed calls)
| cleanup_abandoned (done : list WorkerCall) (failed : WorkerCall)
    (skipped : list WorkerCall) (e : Exn) :
    calls = done ++ failed :: skipped ->
    cleanup_attempt calls
      (completed done ++ [worker_event failed false; tryLogCurrentException e]).

(** The events of one cleanup, oldest first, when the calls to the
    worker throw as [fl] says: each call is made and returns, until one
    throws; that one is recorded with the log entry of what it threw,
    and the calls after it are not made. *)
Fixpoint cleanup_events (calls : list WorkerCall) (fl : list (option Exn)) : list Event :=
  match calls with
  | [] => []
  | call :: rest =>
      match fl with
      | Some e :: _ => [worker_event call false; tryLogCurrentException e]
      | _ => worker_event call true :: cleanup_events rest (tail fl)
      end
  end.

(** What [dumpCoordinatorState] answers in a cleanup started in [s], if
    the cleanup gets that far and the call returns. *)
Definition dump_answered (notified : bool) (coordinator_id msg : string) (s : State)
    : option string :=
  match fst ((when (negb notified) (setStatus coordinator_id STATUS_ERROR msg) >>
              dumpCoordinatorState coordinator_id) s) with
  | Returned dump => Some dump
  | Thrown _ => None
  end.

Definition worker_of (f : Frame) : ReshardingWorker :=
  resharding_worker (context (outer f)).

(** The notifications of a whole call, on states. *)
Definition settled : State -> State -> Prop :=
  adds (fun new => at_most_one_retry (reverse (error_notifications new))).

(** The calls made to the worker among some events, in the order of the
    events. *)
Definition worker_calls (events : list Event) : list (WorkerCall * bool) :=
  omap (fun ev =>
    match ev with
    | worker_event call succeeded => Some (call, succeeded)
    | _ => None
    end) events.

(** ** What the operations touch *)

(** The table object is the same in both states. *)
Definition same_table (s s' : State) : Prop := this s' = this s.

(** An event that is not a dispatch with shard multiplexing enabled. *)
Definition not_multiplexed (ev : Event) : Prop :=
  forall d, ev = execute d -> enable_shard_multiplexing d = false.

(** From [s] to [s'] nothing was dispatched with shard multiplexing
    enabled. *)
Definition never_multiplexed : State -> State -> Prop :=
  adds (Forall not_multiplexed).

(** What a table is and where it points: everything but its columns and
    its directory monitors. *)
Definition same_identity (t t' : StorageDistributed) : Prop :=
  name t' = name t
  /\ remote_database t' = remote_database t
  /\ remote_table t' = remote_table t
  /\ cluster t' = cluster t
  /\ sharding_key_expr t' = sharding_key_expr t
  /\ sharding_key_column_name t' = sharding_key_column_name t
  /\ write_enabled t' = write_enabled t
  /\ path t' = path t
  /\ owned_cluster t' = owned_cluster t.

(** Every monitor of the table is filed under its own name and belongs
    to the table. *)
Definition monitors_well_keyed (t : StorageDistributed) : Prop :=
  forall n m, directory_monitors t !! n = Some m -> m = mkDirectoryMonitor (name t) n.

(** ** The ways [alter] ends *)

(** The state once [alter] holds the lock and [params.apply] has worked
    on the columns, whether it returned or threw. *)
Definition altered_in_memory (params : AlterCommands) (s : State) : State :=
  let sc := snd (apply params (schema (this s))) in
  on_context (record_event (apply_commands sc))
    (on_this (set_schema sc) (on_context (record_event lockStructureForAlter) s)).

(** The state when [params.apply] threw or the owning database is not
    found: the lock is given back, the columns stay as [apply] left
    them. *)
Definition altered_not_persisted (params : AlterCommands) (s : State) : State :=
  on_context (record_event unlockStructure) (altered_in_memory params s).

(** The state when [alterTable] has been called on [tables], the tables
    of the owning database. *)
Definition altered_and_persisted (params : AlterCommands)
    (database_name table_name : string) (tables : gmap string Schema) (s : State) : State :=
  let sc := snd (apply params (schema (this s))) in
  on_context (record_event unlockStructure)
    (on_context
       (set_databases (<[database_name := <[table_name := sc]> tables]>
                         (databases (context s))))
       (on_context (record_event (alterTable database_name table_name sc))
          (altered_in_memory params s))).

(** What [alter] throws when it has taken the lock and does not
    return. *)
Definition alter_failure (params : AlterCommands) (s : State) : Exn :=
  match fst (apply params (schema (this s))) with
  | Thrown e => e
  | Returned _ => unknown_database
  end.

(** The surroundings once the directory [p] is sure to exist. *)
Definition ensure_directory (p : string) (c : Context) : Context :=
  match files c !! p with
  | Some _ => c
  | None => set_files (<[p := []]> (files c)) c
  end.

(** ** Statements of the wrong kind *)

Definition is_select (node : AST) : bool :=
  match node with ASTSelectQuery _ _ _ => true | _ => false end.

Definition is_insert (node : AST) : bool :=
  match node with ASTInsertQuery _ _ _ _ _ _ => true | _ => false end.

(** Whether the next call to the worker is going to throw. *)
Definition next_call_throws (w : ReshardingWorker) : bool :=
  match faults w with
  | Some _ :: _ => true
  | _ => false
  end.

(** * Sample tables, statements and runs *)

Definition empty_worker : ReshardingWorker := mkReshardingWorker true ∅ 0 [].

Definition empty_context : Context := mkContext ∅ ∅ empty_worker ∅ [] ∅ [] [].

(** A table [hits_all] over [default.hits], without sharding key, as the
    member initialisers make it. *)
Definition sample_table (c : Cluster) (data_path_ : string) : StorageDistributed :=
  initialise (fun name => name) "hits_all" (mkSchema [] [] [] []) "default" "hits"
    c nullptr data_path_ empty_context.

Definition three_local_shards : Cluster := mkCluster 3 0 eq_refl.

Definition local_only_table : StorageDistributed :=
  sample_table three_local_shards "/data/".

Definition two_remote_one_local : Cluster := mkCluster 1 2 eq_refl.

Definition replicas_overflow : Settings :=
  mkSettings (2 ^ 63) false PULL 1024.

Definition overflow_table : StorageDistributed :=
  sample_table two_remote_one_local "/data/".

Definition one_remote_shard : Cluster := mkCluster 0 1 eq_refl.

Definition single_shard_table : StorageDistributed :=
  sample_table one_remote_shard "/data/".

Definition default_settings : Settings := mkSettings 1 false PULL 1024.

Definition stopped_worker : ReshardingWorker := mkReshardingWorker false ∅ 0 [].

Definition stopped_context : Context := mkContext ∅ ∅ stopped_worker ∅ [] ∅ [] [].

Definition sample_select : AST :=
  ASTSelectQuery (Some (ASTIdentifier "default" Database))
    (Some (ASTIdentifier "hits_all" Table))
    [("select", ASTExpressionList [ASTIdentifier "UserID" Column]);
     ("where", ASTIdentifier "IsRobot" Column)].

Definition sample_insert : AST :=
  ASTInsertQuery "default" "hits_all" (Some sample_select)
    (Some (ASTExpressionList [ASTIdentifier "UserID" Column])) "TabSeparated" "1\n2\n".

Definition context_with (node : AST) : Context :=
  mkContext {[ 1%positive := node ]} ∅ empty_worker ∅ [] ∅ [] [].

Definition insert_context : Context := context_with sample_insert.

Definition sample_state : State :=
  perform_all [do_shutdown]
    (snd (StorageDistributed_full (fun name => name) "hits_all" [] [] [] []
            "default" "hits" one_remote_shard nullptr "/data/" insert_context)).

Definition pending_shards : list DirEntry :=
  [mkDirEntry "default@host1:9000" true ["1.bin"; "2.bin"];
   mkDirEntry "default@host2:9000" true [];
   mkDirEntry "notes.txt" false []].

Definition startup_context : Context :=
  mkContext ∅ {[ "/data/hits_all/" := pending_shards ]} empty_worker ∅ [] ∅ [] [].

(** [ALTER TABLE ... ADD COLUMN column type]. *)
Definition add_column (column type : string) : AlterCommands :=
  mkAlterCommands [mkAlterCommand (OTHER_COMMAND 0)] (fun sc =>
    (Returned tt,
     mkSchema (columns sc ++ [(column, type)]) (materialized_columns sc)
       (alias_columns sc) (column_defaults sc))).


Definition no_such_column : Exn :=
  Exception "Wrong column name. Cannot find column Age to drop" (OTHER_ERROR 10).

(** [ALTER TABLE ... DROP COLUMN Age] on a table without that column:
    [apply] throws and leaves the lists alone. *)
Definition drop_missing_column : AlterCommands :=
  mkAlterCommands [mkAlterCommand (OTHER_COMMAND 1)] (fun sc => (Thrown no_such_column, sc)).


Definition boom : Exn := Exception "Connection reset by peer" (OTHER_ERROR 210).
Definition session_expired : Exn := Exception "Session expired" (OTHER_ERROR 999).

(** A shard fails while the union stream is read. *)
Definition failing_shard : BlockInputStreams :=
  mkStreams true None [Block; ShardFailure boom] false None.

Definition resharding_state (worker_faults : list (option Exn)) : State :=
  mkState single_shard_table
    (mkContext ∅ ∅ (mkReshardingWorker true ∅ 0 worker_faults) ∅ [] ∅
       [inr failing_shard] []).

Definition reshard (worker_faults : list (option Exn)) : Outcome unit * State :=
  reshardPartitions nullptr "default" Null Null [("/clickhouse/shard3", 1)] nullptr
    false Null default_settings (resharding_state worker_faults).

Definition reshard_text : Text :=
  queryToString
    (reshard_query single_shard_table Null Null [("/clickhouse/shard3", 1)] None false
       "coordinator-0").

Definition faults_in_cleanup : list (option Exn) := [None; None; None; Some session_expired].

Definition created_state : State :=
  snd (createCoordinator one_remote_shard (resharding_state faults_in_cleanup)).

Definition failed_frame : Frame :=
  snd (dispatch Null Null [("/clickhouse/shard3", 1)] nullptr false default_settings
         "coordinator-0" (mkFrame false "" created_state)).

(** A shard that answers two blocks and then ends. *)
Definition answering_shard : BlockInputStreams :=
  mkStreams true None [Block; Block] false None.

Definition answering_state : State :=
  mkState single_shard_table
    (mkContext ∅ ∅ (mkReshardingWorker true ∅ 0 []) ∅ [] ∅ [inr answering_shard] []).

(** * Reasoning about computations *)

Section Preservation.
Context {S : Type} (R : relation S) `{!PreOrder R}.

Lemma preserves_ret {A} (a : A) : preserves R (ret a).
Proof. intros s. reflexivity. Qed.

Lemma preserves_throw {A} (e : Exn) : preserves R (@throw S A e).
Proof. intros s. reflexivity. Qed.

Lemma preserves_gets {A} (f : S -> A) : preserves R (gets f).
Proof. intros s. reflexivity. Qed.

Lemma preserves_modify (f : S -> S) : (forall s, R s (f s)) -> preserves R (modify f).
Proof. intros Hf s. apply Hf. Qed.

Lemma preserves_bind {A B} (m : M S A) (k : A -> M S B) :
  preserves R m -> (forall a, preserves R (k a)) -> preserves R (bind m k).
Proof.
  intros Hm Hk s. unfold bind.
  specialize (Hm s). destruct (m s) as [[a | e] s1]; simpl in *.
  - etransitivity; [exact Hm | apply Hk].
  - exact Hm.
Qed.

Lemma preserves_try_catch {A} (m : M S A) (h : Exn -> M S A) :
  preserves R m -> (forall e, preserves R (h e)) -> preserves R (try_catch m h).
Proof.
  intros Hm Hh s. unfold try_catch.
  specialize (Hm s). destruct (m s) as [[a | e] s1]; simpl in *.
  - exact Hm.
  - etransitivity; [exact Hm | apply Hh].
Qed.

Lemma preserves_when (b : bool) (m : M S unit) :
  preserves R m -> preserves R (when b m).
Proof. destruct b; simpl; [auto | intros _; apply preserves_ret]. Qed.

Lemma preserves_finally {A} (m : M S A) (cleanup : M S unit) :
  preserves R m -> preserves R cleanup -> preserves R (finally m cleanup).
Proof.
  intros Hm Hc s. unfold finally.
  specialize (Hm s). destruct (m s) as [r s1]. simpl in Hm.
  specialize (Hc s1). destruct (cleanup s1) as [[[] | e] s2]; simpl in *;
    etransitivity; eassumption.
Qed.

Lemma preserves_for_each {A} (l : list A) (body : A -> M S unit) :
  (forall x, preserves R (body x)) -> preserves R (for_each l body).
Proof.
  intros Hb. induction l as [| x rest IH]; simpl.
  - apply preserves_ret.
  - apply preserves_bind; [apply Hb | intros _; exact IH].
Qed.

Lemma preserves_raise_if (failure : option Exn) : preserves R (@raise_if S failure).
Proof. destruct failure; [apply preserves_throw | apply preserves_ret]. Qed.

End Preservation.

(** ** The write-enabled flag is a frame of every operation *)

#[local] Instance same_write_enabled_preorder : PreOrder same_write_enabled.
Proof.
  split.
  - intros s. reflexivity.
  - intros s1 s2 s3 H12 H23. unfold same_write_enabled in *. congruence.
Qed.

#[local] Instance frame_same_write_enabled_preorder : PreOrder frame_same_write_enabled.
Proof.
  split.
  - intros f. unfold frame_same_write_enabled. reflexivity.
  - intros f1 f2 f3. unfold frame_same_write_enabled. apply transitivity.
Qed.

Create HintDb keeps.

(** Syntax-directed proof of a preservation statement: known operations
    by the hints, the rest by the structure of the computation. *)
Ltac keeps :=
  repeat (intros; first
    [ match goal with |- PreOrder _ => exact _ end
    | solve [auto with keeps]
    | apply preserves_ret | apply preserves_throw | apply preserves_gets
    | apply preserves_when | apply preserves_raise_if
    | apply preserves_for_each | apply preserves_finally
    | apply preserves_try_catch | apply preserves_bind
    | match goal with |- preserves _ (match ?x with _ => _ end) => destruct x end
    | match goal with |- preserves _ (if ?x then _ else _) => destruct x end ]).

Lemma keeps_on_context (f : Context -> Context) :
  preserves same_write_enabled (modify (on_context f)).
Proof. apply preserves_modify. intros s. reflexivity. Qed.

Lemma keeps_emit (ev : Event) : preserves same_write_enabled (emit ev).
Proof. apply keeps_on_context. Qed.

Lemma keeps_deref (p : ASTPtr) : preserves same_write_enabled (deref p).
Proof. intros s. unfold deref. destruct (p ≫= _); reflexivity. Qed.

Lemma keeps_make_shared (node : AST) : preserves same_write_enabled (make_shared node).
Proof. intros s. reflexivity. Qed.

Lemma keeps_execute constructor query settings multiplexing :
  preserves same_write_enabled
    (ClusterProxy_Query_execute constructor query settings multiplexing).
Proof.
  intros s. unfold ClusterProxy_Query_execute. simpl.
  destruct (cluster_proxy (context s)) as [| [e | streams] rest]; reflexivity.
Qed.

Lemma keeps_worker_call {A} call (body : ReshardingWorker -> A * ReshardingWorker) :
  preserves same_write_enabled (worker_call call body).
Proof.
  intros s. unfold worker_call.
  destruct (faults (resharding_worker (context s))) as [| [e |] rest];
    try reflexivity; destruct (body _); reflexivity.
Qed.

Lemma keeps_createDirectoryMonitor name :
  preserves same_write_enabled (createDirectoryMonitor name).
Proof. intros s. reflexivity. Qed.

Lemma keeps_shutdown : preserves same_write_enabled shutdown.
Proof. intros s. reflexivity. Qed.

Lemma keeps_apply_to_columns (params : AlterCommands) :
  preserves same_write_enabled (apply_to_columns params).
Proof.
  intros s. unfold apply_to_columns. destruct (apply params (schema (this s))). reflexivity.
Qed.

#[local] Hint Resolve keeps_on_context keeps_emit keeps_deref keeps_make_shared
  keeps_execute keeps_worker_call keeps_createDirectoryMonitor keeps_shutdown
  keeps_apply_to_columns : keeps.

Lemma keeps_assign (p : ASTPtr) (node : AST) : preserves same_write_enabled (assign p node).
Proof. unfold assign. keeps. Qed.

Lemma keeps_release (p : ASTPtr) : preserves same_write_enabled (release p).
Proof. unfold release. keeps. Qed.

#[local] Hint Resolve keeps_assign keeps_release : keeps.

Lemma keeps_rewriteSelectQuery query database table :
  preserves same_write_enabled (rewriteSelectQuery query database table).
Proof. unfold rewriteSelectQuery, clone. keeps. Qed.

Lemma keeps_rewriteInsertQuery query database table :
  preserves same_write_enabled (rewriteInsertQuery query database table).
Proof. unfold rewriteInsertQuery, clone. keeps. Qed.

Lemma keeps_createDirectoryMonitors :
  preserves same_write_enabled createDirectoryMonitors.
Proof. unfold createDirectoryMonitors, createDirectory, DirectoryIterator. keeps. Qed.

Lemma keeps_requireDirectoryMonitor name :
  preserves same_write_enabled (requireDirectoryMonitor name).
Proof. unfold requireDirectoryMonitor. keeps. Qed.

#[local] Hint Resolve keeps_rewriteSelectQuery keeps_rewriteInsertQuery
  keeps_createDirectoryMonitors keeps_requireDirectoryMonitor : keeps.

Lemma keeps_read_streams processed_stage query settings :
  preserves same_write_enabled (read_streams processed_stage query settings).
Proof. unfold read_streams. keeps. Qed.

Lemma keeps_write query settings : preserves same_write_enabled (write query settings).
Proof. unfold write. keeps. Qed.

Lemma keeps_alter params database_name table_name :
  preserves same_write_enabled (alter params database_name table_name).
Proof.
  unfold alter, with_structure_lock, getDatabase_alterTable.
  apply preserves_bind; [exact _ | keeps |]. intros _.
  apply preserves_bind; [exact _ | keeps |]. intros _.
  apply preserves_finally; [exact _ | | keeps].
  apply preserves_bind; [exact _ | apply keeps_apply_to_columns | keeps].
Qed.

Lemma keeps_describe settings : preserves same_write_enabled (describe settings).
Proof. unfold describe. keeps. Qed.

#[local] Hint Resolve keeps_read_streams keeps_write keeps_alter keeps_describe : keeps.

Lemma keeps_lift {A} (m : M State A) :
  preserves same_write_enabled m -> preserves frame_same_write_enabled (lift m).
Proof.
  intros Hm f. unfold lift, zoom, frame_same_write_enabled.
  specialize (Hm (outer f)). destruct (m (outer f)) as [r s']. exact Hm.
Qed.

Lemma keeps_locals (g : Frame -> Frame) :
  (forall f, outer (g f) = outer f) -> preserves frame_same_write_enabled (modify g).
Proof.
  intros Hg. apply preserves_modify. intros f.
  unfold frame_same_write_enabled. rewrite Hg. reflexivity.
Qed.

Lemma keeps_with_locals {A} (m : M Frame A) :
  preserves frame_same_write_enabled m -> preserves same_write_enabled (with_locals m).
Proof.
  intros Hm s. unfold with_locals.
  specialize (Hm (mkFrame false "" s)). destruct (m _) as [r f]. exact Hm.
Qed.

Lemma keeps_set_has_notified_error b :
  preserves frame_same_write_enabled (set_has_notified_error b).
Proof. apply keeps_locals. reflexivity. Qed.

Lemma keeps_set_dumped_coordinator_state d :
  preserves frame_same_write_enabled (set_dumped_coordinator_state d).
Proof. apply keeps_locals. reflexivity. Qed.

#[local] Hint Resolve keeps_lift keeps_with_locals keeps_set_has_notified_error
  keeps_set_dumped_coordinator_state : keeps.

Lemma keeps_handle_exception coordinator_id msg :
  preserves frame_same_write_enabled (handle_exception coordinator_id msg).
Proof.
  unfold handle_exception, setStatus, dumpCoordinatorState, deleteCoordinator. keeps.
Qed.

Lemma keeps_exception_callback coordinator_id :
  preserves frame_same_write_enabled (exception_callback coordinator_id).
Proof. unfold exception_callback, setStatus. keeps. Qed.

#[local] Hint Resolve keeps_handle_exception keeps_exception_callback : keeps.

Lemma keeps_drain coordinator_id todo :
  preserves frame_same_write_enabled (drain coordinator_id todo).
Proof.
  induction todo as [| step rest IH]; simpl; [keeps |].
  destruct step; [keeps | exact IH | keeps].
Qed.

#[local] Hint Resolve keeps_drain : keeps.

Lemma keeps_dispatch first_partition last_partition weighted_zookeeper_paths
    sharding_key_expr do_copy settings coordinator_id :
  preserves frame_same_write_enabled
    (dispatch first_partition last_partition weighted_zookeeper_paths
       sharding_key_expr do_copy settings coordinator_id).
Proof. unfold dispatch, registerQuery. keeps. Qed.

#[local] Hint Resolve keeps_dispatch : keeps.

Lemma keeps_reshardPartitions query database_name first_partition last_partition
    weighted_zookeeper_paths sharding_key_expr do_copy coordinator settings :
  preserves same_write_enabled
    (reshardPartitions query database_name first_partition last_partition
       weighted_zookeeper_paths sharding_key_expr do_copy coordinator settings).
Proof.
  unfold reshardPartitions, isStarted, createCoordinator.
  repeat first [progress keeps | intros; apply keeps_with_locals].
Qed.

Lemma perform_keeps_write_enabled (op : Operation) (s : State) :
  write_enabled (this (perform op s)) = write_enabled (this s).
Proof.
  destruct op; unfold perform, read; cbv zeta; cbn [snd].
  - apply keeps_read_streams.
  - apply keeps_write.
  - apply keeps_alter.
  - apply keeps_shutdown.
  - apply keeps_reshardPartitions.
  - apply keeps_describe.
  - apply keeps_createDirectoryMonitor.
  - apply keeps_createDirectoryMonitors.
  - apply keeps_requireDirectoryMonitor.
Qed.

Lemma perform_all_keeps_write_enabled (ops : list Operation) (s : State) :
  write_enabled (this (perform_all ops s)) = write_enabled (this s).
Proof.
  revert s. induction ops as [| op rest IH]; intros s; simpl; [reflexivity |].
  unfold perform_all in *. simpl. rewrite IH. apply perform_keeps_write_enabled.
Qed.

(** The total shard count does not wrap. *)
Lemma total_shard_count (c : Cluster) :
  size_t_add (getLocalShardCount c) (getRemoteShardCount c)
  = local_shard_count c + remote_shard_count c
  /\ 0 <= local_shard_count c /\ 0 <= remote_shard_count c.
Proof.
  destruct c as [l r Hok]. unfold getLocalShardCount, getRemoteShardCount. simpl.
  unfold shard_counts_ok in Hok.
  apply andb_true_iff in Hok as [Hok Hsum]. apply andb_true_iff in Hok as [Hl Hr].
  apply Z.leb_le in Hl. apply Z.leb_le in Hr. apply Z.ltb_lt in Hsum.
  repeat split; try assumption.
  unfold size_t_add, size_t_wrap. apply Z.mod_small. lia.
Qed.

Lemma constructed_write_enabled escapeForFileName name_ schema_ remote_database_
    remote_table_ cluster_ sharding_key_ data_path_ c :
  write_enabled
    (this (snd (createDirectoryMonitors
      (mkState (initialise escapeForFileName name_ schema_ remote_database_
                  remote_table_ cluster_ sharding_key_ data_path_ c) c))))
  = write_enabled_at_construction cluster_ sharding_key_ data_path_.
Proof. rewrite (keeps_createDirectoryMonitors _). reflexivity. Qed.

(** * The shard count shown to callers *)

(** C10: [getShardCount] answers the number of remote shards, whatever
    the number of local shards; for a cluster that has local shards only
    it answers 0. *)
Theorem getShardCount_counts_remote_shards_only (t : StorageDistributed) :
  getShardCount t = remote_shard_count (cluster t)
  /\ (remote_shard_count (cluster t) = 0 -> 0 < local_shard_count (cluster t) ->
      getShardCount t = 0).
Proof.
  split; [reflexivity |]. intros Hremote _. unfold getShardCount, getRemoteShardCount.
  exact Hremote.
Qed.

Lemma getShardCount_counts_remote_shards_only_witness :
  getShardCount local_only_table = 0.
Proof.
  apply (getShardCount_counts_remote_shards_only local_only_table).
  - reflexivity.
  - simpl. lia.
Defined.

(** * The processing stage *)

Lemma processed_stage_of_complete (c : Cluster) (settings : Settings) :
  processed_stage_of c settings = Complete
  <-> (result_size c settings = 1 \/ distributed_group_by_no_merge settings = true).
Proof.
  unfold processed_stage_of. rewrite <- Z.eqb_eq, <- orb_true_iff.
  destruct (_ || _); split; intros H; try reflexivity; discriminate.
Qed.

Lemma result_size_exact (c : Cluster) (settings : Settings) :
  0 <= max_parallel_replicas settings ->
  remote_shard_count c * max_parallel_replicas settings + local_shard_count c
    < size_t_modulus ->
  result_size c settings
  = remote_shard_count c * max_parallel_replicas settings + local_shard_count c.
Proof.
  intros Hp Hbound. destruct (total_shard_count c) as (_ & Hl & Hr).
  unfold result_size, size_t_add, size_t_mul, size_t_wrap,
    getRemoteShardCount, getLocalShardCount.
  assert (0 <= remote_shard_count c * max_parallel_replicas settings) by nia.
  rewrite (Z.mod_small (_ * _)) by lia. apply Z.mod_small. lia.
Qed.

(** C3, as stated, fails: with two remote shards, one local shard and
    [max_parallel_replicas = 2^63] the product wraps to 0, the count is
    1 and the stage is [Complete], although (2 * 2^63) + 1 is not 1 and
    merging is not disabled. *)
Lemma read_stage_wraps_around :
  fst (read [] nullptr replicas_overflow 65536 1 (mkState overflow_table empty_context))
    = Complete
  /\ ~ (remote_shard_count two_remote_one_local * max_parallel_replicas replicas_overflow
          + local_shard_count two_remote_one_local = 1
        \/ distributed_group_by_no_merge replicas_overflow = true).
Proof.
  split; [reflexivity |]. intros [H | H]; [vm_compute in H | simpl in H]; discriminate.
Qed.

(** C3, amended: the stage [read] leaves in [processed_stage] is
    [Complete] iff the count, computed in 64-bit unsigned arithmetic, is
    1 or [distributed_group_by_no_merge] is set, and
    [WithMergeableState] otherwise; so whenever
    (remote * max_parallel_replicas) + local fits in 64 bits the stage
    is [Complete] iff that number is 1 or merging is disabled. *)
Theorem read_stage_selection (column_names : list string) (query : ASTPtr)
    (settings : Settings) (max_block_size threads : Z) (s : State) :
  let remote := remote_shard_count (cluster (this s)) in
  let local := local_shard_count (cluster (this s)) in
  let replicas := max_parallel_replicas settings in
  let stage := fst (read column_names query settings max_block_size threads s) in
  (stage = Complete
   <-> (((remote * replicas) mod 2 ^ 64 + local) mod 2 ^ 64 = 1
        \/ distributed_group_by_no_merge settings = true))
  /\ (stage <> Complete -> stage = WithMergeableState)
  /\ (0 <= replicas -> remote * replicas + local < 2 ^ 64 ->
      (stage = Complete
       <-> (remote * replicas + local = 1
            \/ distributed_group_by_no_merge settings = true))).
Proof.
  cbv zeta. unfold read. cbv zeta. cbn [fst].
  split; [| split].
  - apply processed_stage_of_complete.
  - unfold processed_stage_of. destruct (_ || _); [intros H; contradiction | reflexivity].
  - intros Hp Hbound. rewrite processed_stage_of_complete.
    rewrite result_size_exact by assumption. reflexivity.
Qed.

Lemma read_stage_selection_witness :
  fst (read [] nullptr default_settings 65536 1 (mkState single_shard_table empty_context))
    = Complete
  <-> (1 * 1 + 0 = 1 \/ false = true).
Proof.
  apply (read_stage_selection [] nullptr default_settings 65536 1
           (mkState single_shard_table empty_context)).
  - simpl. lia.
  - simpl. lia.
Defined.

(** * The guards of reshardPartitions *)

(** C5, as stated, fails where its two cases meet: with the worker not
    started and a coordination id supplied, the call fails with
    [RESHARDING_NO_WORKER], not with [RESHARDING_INVALID_PARAMETERS]. *)
Lemma coordinate_with_while_not_started :
  started (resharding_worker stopped_context) = false
  /\ isNull (UInt64 7) = false
  /\ fst (reshardPartitions nullptr "default" Null Null [] nullptr false (UInt64 7)
            default_settings (mkState single_shard_table stopped_context))
     = Thrown no_worker
  /\ no_worker <> coordinate_with_forbidden.
Proof. repeat split. discriminate. Qed.

(** C5, amended: when the worker reports not-started the call fails with
    [RESHARDING_NO_WORKER]; when it reports started and the caller
    supplies a non-null coordination id the call fails with
    [RESHARDING_INVALID_PARAMETERS]; in both cases nothing has been done
    by then: the state, with the worker's records and the trace of its
    calls, is as before, so [createCoordinator] was not invoked. *)
Theorem reshardPartitions_guards (query : ASTPtr) (database_name : string)
    (first_partition last_partition : Field)
    (weighted_zookeeper_paths : list (string * Z)) (sharding_key_expr : ASTPtr)
    (do_copy : bool) (coordinator : Field) (settings : Settings) (s : State) :
  let call :=
    reshardPartitions query database_name first_partition last_partition
      weighted_zookeeper_paths sharding_key_expr do_copy coordinator settings s in
  (started (resharding_worker (context s)) = false ->
   call = (Thrown no_worker, s))
  /\ (started (resharding_worker (context s)) = true -> isNull coordinator = false ->
      call = (Thrown coordinate_with_forbidden, s)).
Proof.
  cbv zeta. unfold reshardPartitions, isStarted, bind, gets.
  split.
  - intros Hstopped. rewrite Hstopped. reflexivity.
  - intros Hstarted Hid. rewrite Hstarted, Hid. reflexivity.
Qed.

Lemma reshardPartitions_guards_witness :
  reshardPartitions nullptr "default" Null Null [] nullptr false (UInt64 7)
    default_settings (mkState single_shard_table empty_context)
  = (Thrown coordinate_with_forbidden, mkState single_shard_table empty_context).
Proof.
  apply (reshardPartitions_guards nullptr "default" Null Null [] nullptr false (UInt64 7)
           default_settings (mkState single_shard_table empty_context)).
  - reflexivity.
  - reflexivity.
Defined.

(** * The write-enabled flag *)

(** C6: the flag is set by either constructor to "a data path is given
    and (the cluster has fewer than 2 shards, local and remote together,
    or a sharding key is given)"; it has that value after any sequence
    of operations on the table, and every single operation leaves it as
    it found it. *)
Theorem write_enabled_fixed_at_construction
    (escapeForFileName : string -> string) (name_ : string)
    (columns_ materialized_columns_ alias_columns_ : NamesAndTypesList)
    (column_defaults_ : list (string * string))
    (remote_database_ remote_table_ : string) (cluster_ : Cluster)
    (sharding_key_ : ASTPtr) (data_path_ : string) (c : Context)
    (ops : list Operation) :
  let flag :=
    negb (is_empty data_path_)
    && ((local_shard_count cluster_ + remote_shard_count cluster_ <? 2)
        || negb (is_null sharding_key_)) in
  let short :=
    snd (StorageDistributed_short escapeForFileName name_ columns_
           remote_database_ remote_table_ cluster_ sharding_key_ data_path_ c) in
  let full :=
    snd (StorageDistributed_full escapeForFileName name_ columns_
           materialized_columns_ alias_columns_ column_defaults_
           remote_database_ remote_table_ cluster_ sharding_key_ data_path_ c) in
  write_enabled (this short) = flag
  /\ write_enabled (this full) = flag
  /\ write_enabled (this (perform_all ops short)) = flag
  /\ write_enabled (this (perform_all ops full)) = flag
  /\ (forall op s, write_enabled (this (perform op s)) = write_enabled (this s)).
Proof.
  cbv zeta. unfold StorageDistributed_short, StorageDistributed_full.
  rewrite !perform_all_keeps_write_enabled, !constructed_write_enabled.
  unfold write_enabled_at_construction.
  destruct (total_shard_count cluster_) as (-> & _ & _).
  repeat split. apply perform_keeps_write_enabled.
Qed.

(** * The query rewriters *)

Lemma fresh_location (h : gmap positive AST) : h !! fresh (dom h) = None.
Proof. apply not_elem_of_dom. apply is_fresh. Qed.

Lemma rewriteSelectQuery_spec (l : positive) (database table : string)
    (old_database old_table : option AST) (clauses : list (string * AST)) (s : State) :
  asts (context s) !! l = Some (ASTSelectQuery old_database old_table clauses) ->
  rewritten_copy l
    (ASTSelectQuery (Some (ASTIdentifier database Database))
                    (Some (ASTIdentifier table Table)) clauses)
    s (rewriteSelectQuery (Some l) database table s).
Proof.
  intros Hl. pose proof (fresh_location (asts (context s))) as Hfresh.
  unfold rewriteSelectQuery, clone, bind, deref, make_shared. simpl.
  rewrite Hl. simpl. rewrite lookup_insert_eq. simpl.
  exists (fresh (dom (asts (context s)))).
  repeat split; simpl; try assumption.
  - apply lookup_insert_eq.
  - intros k Hk. rewrite !lookup_insert_ne by congruence. reflexivity.
  - assert (l <> fresh (dom (asts (context s)))) by congruence.
    rewrite !lookup_insert_ne by congruence. reflexivity.
Qed.

Lemma rewriteInsertQuery_spec (l : positive) (database table : string)
    (old_database old_table : string) (select columns : option AST)
    (format data : string) (s : State) :
  asts (context s) !! l
    = Some (ASTInsertQuery old_database old_table select columns format data) ->
  rewritten_copy l (ASTInsertQuery database table None columns format data)
    s (rewriteInsertQuery (Some l) database table s).
Proof.
  intros Hl. pose proof (fresh_location (asts (context s))) as Hfresh.
  unfold rewriteInsertQuery, clone, bind, deref, make_shared. simpl.
  rewrite Hl. simpl. rewrite lookup_insert_eq. simpl.
  exists (fresh (dom (asts (context s)))).
  repeat split; simpl; try assumption.
  - apply lookup_insert_eq.
  - intros k Hk. rewrite !lookup_insert_ne by congruence. reflexivity.
  - assert (l <> fresh (dom (asts (context s)))) by congruence.
    rewrite !lookup_insert_ne by congruence. reflexivity.
Qed.

(** C7: for a read statement, [rewriteSelectQuery] returns a new object
    equal to the input but for its [database] and [table] nodes, which
    name the given database and table; for a write statement,
    [rewriteInsertQuery] returns a new object equal to the input but for
    its [database] and [table] names and its [select], which is null.
    In both cases every object that existed before the call, the input
    among them, is as it was. *)
Theorem rewriters_change_the_copy_only (l : positive) (database table : string) (s : State) :
  (forall old_database old_table clauses,
     asts (context s) !! l = Some (ASTSelectQuery old_database old_table clauses) ->
     rewritten_copy l
       (ASTSelectQuery (Some (ASTIdentifier database Database))
                       (Some (ASTIdentifier table Table)) clauses)
       s (rewriteSelectQuery (Some l) database table s))
  /\ (forall old_database old_table select columns format data,
        asts (context s) !! l
          = Some (ASTInsertQuery old_database old_table select columns format data) ->
        rewritten_copy l (ASTInsertQuery database table None columns format data)
          s (rewriteInsertQuery (Some l) database table s)).
Proof.
  split.
  - intros. eapply rewriteSelectQuery_spec. eassumption.
  - intros. eapply rewriteInsertQuery_spec. eassumption.
Qed.

Lemma rewriters_change_the_copy_only_witness :
  rewritten_copy 1
    (ASTSelectQuery (Some (ASTIdentifier "remote" Database))
       (Some (ASTIdentifier "hits" Table))
       [("select", ASTExpressionList [ASTIdentifier "UserID" Column]);
        ("where", ASTIdentifier "IsRobot" Column)])
    (mkState single_shard_table (context_with sample_select))
    (rewriteSelectQuery (Some 1%positive) "remote" "hits"
       (mkState single_shard_table (context_with sample_select)))
  /\ rewritten_copy 1
       (ASTInsertQuery "remote" "hits" None
          (Some (ASTExpressionList [ASTIdentifier "UserID" Column])) "TabSeparated" "1\n2\n")
       (mkState single_shard_table (context_with sample_insert))
       (rewriteInsertQuery (Some 1%positive) "remote" "hits"
          (mkState single_shard_table (context_with sample_insert))).
Proof.
  split.
  - apply (proj1 (rewriters_change_the_copy_only 1 "remote" "hits"
                    (mkState single_shard_table (context_with sample_select)))
             (Some (ASTIdentifier "default" Database))
             (Some (ASTIdentifier "hits_all" Table))).
    reflexivity.
  - apply (proj2 (rewriters_change_the_copy_only 1 "remote" "hits"
                    (mkState single_shard_table (context_with sample_insert)))
             "default" "hits_all" (Some sample_select)).
    reflexivity.
Defined.

(** * write *)

Lemma rewriteInsertQuery_outcomes (query : ASTPtr) (database table : string) (s : State) :
  (exists p, fst (rewriteInsertQuery query database table s) = Returned p)
  \/ fst (rewriteInsertQuery query database table s) = Thrown bad_cast
  \/ fst (rewriteInsertQuery query database table s) = Thrown null_dereference.
Proof.
  unfold rewriteInsertQuery, clone, bind, deref, make_shared. simpl.
  destruct (query ≫= _) as [node |]; simpl; [| right; right; reflexivity].
  rewrite lookup_insert_eq. simpl.
  destruct node; simpl; first [left; eexists; reflexivity | right; left; reflexivity].
Qed.

Lemma write_spec (query : ASTPtr) (settings : Settings) (s : State) :
  (fst (write query settings s) = Thrown write_not_supported
   <-> write_enabled (this s) = false)
  /\ (write_enabled (this s) = true ->
      forall l old_database old_table select columns format data,
        query = Some l ->
        asts (context s) !! l
          = Some (ASTInsertQuery old_database old_table select columns format data) ->
        exists p,
          fst (write query settings s)
            = Returned (mkDistributedBlockOutputStream (getTableName (this s)) (Some p))
          /\ asts (context (snd (write query settings s))) !! p
             = Some (ASTInsertQuery (remote_database (this s)) (remote_table (this s))
                       None columns format data)
          /\ asts (context (snd (write query settings s))) !! l = asts (context s) !! l).
Proof.
  unfold write, bind, gets. simpl.
  destruct (write_enabled (this s)) eqn:Hflag; simpl.
  - split.
    + split; [| discriminate]. intros Hthrown. exfalso.
      destruct (rewriteInsertQuery_outcomes query (remote_database (this s))
                  (remote_table (this s)) s) as [[p Hp] | [Hp | Hp]];
        destruct (rewriteInsertQuery _ _ _ s) as [[q | e] s1]; simpl in *;
        try discriminate; inversion Hp; subst; discriminate.
    + intros _ l old_database old_table select columns format data -> Hl.
      destruct (rewriteInsertQuery_spec l (remote_database (this s)) (remote_table (this s))
                  _ _ _ _ _ _ s Hl) as (l' & Hres & _ & Hnew & _ & Hold & _).
      destruct (rewriteInsertQuery _ _ _ s) as [[q | e] s1]; simpl in *; [| discriminate].
      inversion Hres; subst. exists l'. repeat split; assumption.
  - split; [split; reflexivity | discriminate].
Qed.

Lemma is_empty_spec (d : string) : is_empty d = true <-> d = "".
Proof. destruct d; simpl; split; intros H; try reflexivity; discriminate. Qed.

Lemma is_null_spec (p : ASTPtr) : is_null p = true <-> p = nullptr.
Proof. destruct p; simpl; split; intros H; try reflexivity; discriminate. Qed.

Lemma write_disabled_iff (cluster_ : Cluster) (sharding_key_ : ASTPtr) (data_path_ : string) :
  write_enabled_at_construction cluster_ sharding_key_ data_path_ = false
  <-> (data_path_ = ""
       \/ (2 <= local_shard_count cluster_ + remote_shard_count cluster_
           /\ sharding_key_ = nullptr)).
Proof.
  unfold write_enabled_at_construction.
  destruct (total_shard_count cluster_) as (-> & _ & _).
  rewrite <- is_empty_spec, <- is_null_spec.
  destruct (local_shard_count cluster_ + remote_shard_count cluster_ <? 2) eqn:Hlt;
    [apply Z.ltb_lt in Hlt | apply Z.ltb_ge in Hlt];
    destruct (is_empty data_path_), (is_null sharding_key_); simpl;
    split; intros Hyp; try reflexivity; try discriminate;
    try (left; reflexivity); try (right; split; [lia | reflexivity]);
    destruct Hyp as [Hyp | [Hyp1 Hyp2]]; try discriminate; lia.
Qed.

(** C2, as stated, fails: a table built with an empty data path over a
    single shard refuses a well-formed INSERT with
    [STORAGE_REQUIRES_PARAMETER]. *)
Lemma write_refused_without_data_path :
  local_shard_count one_remote_shard + remote_shard_count one_remote_shard = 1
  /\ asts insert_context !! 1%positive = Some sample_insert
  /\ fst (write (Some 1%positive) default_settings
            (snd (StorageDistributed_full (fun name => name) "hits_all" [] [] [] []
                    "default" "hits" one_remote_shard nullptr "" insert_context)))
     = Thrown write_not_supported.
Proof. repeat split; reflexivity. Qed.

(** C2, amended: for a table built with a data path, at any time of its
    life, [write] throws [STORAGE_REQUIRES_PARAMETER] exactly when the
    cluster has 2 or more shards (local and remote together) and no
    sharding key was given; with fewer than 2 shards, or with a sharding
    key, [write] of a well-formed INSERT returns an output stream on
    the rewritten copy of the statement.  A table built without a data
    path refuses every [write] the same way. *)
Theorem write_refused_iff
    (escapeForFileName : string -> string) (name_ : string)
    (columns_ materialized_columns_ alias_columns_ : NamesAndTypesList)
    (column_defaults_ : list (string * string))
    (remote_database_ remote_table_ : string) (cluster_ : Cluster)
    (sharding_key_ : ASTPtr) (data_path_ : string) (c : Context)
    (ops : list Operation) (query : ASTPtr) (settings : Settings) :
  let total := local_shard_count cluster_ + remote_shard_count cluster_ in
  let s :=
    perform_all ops
      (snd (StorageDistributed_full escapeForFileName name_ columns_
              materialized_columns_ alias_columns_ column_defaults_
              remote_database_ remote_table_ cluster_ sharding_key_ data_path_ c)) in
  (fst (write query settings s) = Thrown write_not_supported
   <-> (data_path_ = "" \/ (2 <= total /\ sharding_key_ = nullptr)))
  /\ (data_path_ <> "" -> (total < 2 \/ sharding_key_ <> nullptr) ->
      forall l old_database old_table select columns format data,
        query = Some l ->
        asts (context s) !! l
          = Some (ASTInsertQuery old_database old_table select columns format data) ->
        exists p,
          fst (write query settings s)
            = Returned (mkDistributedBlockOutputStream (getTableName (this s)) (Some p))
          /\ asts (context (snd (write query settings s))) !! p
             = Some (ASTInsertQuery (remote_database (this s)) (remote_table (this s))
                       None columns format data)
          /\ asts (context (snd (write query settings s))) !! l = asts (context s) !! l).
Proof.
  cbv zeta. set (s := perform_all ops _).
  assert (Hflag : write_enabled (this s)
                  = write_enabled_at_construction cluster_ sharding_key_ data_path_).
  { subst s. unfold StorageDistributed_full.
    rewrite perform_all_keeps_write_enabled. apply constructed_write_enabled. }
  destruct (write_spec query settings s) as [Hthrows Hreturns].
  split.
  - rewrite Hthrows, Hflag. apply write_disabled_iff.
  - intros Hpath Hshape. apply Hreturns. rewrite Hflag.
    destruct (write_enabled_at_construction _ _ _) eqn:Hen; [reflexivity |].
    apply write_disabled_iff in Hen. destruct Hen as [Hen | [Htotal Hkey]];
      [contradiction | destruct Hshape; [lia | contradiction]].
Qed.

Lemma write_refused_iff_witness :
  exists p,
    fst (write (Some 1%positive) default_settings sample_state)
      = Returned (mkDistributedBlockOutputStream (getTableName (this sample_state)) (Some p))
    /\ asts (context (snd (write (Some 1%positive) default_settings sample_state))) !! p
       = Some (ASTInsertQuery (remote_database (this sample_state))
                 (remote_table (this sample_state)) None
                 (Some (ASTExpressionList [ASTIdentifier "UserID" Column]))
                 "TabSeparated" "1\n2\n")
    /\ asts (context (snd (write (Some 1%positive) default_settings sample_state)))
         !! 1%positive
       = asts (context sample_state) !! 1%positive.
Proof.
  apply (proj2 (write_refused_iff (fun name => name) "hits_all" [] [] [] []
                  "default" "hits" one_remote_shard nullptr "/data/" insert_context
                  [do_shutdown] (Some 1%positive) default_settings))
    with (old_database := "default") (old_table := "hits_all")
         (select := Some sample_select).
  - discriminate.
  - left. simpl. lia.
  - reflexivity.
  - reflexivity.
Defined.

(** * Directory monitors at startup *)

Lemma for_each_adopt (entries : list DirEntry) (s : State) :
  for_each entries (fun it =>
    when (isDirectory it) (createDirectoryMonitor (entry_name it))) s
  = (Returned tt,
     mkState
       (set_directory_monitors
          (foldl (adopt (name (this s))) (directory_monitors (this s)) entries) (this s))
       (context s)).
Proof.
  revert s. induction entries as [| it rest IH]; intros [t c].
  - destruct t. reflexivity.
  - cbn [for_each]. unfold bind at 1.
    destruct (isDirectory it) eqn:Hdir; cbn [when].
    + unfold createDirectoryMonitor at 1, modify at 1. rewrite IH.
      simpl. unfold adopt at 3. rewrite Hdir. destruct t. reflexivity.
    + unfold ret at 1. rewrite IH. simpl. unfold adopt at 3. rewrite Hdir. reflexivity.
Qed.

Lemma has_subdirectory_spec (n : string) (entries : list DirEntry) :
  has_subdirectory n entries = true
  <-> exists it, it ∈ entries /\ isDirectory it = true /\ entry_name it = n.
Proof.
  unfold has_subdirectory. rewrite existsb_exists. split.
  - intros (it & Hin & Hit). apply andb_true_iff in Hit as [Hdir Hname].
    exists it. rewrite list_elem_of_In. apply bool_decide_eq_true in Hname. auto.
  - intros (it & Hin & Hdir & Hname). exists it. rewrite <- list_elem_of_In.
    split; [assumption |]. rewrite Hdir. simpl. apply bool_decide_eq_true. assumption.
Qed.

Lemma adopt_lookup storage entries :
  forall monitors n,
    foldl (adopt storage) monitors entries !! n
    = match monitors !! n with
      | Some m => Some m
      | None =>
          if has_subdirectory n entries
          then Some (mkDirectoryMonitor storage n)
          else None
      end.
Proof.
  induction entries as [| it rest IH]; intros monitors n; simpl.
  - destruct (monitors !! n); reflexivity.
  - rewrite IH. unfold adopt, emplace.
    destruct (isDirectory it) eqn:Hdir; simpl; [| reflexivity].
    destruct (decide (entry_name it = n)) as [<- | Hne].
    + rewrite bool_decide_eq_true_2 by reflexivity. simpl.
      destruct (monitors !! entry_name it) eqn:Hthere.
      * rewrite Hthere. reflexivity.
      * rewrite lookup_insert_eq. reflexivity.
    + rewrite bool_decide_eq_false_2 by assumption. simpl.
      destruct (monitors !! entry_name it) eqn:Hthere; [reflexivity |].
      rewrite lookup_insert_ne by assumption. reflexivity.
Qed.

Lemma adopt_size storage entries :
  forall monitors,
    NoDup (entry_name <$> entries) ->
    (forall it, it ∈ entries -> monitors !! entry_name it = None) ->
    size (foldl (adopt storage) monitors entries)
    = (size monitors + length (subdirectories entries))%nat.
Proof.
  induction entries as [| it rest IH]; intros monitors Hnodup Hfree; simpl.
  - lia.
  - rewrite fmap_cons in Hnodup. apply NoDup_cons in Hnodup as [Hnotin Hnodup].
    assert (Hit : monitors !! entry_name it = None) by (apply Hfree; left).
    unfold adopt at 2, emplace. rewrite Hit.
    destruct (isDirectory it) eqn:Hdir; simpl.
    + rewrite IH; [| assumption |].
      * rewrite map_size_insert_None by assumption. lia.
      * intros x Hx. rewrite lookup_insert_ne.
        -- apply Hfree. right. assumption.
        -- intros Heq. apply Hnotin. rewrite Heq.
           apply list_elem_of_fmap. exists x. split; [reflexivity | assumption].
    + apply IH; [assumption |]. intros x Hx. apply Hfree. right. assumption.
Qed.

Lemma createDirectoryMonitors_spec (s : State) :
  is_empty (path (this s)) = false ->
  fst (createDirectoryMonitors s) = Returned tt
  /\ directory_monitors (this (snd (createDirectoryMonitors s)))
     = foldl (adopt (name (this s))) (directory_monitors (this s))
         (default [] (files (context s) !! path (this s))).
Proof.
  intros Hpath.
  unfold createDirectoryMonitors, createDirectory, DirectoryIterator, bind, gets, modify.
  rewrite Hpath, for_each_adopt. cbn [fst snd this context on_context].
  split; [reflexivity |].
  destruct (files (context s) !! path (this s)) as [entries |] eqn:Hdir; simpl.
  - rewrite Hdir. reflexivity.
  - rewrite lookup_insert_eq. reflexivity.
Qed.

Lemma configured_path_not_empty (data_path_ rest : string) :
  data_path_ <> "" -> is_empty (data_path_ +:+ rest) = false.
Proof. destruct data_path_; [contradiction | reflexivity]. Qed.

(** C8: a table built with a data path has, right after construction
    and before any query, one directory monitor for every subdirectory
    that exists in its directory, whatever waits inside (nothing, too),
    and no other monitor; so two subdirectories give exactly two
    monitors. *)
Theorem startup_adopts_every_subdirectory
    (escapeForFileName : string -> string) (name_ : string)
    (columns_ materialized_columns_ alias_columns_ : NamesAndTypesList)
    (column_defaults_ : list (string * string))
    (remote_database_ remote_table_ : string) (cluster_ : Cluster)
    (sharding_key_ : ASTPtr) (data_path_ : string) (c : Context) :
  let directory := data_path_ +:+ escapeForFileName name_ +:+ "/" in
  let entries := default [] (files c !! directory) in
  let built :=
    StorageDistributed_full escapeForFileName name_ columns_
      materialized_columns_ alias_columns_ column_defaults_
      remote_database_ remote_table_ cluster_ sharding_key_ data_path_ c in
  let monitors := directory_monitors (this (snd built)) in
  data_path_ <> "" ->
  NoDup (entry_name <$> entries) ->
  fst built = Returned tt
  /\ (forall it, it ∈ entries -> isDirectory it = true ->
      monitors !! entry_name it = Some (mkDirectoryMonitor name_ (entry_name it)))
  /\ (forall n, is_Some (monitors !! n) ->
      exists it, it ∈ entries /\ isDirectory it = true /\ entry_name it = n)
  /\ size monitors = length (subdirectories entries)
  /\ (length (subdirectories entries) = 2%nat -> size monitors = 2%nat).
Proof.
  cbv zeta. intros Hpath Hnodup. unfold StorageDistributed_full.
  set (s0 := mkState _ c).
  assert (Hp : path (this s0) = data_path_ +:+ escapeForFileName name_ +:+ "/").
  { simpl. destruct data_path_; [contradiction | reflexivity]. }
  destruct (createDirectoryMonitors_spec s0) as [Hres Hmon].
  { rewrite Hp. apply configured_path_not_empty. assumption. }
  rewrite Hmon, Hp. subst s0. cbn [this context name directory_monitors initialise].
  assert (Hsize : size (foldl (adopt name_) ∅
                          (default [] (files c !! (data_path_ +:+ escapeForFileName name_ +:+ "/"))))
                  = length (subdirectories
                      (default [] (files c !! (data_path_ +:+ escapeForFileName name_ +:+ "/"))))).
  { rewrite adopt_size; [rewrite map_size_empty; lia | assumption |].
    intros it _. apply lookup_empty. }
  split; [exact Hres |]. split; [| split; [| split]].
  - intros it Hin Hdir. rewrite adopt_lookup, lookup_empty.
    rewrite (proj2 (has_subdirectory_spec _ _)); [reflexivity |].
    exists it. auto.
  - intros n [m Hm]. rewrite adopt_lookup, lookup_empty in Hm.
    apply has_subdirectory_spec.
    destruct (has_subdirectory n _); [reflexivity | discriminate].
  - exact Hsize.
  - intros Htwo. rewrite Hsize. exact Htwo.
Qed.

Lemma startup_adopts_every_subdirectory_witness :
  size (directory_monitors (this (snd
    (StorageDistributed_full (fun name => name) "hits_all" [] [] [] []
       "default" "hits" two_remote_one_local nullptr "/data/" startup_context))))
  = 2%nat.
Proof.
  apply (startup_adopts_every_subdirectory (fun name => name) "hits_all" [] [] [] []
           "default" "hits" two_remote_one_local nullptr "/data/" startup_context).
  - discriminate.
  - apply (bool_decide_unpack _). vm_compute. exact I.
  - reflexivity.
Defined.

(** * alter *)

Lemma primary_key_check (params : list AlterCommand) (s : State) :
  for_each params (fun param =>
    if is_modify_primary_key param then throw no_primary_key else ret tt) s
  = if existsb is_modify_primary_key params
    then (Thrown no_primary_key, s)
    else (Returned tt, s).
Proof.
  induction params as [| param rest IH]; simpl; [reflexivity |].
  unfold bind. destruct (is_modify_primary_key param); simpl; [reflexivity | exact IH].
Qed.

Lemma is_modify_primary_key_spec (param : AlterCommand) :
  is_modify_primary_key param = true <-> command_type param = MODIFY_PRIMARY_KEY.
Proof.
  unfold is_modify_primary_key.
  destruct (command_type param); split; intros H; try reflexivity; discriminate.
Qed.

Lemma existsb_modify_primary_key (params : list AlterCommand) :
  existsb is_modify_primary_key params = true
  <-> exists param, param ∈ params /\ command_type param = MODIFY_PRIMARY_KEY.
Proof.
  rewrite existsb_exists. split; intros (param & Hin & Hp); exists param.
  - split; [apply list_elem_of_In; assumption | apply is_modify_primary_key_spec; assumption].
  - split; [apply list_elem_of_In; assumption | apply is_modify_primary_key_spec; assumption].
Qed.

(** The four ways [alter] ends. *)
Lemma alter_cases (params : AlterCommands) (database_name table_name : string) (s : State) :
  (existsb is_modify_primary_key (commands params) = true
   /\ alter params database_name table_name s = (Thrown no_primary_key, s))
  \/ (existsb is_modify_primary_key (commands params) = false
      /\ exists e,
           fst (apply params (schema (this s))) = Thrown e
           /\ alter params database_name table_name s
              = (Thrown e, altered_not_persisted params s))
  \/ (existsb is_modify_primary_key (commands params) = false
      /\ fst (apply params (schema (this s))) = Returned tt
      /\ databases (context s) !! database_name = None
      /\ alter params database_name table_name s
         = (Thrown unknown_database, altered_not_persisted params s))
  \/ (existsb is_modify_primary_key (commands params) = false
      /\ fst (apply params (schema (this s))) = Returned tt
      /\ exists tables,
           databases (context s) !! database_name = Some tables
           /\ alter params database_name table_name s
              = (Returned tt,
                 altered_and_persisted params database_name table_name tables s)).
Proof.
  unfold alter, bind. rewrite primary_key_check.
  destruct (existsb is_modify_primary_key (commands params));
    [left; split; reflexivity | right].
  unfold with_structure_lock, finally, getDatabase_alterTable, emit, bind, modify, gets,
    apply_to_columns, altered_and_persisted, altered_not_persisted, altered_in_memory.
  cbn [fst snd this context on_context on_this].
  destruct (apply params (schema (this s))) as [[[] | e] sc]; cbn.
  - right.
    destruct (databases (context s) !! database_name) as [tables |] eqn:Hdb; cbn.
    + right. repeat split. exists tables. split; reflexivity.
    + left. repeat split.
  - left. split; [reflexivity |]. exists e. split; reflexivity.
Qed.




(** * The coordination status during resharding *)

#[local] Instance silent_preorder : PreOrder silent.
Proof.
  split.
  - intros s. exists []. split; reflexivity.
  - intros s1 s2 s3 (new1 & H1 & Hn1) (new2 & H2 & Hn2).
    exists (new2 ++ new1). split.
    + rewrite H2, H1. apply app_assoc.
    + unfold error_notifications in *. rewrite omap_app, Hn1, Hn2. reflexivity.
Qed.

#[local] Instance quiet_preorder : PreOrder quiet.
Proof.
  split.
  - intros f. repeat split; reflexivity.
  - intros f1 f2 f3 (Hf1 & Hd1 & Hs1) (Hf2 & Hd2 & Hs2).
    repeat split; [congruence | congruence | etransitivity; eassumption].
Qed.

Lemma quiet_notifies_once f f' : quiet f f' -> notifies_once f f'.
Proof. intros (Hflag & Hdump & new & Htrace & Hnone). exists new. auto. Qed.

Lemma quiet_then_once f1 f2 f3 : quiet f1 f2 -> notifies_once f2 f3 -> notifies_once f1 f3.
Proof.
  intros (Hflag & Hdump & new1 & H1 & Hn1) (new2 & H2 & Hdump2 & Hcases).
  exists (new2 ++ new1). split; [rewrite H2, H1; apply app_assoc |].
  split; [congruence |].
  unfold error_notifications in *. rewrite omap_app, Hn1, app_nil_r, <- Hflag. exact Hcases.
Qed.

Lemma once_then_quiet f1 f2 f3 : notifies_once f1 f2 -> quiet f2 f3 -> notifies_once f1 f3.
Proof.
  intros (new1 & H1 & Hdump1 & Hcases) (Hflag & Hdump & new2 & H2 & Hn2).
  exists (new2 ++ new1). split; [rewrite H2, H1; apply app_assoc |].
  split; [congruence |].
  unfold error_notifications in *. rewrite omap_app, Hn2, Hflag. exact Hcases.
Qed.

Lemma once_settles f f' : notifies_once f f' -> settles f f'.
Proof.
  intros (new & Htrace & _ & Hcases) _. exists new. split; [exact Htrace |].
  destruct Hcases as [[-> _] | [[-> _] | [-> _]]]; unfold at_most_one_retry; simpl; eauto.
Qed.

Lemma once_then_cleanup f1 f2 f3 :
  notifies_once f1 f2 -> notifies_unless_notified f2 f3 -> settles f1 f3.
Proof.
  intros (new1 & H1 & _ & Hcases) (new2 & H2 & Hcleanup) Hunset.
  exists (new2 ++ new1). split; [rewrite H2, H1; apply app_assoc |].
  unfold error_notifications in *. rewrite omap_app, reverse_app.
  destruct Hcases as [[-> Hflag] | [[-> Hflag] | [-> Hflag]]];
    rewrite Hflag in Hcleanup; try rewrite Hunset in Hcleanup.
  - destruct Hcleanup as [b ->]. right; left. exists b. reflexivity.
  - rewrite Hcleanup. right; left. exists true. reflexivity.
  - destruct Hcleanup as [b ->]. right; right. exists b. reflexivity.
Qed.

(** Sequencing two computations that keep different relations. *)
Lemma preserves_bind_seq {S A B} (R1 R2 R3 : S -> S -> Prop) (m : M S A) (k : A -> M S B) :
  (forall x y, R1 x y -> R3 x y) ->
  (forall x y z, R1 x y -> R2 y z -> R3 x z) ->
  preserves R1 m -> (forall a, preserves R2 (k a)) -> preserves R3 (bind m k).
Proof.
  intros Hsub Hseq Hm Hk s. unfold bind.
  specialize (Hm s). destruct (m s) as [[a | e] s1]; simpl in *.
  - eapply Hseq; [exact Hm | apply Hk].
  - apply Hsub. exact Hm.
Qed.

Lemma preserves_finally_seq {S A} (R1 R2 R3 : S -> S -> Prop)
    (m : M S A) (cleanup : M S unit) :
  (forall x y z, R1 x y -> R2 y z -> R3 x z) ->
  preserves R1 m -> preserves R2 cleanup -> preserves R3 (finally m cleanup).
Proof.
  intros Hseq Hm Hc s. unfold finally.
  specialize (Hm s). destruct (m s) as [r s1]. simpl in Hm.
  specialize (Hc s1). destruct (cleanup s1) as [[[] | e] s2]; simpl in *;
    eapply Hseq; eassumption.
Qed.

Lemma preserves_try_catch_seq {S A} (R1 R2 R3 : S -> S -> Prop)
    (m : M S A) (h : Exn -> M S A) :
  (forall x y, R1 x y -> R3 x y) ->
  (forall x y z, R1 x y -> R2 y z -> R3 x z) ->
  preserves R1 m -> (forall e, preserves R2 (h e)) -> preserves R3 (try_catch m h).
Proof.
  intros Hsub Hseq Hm Hh s. unfold try_catch.
  specialize (Hm s). destruct (m s) as [[a | e] s1]; simpl in *.
  - apply Hsub. exact Hm.
  - eapply Hseq; [exact Hm | apply Hh].
Qed.

Lemma silent_same_trace (s s' : State) :
  trace (context s') = trace (context s) -> silent s s'.
Proof. intros Htrace. exists []. split; [exact Htrace | reflexivity]. Qed.

Lemma silent_event (ev : Event) (s s' : State) :
  trace (context s') = ev :: trace (context s) ->
  error_notification ev = None -> silent s s'.
Proof.
  intros Htrace Hev. exists [ev]. split; [exact Htrace |].
  unfold error_notifications. simpl. rewrite Hev. reflexivity.
Qed.

Lemma silent_make_shared (node : AST) : preserves silent (make_shared node).
Proof. intros s. apply silent_same_trace. reflexivity. Qed.

Lemma silent_release (p : ASTPtr) : preserves silent (release p).
Proof. intros s. apply silent_same_trace. destruct p; reflexivity. Qed.

Lemma silent_emit (ev : Event) :
  error_notification ev = None -> preserves silent (emit ev).
Proof. intros Hev s. apply (silent_event ev); [reflexivity | exact Hev]. Qed.

Lemma silent_execute constructor query settings multiplexing :
  preserves silent (ClusterProxy_Query_execute constructor query settings multiplexing).
Proof.
  intros s. unfold ClusterProxy_Query_execute. cbv zeta.
  match goal with |- context [execute ?d] => apply (silent_event (execute d)) end;
    [| reflexivity].
  simpl. destruct (cluster_proxy (context s)) as [| [e | streams] rest]; reflexivity.
Qed.

Lemma worker_call_trace {A} call (body : ReshardingWorker -> A * ReshardingWorker) s :
  exists succeeded,
    trace (context (snd (worker_call call body s)))
      = worker_event call succeeded :: trace (context s)
    /\ (succeeded = true <-> exists a, fst (worker_call call body s) = Returned a)
    /\ this (snd (worker_call call body s)) = this s.
Proof.
  unfold worker_call.
  destruct (faults (resharding_worker (context s))) as [| [e |] rest].
  - destruct (body _) as [a w']. exists true. simpl. repeat split; eauto.
  - exists false. simpl. repeat split; try discriminate. intros [a Ha]. discriminate.
  - destruct (body _) as [a w']. exists true. simpl. repeat split; eauto.
Qed.

Lemma silent_worker_call {A} call (body : ReshardingWorker -> A * ReshardingWorker) :
  (forall succeeded, error_notification (worker_event call succeeded) = None) ->
  preserves silent (worker_call call body).
Proof.
  intros Hcall s. destruct (worker_call_trace call body s) as (ok & Htrace & _).
  eapply silent_event; [exact Htrace | apply Hcall].
Qed.

Lemma quiet_lift {A} (m : M State A) : preserves silent m -> preserves quiet (lift m).
Proof.
  intros Hm f. unfold lift, zoom, quiet.
  specialize (Hm (outer f)). destruct (m (outer f)) as [r s'].
  repeat split; [exact Hm].
Qed.

#[local] Hint Resolve silent_make_shared silent_release silent_execute quiet_lift : keeps.

Lemma silent_registerQuery coordinator_id query :
  preserves silent (registerQuery coordinator_id query).
Proof. apply silent_worker_call. reflexivity. Qed.

Lemma silent_createCoordinator c : preserves silent (createCoordinator c).
Proof. apply silent_worker_call. reflexivity. Qed.

Lemma silent_log_error dump : preserves silent (emit (LOG_ERROR dump)).
Proof. apply silent_emit. reflexivity. Qed.

#[local] Hint Resolve silent_registerQuery silent_createCoordinator silent_log_error : keeps.

(** The callback: one error notification; the flag is set when it
    returned. *)
Lemma exception_callback_notifies_once coordinator_id :
  preserves notifies_once (exception_callback coordinator_id).
Proof.
  intros f. unfold exception_callback, try_catch, bind, lift, zoom, setStatus.
  destruct (worker_call_trace (setStatus_call coordinator_id STATUS_ERROR "")
              (fun w => (tt, set_coordinators
                 (base.alter (fun r => mkCoordinator (registered_query r) STATUS_ERROR "")
                    coordinator_id (coordinators w)) w)) (outer f))
    as (ok & Htrace & Hok & _).
  destruct (worker_call _ _ (outer f)) as [[[] | e] s1]; simpl in *.
  - exists [worker_event (setStatus_call coordinator_id STATUS_ERROR "") ok].
    split; [exact Htrace |]. split; [reflexivity |]. right; left.
    assert (ok = true) as -> by (apply Hok; eauto). split; reflexivity.
  - exists [tryLogCurrentException e;
            worker_event (setStatus_call coordinator_id STATUS_ERROR "") ok].
    split; [simpl; rewrite Htrace; reflexivity |]. split; [reflexivity |]. right; right.
    destruct ok; [| split; reflexivity].
    destruct (proj1 Hok eq_refl) as [a Ha]. discriminate.
Qed.

Lemma drain_notifies_once coordinator_id todo :
  preserves notifies_once (drain coordinator_id todo).
Proof.
  induction todo as [| step rest IH]; simpl.
  - intros f. apply quiet_notifies_once. reflexivity.
  - destruct step.
    + intros f. apply quiet_notifies_once. reflexivity.
    + exact IH.
    + apply (preserves_bind_seq notifies_once quiet notifies_once);
        [auto | exact once_then_quiet | apply exception_callback_notifies_once | keeps].
Qed.

Lemma dispatch_notifies_once first_partition last_partition weighted_zookeeper_paths
    sharding_key_expr do_copy settings coordinator_id :
  preserves notifies_once
    (dispatch first_partition last_partition weighted_zookeeper_paths
       sharding_key_expr do_copy settings coordinator_id).
Proof.
  unfold dispatch.
  do 2 (apply (preserves_bind_seq quiet notifies_once notifies_once);
        [exact quiet_notifies_once | exact quiet_then_once | keeps | intros ?]).
  apply (preserves_finally_seq notifies_once quiet notifies_once);
    [exact once_then_quiet | | keeps].
  do 4 (apply (preserves_bind_seq quiet notifies_once notifies_once);
        [exact quiet_notifies_once | exact quiet_then_once | keeps | intros ?]).
  apply (preserves_bind_seq notifies_once quiet notifies_once);
    [auto | exact once_then_quiet | apply drain_notifies_once | keeps].
Qed.

(** ** The cleanup *)

Lemma handle_exception_spec (coordinator_id msg : string) (f : Frame) :
  let f' := snd (handle_exception coordinator_id msg f) in
  let calls := cleanup_calls (has_notified_error f) coordinator_id msg in
  exists events,
    cleanup_attempt calls events
    /\ fst (handle_exception coordinator_id msg f) = Returned tt
    /\ trace (context (outer f')) = reverse events ++ trace (context (outer f))
    /\ has_notified_error f' = has_notified_error f
    /\ this (outer f') = this (outer f)
    /\ (events = completed calls -> coordinators (worker_of f') !! coordinator_id = None)
    /\ (worker_event (dumpCoordinatorState_call coordinator_id) true ∉ events ->
        dumped_coordinator_state f' = dumped_coordinator_state f).
Proof.
  destruct f as [notified dump [t [h fs [st records n fl] dbs ext cl px tr]]].
  cbv zeta. unfold worker_of.
  destruct notified;
    destruct fl as [| [e1 |] [| [e2 |] [| [e3 |] fl]]]; cbn.
  all: first
    [ solve [eexists; split; [apply cleanup_completed |]; cbn;
             repeat split; try reflexivity;
             [intros _; apply lookup_delete_eq
             | intros Hnot; exfalso; apply Hnot; set_solver]]
    | solve [eexists; split; [eapply (cleanup_abandoned _ []); reflexivity |]; cbn;
             repeat split; try reflexivity; intros Heq; discriminate Heq]
    | solve [eexists; split; [eapply (cleanup_abandoned _ [_]); reflexivity |]; cbn;
             repeat split; try reflexivity;
             first [intros Heq; discriminate Heq
                   | intros Hnot; exfalso; apply Hnot; set_solver]]
    | solve [eexists; split; [eapply (cleanup_abandoned _ [_; _]); reflexivity |]; cbn;
             repeat split; try reflexivity;
             first [intros Heq; discriminate Heq
                   | intros Hnot; exfalso; apply Hnot; set_solver]]
    ].
Qed.

Lemma error_notifications_reverse (events : list Event) :
  error_notifications (reverse events) = reverse (error_notifications events).
Proof.
  unfold error_notifications. induction events as [| ev rest IH]; [reflexivity |].
  rewrite reverse_cons, omap_app, IH. simpl.
  destruct (error_notification ev); simpl.
  - rewrite reverse_cons. reflexivity.
  - apply app_nil_r.
Qed.

Lemma cleanup_attempt_notifications (notified : bool) (coordinator_id msg : string)
    (events : list Event) :
  cleanup_attempt (cleanup_calls notified coordinator_id msg) events ->
  if notified then error_notifications events = []
  else exists b, error_notifications events = [b].
Proof.
  intros Hattempt. inversion Hattempt as [| done failed skipped e Hcalls]; subst.
  - destruct notified; simpl; eauto.
  - destruct notified; unfold cleanup_calls in Hcalls; simpl in Hcalls;
      destruct done as [| c1 [| c2 [| c3 [| c4 done]]]]; simpl in Hcalls;
      inversion Hcalls; subst; simpl; eauto.
Qed.

Lemma handle_exception_notifies coordinator_id msg :
  preserves notifies_unless_notified (handle_exception coordinator_id msg).
Proof.
  intros f.
  destruct (handle_exception_spec coordinator_id msg f)
    as (events & Hattempt & _ & Htrace & _).
  exists (reverse events). split; [exact Htrace |].
  apply cleanup_attempt_notifications in Hattempt.
  rewrite error_notifications_reverse.
  destruct (has_notified_error f).
  - rewrite Hattempt. reflexivity.
  - destruct Hattempt as [b ->]. exists b. reflexivity.
Qed.

Lemma cleanup_then_quiet f1 f2 f3 :
  notifies_unless_notified f1 f2 -> quiet f2 f3 -> notifies_unless_notified f1 f3.
Proof.
  intros (new1 & H1 & Hcleanup) (_ & _ & new2 & H2 & Hn2).
  exists (new2 ++ new1). split; [rewrite H2, H1; apply app_assoc |].
  unfold error_notifications in *. rewrite omap_app, Hn2. exact Hcleanup.
Qed.

Lemma silent_settled s s' : silent s s' -> settled s s'.
Proof.
  intros (new & Htrace & Hnone). exists new. split; [exact Htrace |].
  rewrite Hnone. left. reflexivity.
Qed.

Lemma silent_then_settled s1 s2 s3 : silent s1 s2 -> settled s2 s3 -> settled s1 s3.
Proof.
  intros (new1 & H1 & Hn1) (new2 & H2 & Hallowed).
  exists (new2 ++ new1). split; [rewrite H2, H1; apply app_assoc |].
  unfold error_notifications in *. rewrite omap_app, Hn1, app_nil_r. exact Hallowed.
Qed.

Lemma settled_with_locals {A} (m : M Frame A) :
  preserves settles m -> preserves settled (with_locals m).
Proof.
  intros Hm s. unfold with_locals.
  specialize (Hm (mkFrame false "" s)). destruct (m _) as [r f]. apply Hm. reflexivity.
Qed.

Lemma reshardPartitions_settled query database_name first_partition last_partition
    weighted_zookeeper_paths sharding_key_expr do_copy coordinator settings :
  preserves settled
    (reshardPartitions query database_name first_partition last_partition
       weighted_zookeeper_paths sharding_key_expr do_copy coordinator settings).
Proof.
  unfold reshardPartitions, isStarted.
  apply (preserves_bind_seq silent settled settled);
    [exact silent_settled | exact silent_then_settled | keeps | intros worker_started].
  destruct (negb worker_started); [intros s; apply silent_settled; reflexivity |].
  destruct (negb (isNull coordinator)); [intros s; apply silent_settled; reflexivity |].
  apply (preserves_bind_seq silent settled settled);
    [exact silent_settled | exact silent_then_settled | keeps | intros c].
  apply (preserves_bind_seq silent settled settled);
    [exact silent_settled | exact silent_then_settled | keeps | intros coordinator_id].
  apply settled_with_locals.
  apply (preserves_try_catch_seq notifies_once notifies_unless_notified settles);
    [exact once_settles | exact once_then_cleanup | apply dispatch_notifies_once | intros ex].
  apply (preserves_bind_seq notifies_unless_notified quiet notifies_unless_notified);
    [auto | exact cleanup_then_quiet | apply handle_exception_notifies | keeps].
Qed.

(** ** What the [try] block leaves *)

Lemma exception_callback_returns (coordinator_id : string) (f : Frame) :
  fst (exception_callback coordinator_id f) = Returned tt
  /\ has_notified_error (snd (exception_callback coordinator_id f))
     = if next_call_throws (worker_of f) then has_notified_error f else true.
Proof.
  destruct f as [notified dump [t [h fs [st records n fl] dbs ext cl px tr]]].
  unfold worker_of, next_call_throws.
  destruct fl as [| [e |] fl]; split; reflexivity.
Qed.

Lemma callback_then_throw (coordinator_id : string) (e : Exn) (f : Frame) :
  fst (bind (exception_callback coordinator_id) (fun _ => @throw Frame bool e) f) = Thrown e.
Proof.
  unfold bind. destruct (exception_callback_returns coordinator_id f) as [Hret _].
  destruct (exception_callback coordinator_id f) as [[[] | e'] f']; simpl in *;
    [reflexivity | discriminate].
Qed.

Lemma drain_cases (coordinator_id : string) (todo : list ReadStep) (f : Frame) :
  (exists cancelled, drain coordinator_id todo f = (Returned cancelled, f))
  \/ exists e, fst (drain coordinator_id todo f) = Thrown e.
Proof.
  induction todo as [| step rest IH]; simpl.
  - left. exists false. reflexivity.
  - destruct step.
    + left. exists true. reflexivity.
    + exact IH.
    + right. exists e. apply callback_then_throw.
Qed.

Lemma dispatch_returned first_partition last_partition weighted_zookeeper_paths
    sharding_key_expr do_copy settings coordinator_id (f : Frame) :
  fst (dispatch first_partition last_partition weighted_zookeeper_paths
         sharding_key_expr do_copy settings coordinator_id f) = Returned tt ->
  let s := outer f in
  let f' := snd (dispatch first_partition last_partition weighted_zookeeper_paths
                   sharding_key_expr do_copy settings coordinator_id f) in
  let q := reshard_query (this s) first_partition last_partition weighted_zookeeper_paths
             (sharding_key_expr ≫= (fun l => asts (context s) !! l)) do_copy
             coordinator_id in
  exists d,
    trace (context (outer f'))
      = execute d
          :: worker_event (registerQuery_call coordinator_id (queryToString q)) true
          :: trace (context s)
    /\ query_constructor d = AlterQueryConstructor
    /\ dispatched_cluster d = cluster (this s)
    /\ dispatched_tree d = Some q
    /\ enable_shard_multiplexing d = false
    /\ asts (context (outer f')) = asts (context s).
Proof.
  destruct f as [notified dump [t [h fs [st records n fl] dbs ext cl px tr]]].
  cbv zeta. unfold worker_of.
  pose proof (fresh_location h) as Hfresh.
  unfold dispatch, bind, gets, lift, zoom, make_shared, finally, registerQuery, worker_call,
    ClusterProxy_Query_execute, release, modify, raise_if, when.
  cbn -[drain reshard_query fresh].
  destruct fl as [| [e |] rest]; cbn -[drain reshard_query fresh];
    try discriminate.
  all: destruct px as [| [e | streams] px']; cbn -[drain reshard_query fresh];
    try discriminate.
  all: try (destruct (is_profiling streams); cbn -[drain reshard_query fresh];
    try discriminate;
    destruct (prefix_failure streams); cbn -[drain reshard_query fresh];
    try discriminate).
  all: match goal with
       | |- context [drain ?c ?l ?f0] =>
           destruct (drain_cases c l f0) as [[cancelled Hd] | [e He]]
       end.
  all: try (rewrite Hd; destruct cancelled; cbn -[reshard_query fresh];
            try destruct (cancelled_at_end streams); cbn -[reshard_query fresh];
            try destruct (suffix_failure streams); cbn -[reshard_query fresh];
            try discriminate; intros _; eexists; repeat split;
            cbn -[reshard_query fresh];
            first [ reflexivity
                  | apply lookup_insert_eq
                  | apply delete_insert_id; exact Hfresh ]).
  all: match goal with
       | |- context [drain ?c ?l ?f0] =>
           destruct (drain c l f0) as [[cancelled | e'] f1]
       end; cbn in He; [discriminate He |]; cbn; discriminate.
Qed.

(** C1, as stated, fails: when the [setStatus] of the callback throws,
    the flag stays unset and the cleanup calls [setStatus] again, so
    [setStatus(_, STATUS_ERROR, _)] is invoked twice in one call. *)
Lemma setStatus_invoked_twice :
  reverse (error_notifications
    (trace (context (snd (reshard [None; None; Some session_expired])))))
  = [false; true]
  /\ reverse (worker_calls
       (trace (context (snd (reshard [None; None; Some session_expired])))))
     = [(createCoordinator_call, true);
        (registerQuery_call "coordinator-0" reshard_text, true);
        (setStatus_call "coordinator-0" STATUS_ERROR "", false);
        (setStatus_call "coordinator-0" STATUS_ERROR "Connection reset by peer", true);
        (dumpCoordinatorState_call "coordinator-0", true);
        (deleteCoordinator_call "coordinator-0", true)].
Proof. split; vm_compute; reflexivity. Qed.

(** C1, amended: in one call of [reshardPartitions], callback and
    cleanup together, [setStatus(_, STATUS_ERROR, _)] is invoked at most
    twice and returns at most once.  Once the coordinator is created:
    in the [try] block it is invoked at most once, by the callback, and
    the flag is set when the block is left exactly when that invocation
    returned; a block that returns has not invoked it, and no cleanup
    follows.  When the block throws, the cleanup invokes it exactly when
    the flag is unset: not at all after an invocation of the callback
    that returned, and once more after one that threw. *)
Theorem error_status_set_with_at_most_one_retry (query : ASTPtr) (database_name : string)
    (first_partition last_partition : Field)
    (weighted_zookeeper_paths : list (string * Z)) (sharding_key_expr : ASTPtr)
    (do_copy : bool) (coordinator : Field) (settings : Settings) (s : State) :
  let result :=
    reshardPartitions query database_name first_partition last_partition
      weighted_zookeeper_paths sharding_key_expr do_copy coordinator settings s in
  (exists new,
     trace (context (snd result)) = new ++ trace (context s)
     /\ let outcomes := reverse (error_notifications new) in
        (outcomes = [] \/ (exists b, outcomes = [b]) \/ (exists b, outcomes = [false; b]))
        /\ (length outcomes <= 2)%nat
        /\ (length (List.filter (fun b : bool => b) outcomes) <= 1)%nat)
  /\ forall (coordinator_id : string) (s1 : State),
       started (resharding_worker (context s)) = true ->
       isNull coordinator = true ->
       createCoordinator (cluster (this s)) s = (Returned coordinator_id, s1) ->
       let tried :=
         dispatch first_partition last_partition weighted_zookeeper_paths
           sharding_key_expr do_copy settings coordinator_id (mkFrame false "" s1) in
       let f1 := snd tried in
       exists in_try in_cleanup,
         trace (context (outer f1)) = in_try ++ trace (context s1)
         /\ trace (context (snd result)) = in_cleanup ++ trace (context (outer f1))
         /\ ((error_notifications in_try = [] /\ has_notified_error f1 = false)
             \/ (error_notifications in_try = [true] /\ has_notified_error f1 = true)
             \/ (error_notifications in_try = [false] /\ has_notified_error f1 = false))
         /\ match fst tried with
            | Returned _ =>
                fst result = Returned tt
                /\ error_notifications in_try = []
                /\ in_cleanup = []
            | Thrown ex =>
                fst result = Thrown ex
                /\ if has_notified_error f1
                   then error_notifications in_cleanup = []
                   else exists b, error_notifications in_cleanup = [b]
            end.
Proof.
  cbv zeta. split.
  - destruct (reshardPartitions_settled query database_name first_partition last_partition
                weighted_zookeeper_paths sharding_key_expr do_copy coordinator settings s)
      as (new & Htrace & Hallowed).
    exists new. split; [exact Htrace |]. split; [exact Hallowed |].
    destruct Hallowed as [-> | [[b ->] | [b ->]]]; simpl; try destruct b; simpl; lia.
  - intros coordinator_id s1 Hstarted Hnull Hcreate.
    destruct (dispatch_notifies_once first_partition last_partition
                weighted_zookeeper_paths sharding_key_expr do_copy settings coordinator_id
                (mkFrame false "" s1))
      as (in_try & Htry & _ & Hcallback).
    pose proof (dispatch_returned first_partition last_partition
                  weighted_zookeeper_paths sharding_key_expr do_copy settings
                  coordinator_id (mkFrame false "" s1)) as Hreturned.
    unfold reshardPartitions, isStarted, bind, gets. rewrite Hstarted, Hnull. simpl.
    rewrite Hcreate. unfold with_locals, try_catch.
    destruct (dispatch first_partition last_partition weighted_zookeeper_paths
                sharding_key_expr do_copy settings coordinator_id (mkFrame false "" s1))
      as [[[] | ex] f1]; simpl in *.
    + exists in_try, []. split; [exact Htry |]. split; [reflexivity |].
      destruct (Hreturned eq_refl) as (d & Htrace & _).
      rewrite Htrace in Htry.
      change (execute d :: ?a :: ?t) with ([execute d; a] ++ t) in Htry.
      apply app_inv_tail in Htry. subst in_try. simpl in *.
      split; [exact Hcallback |]. repeat split.
    + destruct (handle_exception_spec coordinator_id (message ex) f1)
        as (events & Hattempt & Hret & Htrace & _).
      apply cleanup_attempt_notifications in Hattempt.
      destruct (handle_exception coordinator_id (message ex) f1) as [r f2]. simpl in *.
      subst r. simpl.
      exists in_try, (LOG_ERROR (dumped_coordinator_state f2) :: reverse events).
      split; [exact Htry |]. split; [rewrite Htrace; reflexivity |].
      split; [exact Hcallback |]. split; [reflexivity |].
      change (error_notifications (LOG_ERROR ?d :: ?l)) with (error_notifications l).
      rewrite error_notifications_reverse.
      destruct (has_notified_error f1).
      * rewrite Hattempt. reflexivity.
      * destruct Hattempt as [b ->]. exists b. reflexivity.
Qed.

(** A shard fails, the callback sets the status and with it the flag;
    the cleanup that follows does not set it again. *)
Lemma error_status_set_with_at_most_one_retry_witness :
  exists in_try in_cleanup,
    trace (context (outer failed_frame)) = in_try ++ trace (context created_state)
    /\ trace (context (snd (reshard faults_in_cleanup)))
       = in_cleanup ++ trace (context (outer failed_frame))
    /\ error_notifications in_try = [true]
    /\ has_notified_error failed_frame = true
    /\ fst (reshard faults_in_cleanup) = Thrown boom
    /\ error_notifications in_cleanup = [].
Proof.
  destruct (proj2 (error_status_set_with_at_most_one_retry nullptr "default" Null Null
                     [("/clickhouse/shard3", 1)] nullptr false Null default_settings
                     (resharding_state faults_in_cleanup))
              "coordinator-0" created_state eq_refl eq_refl eq_refl)
    as (in_try & in_cleanup & Htry & Hcleanup & Hcallback & Hrest).
  exists in_try, in_cleanup.
  split; [exact Htry |]. split; [exact Hcleanup |].
  change (fst (dispatch Null Null [("/clickhouse/shard3", 1)] nullptr false
                 default_settings "coordinator-0" (mkFrame false "" created_state)))
    with (@Thrown unit boom) in Hrest.
  change (has_notified_error
            (snd (dispatch Null Null [("/clickhouse/shard3", 1)] nullptr false
                    default_settings "coordinator-0" (mkFrame false "" created_state))))
    with true in Hrest, Hcallback.
  cbv iota in Hrest. destruct Hrest as [Hthrown Hnone].
  destruct Hcallback as [[_ Hflag] | [[Hns _] | [_ Hflag]]];
    [discriminate Hflag | | discriminate Hflag].
  repeat split; assumption.
Defined.

(** * Cleanup after a failed dispatch *)

(** C4, as stated, fails: here a shard fails, the callback sets the
    status, and in the cleanup [dumpCoordinatorState] throws; the
    cleanup stops there, so the state is not dumped and the coordinator
    record is not deleted, though the original exception is rethrown. *)
Lemma cleanup_stops_at_first_failure :
  fst (reshard [None; None; None; Some session_expired]) = Thrown boom
  /\ reverse (worker_calls
       (trace (context (snd (reshard [None; None; None; Some session_expired])))))
     = [(createCoordinator_call, true);
        (registerQuery_call "coordinator-0" reshard_text, true);
        (setStatus_call "coordinator-0" STATUS_ERROR "", true);
        (dumpCoordinatorState_call "coordinator-0", false)]
  /\ coordinators (resharding_worker
       (context (snd (reshard [None; None; None; Some session_expired]))))
       !! "coordinator-0"
     = Some (mkCoordinator (Some reshard_text) STATUS_ERROR "")
  /\ head (trace (context (snd (reshard [None; None; None; Some session_expired]))))
     = Some (LOG_ERROR "").
Proof. repeat split; vm_compute; reflexivity. Qed.

Lemma cleanup_events_attempt (calls : list WorkerCall) (fl : list (option Exn)) :
  cleanup_attempt calls (cleanup_events calls fl).
Proof.
  revert fl. induction calls as [| call rest IH]; intros fl.
  - apply (cleanup_completed []).
  - assert (Hreturned : cleanup_attempt (call :: rest)
                          (worker_event call true :: cleanup_events rest (tail fl))).
    { specialize (IH (tail fl)).
      inversion IH as [Hall | done failed skipped e Hcalls Hsome].
      - apply (cleanup_completed (call :: rest)).
      - apply (cleanup_abandoned (call :: rest) (call :: done) failed skipped e).
        rewrite Hcalls. reflexivity. }
    destruct fl as [| [e |] fl]; simpl.
    + exact Hreturned.
    + apply (cleanup_abandoned (call :: rest) [] call rest e). reflexivity.
    + exact Hreturned.
Qed.

Lemma handle_exception_exact (coordinator_id msg : string) (f : Frame) :
  let f' := snd (handle_exception coordinator_id msg f) in
  let calls := cleanup_calls (has_notified_error f) coordinator_id msg in
  trace (context (outer f'))
    = reverse (cleanup_events calls (faults (worker_of f))) ++ trace (context (outer f))
  /\ dumped_coordinator_state f'
     = default (dumped_coordinator_state f)
         (dump_answered (has_notified_error f) coordinator_id msg (outer f)).
Proof.
  destruct f as [notified dump [t [h fs [st records n fl] dbs ext cl px tr]]].
  cbv zeta. unfold worker_of.
  destruct notified;
    destruct fl as [| [e1 |] [| [e2 |] [| [e3 |] fl]]]; split; reflexivity.
Qed.

(** C4, amended: when the dispatch phase throws, the cleanup makes its
    calls in order: [setStatus] to [STATUS_ERROR] with the message of
    the exception if the flag is unset, [dumpCoordinatorState],
    [deleteCoordinator]; it stops at the first call that throws, and
    what that call threw is logged; the calls after it are skipped.
    Then what [dumpCoordinatorState] answered is logged (the empty
    string if it was not reached or threw) and the original exception is
    rethrown.  When no call of the cleanup throws, the coordinator
    record is gone. *)
Theorem cleanup_then_rethrow (query : ASTPtr) (database_name : string)
    (first_partition last_partition : Field)
    (weighted_zookeeper_paths : list (string * Z)) (sharding_key_expr : ASTPtr)
    (do_copy : bool) (coordinator : Field) (settings : Settings) (s : State)
    (coordinator_id : string) (s1 : State) (ex : Exn) (f1 : Frame) :
  started (resharding_worker (context s)) = true ->
  isNull coordinator = true ->
  createCoordinator (cluster (this s)) s = (Returned coordinator_id, s1) ->
  dispatch first_partition last_partition weighted_zookeeper_paths sharding_key_expr
    do_copy settings coordinator_id (mkFrame false "" s1) = (Thrown ex, f1) ->
  let result :=
    reshardPartitions query database_name first_partition last_partition
      weighted_zookeeper_paths sharding_key_expr do_copy coordinator settings s in
  let calls := cleanup_calls (has_notified_error f1) coordinator_id (message ex) in
  let events := cleanup_events calls (faults (worker_of f1)) in
  let dump :=
    default "" (dump_answered (has_notified_error f1) coordinator_id (message ex)
                  (outer f1)) in
  cleanup_attempt calls events
  /\ fst result = Thrown ex
  /\ trace (context (snd result))
     = LOG_ERROR dump :: reverse events ++ trace (context (outer f1))
  /\ (events = completed calls ->
      coordinators (resharding_worker (context (snd result))) !! coordinator_id = None)
  /\ (worker_event (dumpCoordinatorState_call coordinator_id) true ∉ events ->
      dump = "").
Proof.
  intros Hstarted Hnull Hcreate Hdispatch. cbv zeta.
  destruct (dispatch_notifies_once first_partition last_partition weighted_zookeeper_paths
              sharding_key_expr do_copy settings coordinator_id (mkFrame false "" s1))
    as (_ & _ & Hdump & _).
  rewrite Hdispatch in Hdump. simpl in Hdump.
  destruct (handle_exception_spec coordinator_id (message ex) f1)
    as (events & Hattempt & Hret & Htrace & _ & _ & Hgone & Hkept).
  destruct (handle_exception_exact coordinator_id (message ex) f1) as [Hexact Hanswer].
  rewrite Htrace in Hexact. apply app_inv_tail in Hexact.
  apply (f_equal reverse) in Hexact. rewrite !reverse_involutive in Hexact. subst events.
  rewrite Hdump in Hanswer, Hkept.
  unfold reshardPartitions, isStarted, bind, gets. rewrite Hstarted, Hnull. simpl.
  rewrite Hcreate. unfold with_locals, try_catch. rewrite Hdispatch.
  unfold worker_of in Hgone.
  destruct (handle_exception coordinator_id (message ex) f1) as [r f2]. simpl in *.
  subst r. simpl. rewrite <- Hanswer. repeat split.
  - exact Hattempt.
  - rewrite Htrace. reflexivity.
  - exact Hgone.
  - exact Hkept.
Qed.

Lemma cleanup_then_rethrow_witness :
  fst (reshard faults_in_cleanup) = Thrown boom
  /\ trace (context (snd (reshard faults_in_cleanup)))
     = [LOG_ERROR "";
        tryLogCurrentException session_expired;
        worker_event (dumpCoordinatorState_call "coordinator-0") false]
       ++ trace (context (outer failed_frame)).
Proof.
  refine (let H := cleanup_then_rethrow nullptr "default" Null Null
                     [("/clickhouse/shard3", 1)] nullptr false Null default_settings
                     (resharding_state faults_in_cleanup)
                     "coordinator-0" created_state boom failed_frame _ _ _ _ in
          conj (proj1 (proj2 H)) (proj1 (proj2 (proj2 H)))).
  - reflexivity.
  - reflexivity.
  - reflexivity.
  - reflexivity.
Defined.

(** * What the query operations can touch *)

(** [read], [write], [describe] and [reshardPartitions] act on the
    surroundings of the table only, and what they record is a call to
    the worker, a log entry or a dispatch without shard multiplexing.
    So they keep every relation [R] that such steps keep. *)
Section ContextOnly.
Context (R : relation State) `{!PreOrder R}.
Variable harmless : Event -> Prop.
Hypothesis R_context :
  forall s f, (forall c, trace (f c) = trace c) -> R s (on_context f s).
Hypothesis R_event :
  forall s ev, harmless ev -> R s (on_context (record_event ev) s).
Hypothesis harmless_worker : forall call succeeded, harmless (worker_event call succeeded).
Hypothesis harmless_log : forall e, harmless (tryLogCurrentException e).
Hypothesis harmless_error : forall dump, harmless (LOG_ERROR dump).
Hypothesis harmless_execute :
  forall d, enable_shard_multiplexing d = false -> harmless (execute d).

Definition under_locals (f f' : Frame) : Prop := R (outer f) (outer f').

#[local] Instance under_locals_preorder : PreOrder under_locals.
Proof.
  split.
  - intros f. unfold under_locals. reflexivity.
  - intros f1 f2 f3. unfold under_locals. apply transitivity.
Qed.

Lemma only_deref (p : ASTPtr) : preserves R (deref p).
Proof. intros s. unfold deref. destruct (p ≫= _); reflexivity. Qed.

Lemma only_make_shared (node : AST) : preserves R (make_shared node).
Proof. intros s. apply R_context. reflexivity. Qed.

Lemma only_assign (p : ASTPtr) (node : AST) : preserves R (assign p node).
Proof.
  destruct p; [| apply preserves_throw; exact _].
  intros s. apply R_context. reflexivity.
Qed.

Lemma only_release (p : ASTPtr) : preserves R (release p).
Proof.
  destruct p; [| apply preserves_ret; exact _].
  intros s. apply R_context. reflexivity.
Qed.

Lemma only_emit (ev : Event) : harmless ev -> preserves R (emit ev).
Proof. intros Hev s. apply R_event. exact Hev. Qed.

Lemma only_execute constructor query settings :
  preserves R (ClusterProxy_Query_execute constructor query settings false).
Proof.
  intros s. unfold ClusterProxy_Query_execute. cbv zeta.
  match goal with |- context [execute ?d] =>
    assert (Hstep : R s (on_context (record_event (execute d)) s))
      by (apply R_event, harmless_execute; reflexivity)
  end.
  simpl. destruct (cluster_proxy (context s)) as [| [e | streams] rest]; simpl;
    [exact Hstep | |];
    (etransitivity; [exact Hstep | apply R_context; reflexivity]).
Qed.

Lemma only_worker_call {A} call (body : ReshardingWorker -> A * ReshardingWorker) :
  preserves R (worker_call call body).
Proof.
  intros s. unfold worker_call.
  destruct (faults (resharding_worker (context s))) as [| [e |] rest];
    try destruct (body _) as [a w']; simpl.
  - transitivity (on_context (set_resharding_worker w') s);
      [apply R_context; reflexivity |].
    exact (R_event (on_context (set_resharding_worker w') s) _ (harmless_worker call true)).
  - transitivity (on_context (set_resharding_worker
                    (set_faults rest (resharding_worker (context s)))) s);
      [apply R_context; reflexivity |].
    exact (R_event (on_context (set_resharding_worker
                      (set_faults rest (resharding_worker (context s)))) s) _
             (harmless_worker call false)).
  - transitivity (on_context (set_resharding_worker w') s);
      [apply R_context; reflexivity |].
    exact (R_event (on_context (set_resharding_worker w') s) _ (harmless_worker call true)).
Qed.

#[local] Hint Resolve only_deref only_make_shared only_assign only_release
  only_execute only_worker_call : keeps.

Lemma only_rewriteSelectQuery query database table :
  preserves R (rewriteSelectQuery query database table).
Proof. unfold rewriteSelectQuery, clone. keeps. Qed.

Lemma only_rewriteInsertQuery query database table :
  preserves R (rewriteInsertQuery query database table).
Proof. unfold rewriteInsertQuery, clone. keeps. Qed.

#[local] Hint Resolve only_rewriteSelectQuery only_rewriteInsertQuery : keeps.

Lemma only_read_streams processed_stage query settings :
  preserves R (read_streams processed_stage query settings).
Proof. unfold read_streams. keeps. Qed.

Lemma only_write query settings : preserves R (write query settings).
Proof. unfold write. keeps. Qed.

Lemma only_describe settings : preserves R (describe settings).
Proof. unfold describe. keeps. Qed.

Lemma only_lift {A} (m : M State A) : preserves R m -> preserves under_locals (lift m).
Proof.
  intros Hm f. unfold lift, zoom, under_locals.
  specialize (Hm (outer f)). destruct (m (outer f)) as [r s']. exact Hm.
Qed.

Lemma only_locals (g : Frame -> Frame) :
  (forall f, outer (g f) = outer f) -> preserves under_locals (modify g).
Proof.
  intros Hg f. unfold modify, under_locals. simpl. rewrite Hg. reflexivity.
Qed.

Lemma only_with_locals {A} (m : M Frame A) :
  preserves under_locals m -> preserves R (with_locals m).
Proof.
  intros Hm s. unfold with_locals.
  specialize (Hm (mkFrame false "" s)). destruct (m _) as [r f]. exact Hm.
Qed.

Lemma only_handle_exception coordinator_id msg :
  preserves under_locals (handle_exception coordinator_id msg).
Proof.
  unfold handle_exception, setStatus, dumpCoordinatorState, deleteCoordinator,
    set_dumped_coordinator_state.
  repeat first
    [ progress keeps
    | intros; apply only_lift
    | intros; apply only_emit; solve [auto]
    | intros; apply only_locals; reflexivity
    | intros; apply only_with_locals ].
Qed.

Lemma only_exception_callback coordinator_id :
  preserves under_locals (exception_callback coordinator_id).
Proof.
  unfold exception_callback, setStatus, set_has_notified_error.
  repeat first
    [ progress keeps
    | intros; apply only_lift
    | intros; apply only_emit; solve [auto]
    | intros; apply only_locals; reflexivity
    | intros; apply only_with_locals ].
Qed.

#[local] Hint Resolve only_handle_exception only_exception_callback : keeps.

Lemma only_drain coordinator_id todo :
  preserves under_locals (drain coordinator_id todo).
Proof.
  induction todo as [| step rest IH]; simpl; [keeps |].
  destruct step; [keeps | exact IH |].
  apply preserves_bind; [exact _ | apply only_exception_callback | keeps].
Qed.

#[local] Hint Resolve only_drain : keeps.

Lemma only_dispatch first_partition last_partition weighted_zookeeper_paths
    sharding_key_expr do_copy settings coordinator_id :
  preserves under_locals
    (dispatch first_partition last_partition weighted_zookeeper_paths
       sharding_key_expr do_copy settings coordinator_id).
Proof.
  unfold dispatch, registerQuery.
  repeat first
    [ progress keeps
    | intros; apply only_lift
    | intros; apply only_emit; solve [auto]
    | intros; apply only_locals; reflexivity
    | intros; apply only_with_locals ].
Qed.

#[local] Hint Resolve only_dispatch : keeps.

Lemma only_reshardPartitions query database_name first_partition last_partition
    weighted_zookeeper_paths sharding_key_expr do_copy coordinator settings :
  preserves R
    (reshardPartitions query database_name first_partition last_partition
       weighted_zookeeper_paths sharding_key_expr do_copy coordinator settings).
Proof.
  unfold reshardPartitions, isStarted, createCoordinator.
  repeat first
    [ progress keeps
    | intros; apply only_lift
    | intros; apply only_emit; solve [auto]
    | intros; apply only_locals; reflexivity
    | intros; apply only_with_locals ].
Qed.

End ContextOnly.

#[local] Instance same_table_preorder : PreOrder same_table.
Proof.
  split.
  - intros s. reflexivity.
  - intros s1 s2 s3 H12 H23. unfold same_table in *. congruence.
Qed.

Lemma same_table_reshardPartitions query database_name first_partition last_partition
    weighted_zookeeper_paths sharding_key_expr do_copy coordinator settings :
  preserves same_table
    (reshardPartitions query database_name first_partition last_partition
       weighted_zookeeper_paths sharding_key_expr do_copy coordinator settings).
Proof.
  apply (only_reshardPartitions same_table (fun _ => True));
    first [exact _ | intros; exact I | intros; reflexivity].
Qed.

Lemma same_table_read_streams processed_stage query settings :
  preserves same_table (read_streams processed_stage query settings).
Proof.
  apply (only_read_streams same_table (fun _ => True));
    first [exact _ | intros; exact I | intros; reflexivity].
Qed.

Lemma same_table_write query settings : preserves same_table (write query settings).
Proof.
  apply only_write; [exact _ |]. intros s f _. reflexivity.
Qed.

Lemma same_table_describe settings : preserves same_table (describe settings).
Proof.
  apply (only_describe same_table (fun _ => True));
    first [exact _ | intros; exact I | intros; reflexivity].
Qed.

(** X1: [read], [write], [describe] and [reshardPartitions] leave the
    table object exactly as it was, whether they return or throw:
    columns, directory monitors, cluster, names, flag and path. *)
Theorem queries_leave_the_table_untouched :
  (forall column_names query settings max_block_size threads s,
     this (snd (snd (read column_names query settings max_block_size threads s))) = this s)
  /\ (forall query settings s, this (snd (write query settings s)) = this s)
  /\ (forall settings s, this (snd (describe settings s)) = this s)
  /\ (forall query database_name first_partition last_partition weighted_zookeeper_paths
        sharding_key_expr do_copy coordinator settings s,
        this (snd (reshardPartitions query database_name first_partition last_partition
                     weighted_zookeeper_paths sharding_key_expr do_copy coordinator
                     settings s))
        = this s).
Proof.
  repeat split; intros.
  - apply same_table_read_streams.
  - apply same_table_write.
  - apply same_table_describe.
  - apply same_table_reshardPartitions.
Qed.

(** * alter, case by case *)

(** X2: however [alter] ends, it does not keep the structure lock: either
    it took no lock at all (and recorded nothing), or what it recorded
    starts with the lock, ends with its release, and has in between the
    call of [apply] and after it at most the one call to [alterTable],
    with the columns that [apply] left. *)
Theorem alter_always_releases_the_lock (params : AlterCommands)
    (database_name table_name : string) (s : State) :
  let after := trace (context (snd (alter params database_name table_name s))) in
  after = trace (context s)
  \/ exists sc middle,
       after = unlockStructure
                 :: middle ++ apply_commands sc :: lockStructureForAlter
                 :: trace (context s)
       /\ (middle = []
           \/ middle = [alterTable database_name table_name sc]).
Proof.
  cbv zeta.
  destruct (alter_cases params database_name table_name s)
    as [[_ ->] | [(_ & e & _ & ->) | [(_ & _ & _ & ->) | (_ & _ & tables & _ & ->)]]].
  - left. reflexivity.
  - right. eexists _, []. split; [reflexivity | left; reflexivity].
  - right. eexists _, []. split; [reflexivity | left; reflexivity].
  - right. eexists _, [_]. split; [reflexivity | right; reflexivity].
Qed.

(** X3: [alter] lets [apply] work on the columns before it calls the
    owning database.  So when that database is not found, [alter]
    throws (what [apply] threw, if it did), the columns of the table
    stay as [apply] left them, nothing is persisted, and the lock is
    released. *)
Theorem alter_is_not_undone_when_persisting_fails (params : AlterCommands)
    (database_name table_name : string) (s : State) :
  (forall param, param ∈ commands params -> command_type param <> MODIFY_PRIMARY_KEY) ->
  databases (context s) !! database_name = None ->
  let s' := snd (alter params database_name table_name s) in
  let altered := snd (apply params (schema (this s))) in
  fst (alter params database_name table_name s) = Thrown (alter_failure params s)
  /\ schema (this s') = altered
  /\ databases (context s') = databases (context s)
  /\ trace (context s')
     = unlockStructure :: apply_commands altered :: lockStructureForAlter
         :: trace (context s).
Proof.
  intros Hnone Hdb. cbv zeta. unfold alter_failure.
  destruct (alter_cases params database_name table_name s)
    as [[Hex _] | [(_ & e & Happly & ->) | [(_ & Happly & _ & ->)
                                          | (_ & _ & tables & Htables & _)]]].
  - apply existsb_modify_primary_key in Hex as (param & Hin & Hp).
    exfalso. exact (Hnone param Hin Hp).
  - rewrite Happly. repeat split.
  - rewrite Happly. repeat split.
  - congruence.
Qed.

Lemma alter_is_not_undone_when_persisting_fails_witness :
  fst (alter (add_column "Age" "UInt8") "default" "hits_all"
         (mkState single_shard_table empty_context))
  = Thrown unknown_database
  /\ schema (this (snd (alter (add_column "Age" "UInt8") "default" "hits_all"
                          (mkState single_shard_table empty_context))))
     = mkSchema [("Age", "UInt8")] [] [] [].
Proof.
  refine (let H := alter_is_not_undone_when_persisting_fails (add_column "Age" "UInt8")
                     "default" "hits_all" (mkState single_shard_table empty_context)
                     _ _ in conj (proj1 H) (proj1 (proj2 H))).
  - intros param Hin. apply list_elem_of_singleton in Hin. subst. discriminate.
  - reflexivity.
Defined.

(** * The table object under every operation *)

Lemma set_directory_monitors_same (t : StorageDistributed) :
  set_directory_monitors (directory_monitors t) t = t.
Proof. destruct t. reflexivity. Qed.

Lemma createDirectoryMonitors_this (s : State) :
  exists entries,
    this (snd (createDirectoryMonitors s))
    = set_directory_monitors
        (foldl (adopt (name (this s))) (directory_monitors (this s)) entries) (this s).
Proof.
  destruct (is_empty (path (this s))) eqn:Hpath.
  - exists []. unfold createDirectoryMonitors, bind, gets. rewrite Hpath. simpl.
    symmetry. apply set_directory_monitors_same.
  - exists (default [] (files (context (snd (createDirectory (path (this s)) s)))
                        !! path (this s))).
    unfold createDirectoryMonitors, createDirectory, DirectoryIterator, bind, gets, modify.
    rewrite Hpath, for_each_adopt. reflexivity.
Qed.

Lemma emplace_adopt (storage n : string) (monitors : gmap string DirectoryMonitor) :
  emplace n (mkDirectoryMonitor storage n) monitors
  = foldl (adopt storage) monitors [mkDirEntry n true []].
Proof. reflexivity. Qed.

(** What an operation does to the table object: [alter] may change the
    columns; [shutdown] empties the monitors; the others may add
    monitors for some directory entries. *)
Lemma perform_this (op : Operation) (s : State) :
  exists sc monitors,
    this (perform op s) = set_directory_monitors monitors (set_schema sc (this s))
    /\ ((op = do_shutdown /\ monitors = ∅)
        \/ (op <> do_shutdown
            /\ exists entries,
                 monitors
                 = foldl (adopt (name (this s))) (directory_monitors (this s)) entries)).
Proof.
  assert (Hsame : forall t : StorageDistributed,
            t = set_directory_monitors (directory_monitors t) (set_schema (schema t) t))
    by (intros []; reflexivity).
  assert (Hkept : forall s' : State, this s' = this s ->
            exists sc monitors,
              this s' = set_directory_monitors monitors (set_schema sc (this s))
              /\ exists entries,
                   monitors
                   = foldl (adopt (name (this s))) (directory_monitors (this s)) entries).
  { intros s' ->. exists (schema (this s)), (directory_monitors (this s)).
    split; [apply Hsame | exists []; reflexivity]. }
  destruct op as [cols q st mb th | q st | params db tbl | | q db fp lp paths key copy coord st
                 | st | n | | n]; unfold perform.
  - unfold read. cbv zeta. cbn [snd].
    destruct (Hkept _ (same_table_read_streams
                         (processed_stage_of (cluster (this s)) st) q st s))
      as (sc & m & H1 & H2).
    exists sc, m. split; [exact H1 | right; split; [discriminate | exact H2]].
  - destruct (Hkept _ (same_table_write q st s)) as (sc & m & H1 & H2).
    exists sc, m. split; [exact H1 | right; split; [discriminate | exact H2]].
  - exists (schema (this (snd (alter params db tbl s)))), (directory_monitors (this s)).
    split; [| right; split; [discriminate | exists []; reflexivity]].
    destruct (alter_cases params db tbl s)
      as [[_ ->] | [(_ & e & _ & ->) | [(_ & _ & _ & ->) | (_ & _ & tables & _ & ->)]]];
      destruct s as [[] c]; reflexivity.
  - exists (schema (this s)), ∅. split; [destruct s as [[] c]; reflexivity |].
    left. split; reflexivity.
  - destruct (Hkept _ (same_table_reshardPartitions q db fp lp paths key copy coord st s))
      as (sc & m & H1 & H2).
    exists sc, m. split; [exact H1 | right; split; [discriminate | exact H2]].
  - destruct (Hkept _ (same_table_describe st s)) as (sc & m & H1 & H2).
    exists sc, m. split; [exact H1 | right; split; [discriminate | exact H2]].
  - exists (schema (this s)),
      (emplace n (mkDirectoryMonitor (name (this s)) n) (directory_monitors (this s))).
    split; [destruct s as [[] c]; reflexivity |].
    right. split; [discriminate |]. eexists. apply emplace_adopt.
  - destruct (createDirectoryMonitors_this s) as [entries Hthis].
    exists (schema (this s)),
      (foldl (adopt (name (this s))) (directory_monitors (this s)) entries).
    split; [rewrite Hthis; destruct s as [[] c]; reflexivity |].
    right. split; [discriminate | exists entries; reflexivity].
  - unfold requireDirectoryMonitor, bind, gets.
    destruct (negb (bool_decide (is_Some (directory_monitors (this s) !! n)))); simpl.
    + exists (schema (this s)),
        (emplace n (mkDirectoryMonitor (name (this s)) n) (directory_monitors (this s))).
      split; [destruct s as [[] c]; reflexivity |].
      right. split; [discriminate |]. eexists. apply emplace_adopt.
    + exists (schema (this s)), (directory_monitors (this s)).
      split; [apply Hsame | right; split; [discriminate | exists []; reflexivity]].
Qed.

Lemma perform_same_identity (op : Operation) (s : State) :
  same_identity (this s) (this (perform op s)).
Proof.
  destruct (perform_this op s) as (sc & monitors & -> & _).
  repeat split.
Qed.

Lemma same_identity_trans (t1 t2 t3 : StorageDistributed) :
  same_identity t1 t2 -> same_identity t2 t3 -> same_identity t1 t3.
Proof.
  unfold same_identity. intros H12 H23.
  destruct H12 as (? & ? & ? & ? & ? & ? & ? & ? & ?).
  destruct H23 as (? & ? & ? & ? & ? & ? & ? & ? & ?).
  repeat split; congruence.
Qed.

Lemma perform_all_same_identity (ops : list Operation) (s : State) :
  same_identity (this s) (this (perform_all ops s)).
Proof.
  revert s. induction ops as [| op rest IH]; intros s.
  - repeat split.
  - unfold perform_all in *. simpl.
    eapply same_identity_trans; [apply perform_same_identity | apply IH].
Qed.

(** X5: no sequence of operations changes what a table is and where it
    points: its name, remote database and table, cluster, sharding key,
    flag and path stay; so [getShardCount] answers the same number for
    the whole life of the table. *)
Theorem table_identity_never_changes (ops : list Operation) (s : State) :
  same_identity (this s) (this (perform_all ops s))
  /\ getShardCount (this (perform_all ops s)) = getShardCount (this s).
Proof.
  pose proof (perform_all_same_identity ops s) as Hsame.
  split; [exact Hsame |].
  unfold getShardCount. destruct Hsame as (_ & _ & _ & -> & _). reflexivity.
Qed.

(** * Directory monitors over the life of a table *)

Lemma adopt_keeps (storage : string) (entries : list DirEntry)
    (monitors : gmap string DirectoryMonitor) :
  monitors ⊆ foldl (adopt storage) monitors entries.
Proof.
  apply map_subseteq_spec. intros n m Hm. rewrite adopt_lookup, Hm. reflexivity.
Qed.

Lemma adopt_well_keyed (storage : string) (entries : list DirEntry)
    (monitors : gmap string DirectoryMonitor) :
  (forall n m, monitors !! n = Some m -> m = mkDirectoryMonitor storage n) ->
  forall n m, foldl (adopt storage) monitors entries !! n = Some m ->
              m = mkDirectoryMonitor storage n.
Proof.
  intros Hold n m. rewrite adopt_lookup.
  destruct (monitors !! n) as [m0 |] eqn:Hn.
  - intros [= <-]. apply Hold. exact Hn.
  - destruct (has_subdirectory n entries); [intros [= <-]; reflexivity | discriminate].
Qed.

Lemma adopt_again (storage : string) (entries : list DirEntry)
    (monitors : gmap string DirectoryMonitor) :
  foldl (adopt storage) (foldl (adopt storage) monitors entries) entries
  = foldl (adopt storage) monitors entries.
Proof.
  apply map_eq. intros n. rewrite adopt_lookup.
  destruct (foldl (adopt storage) monitors entries !! n) as [m |] eqn:Hn; [reflexivity |].
  rewrite adopt_lookup in Hn. destruct (monitors !! n); [discriminate |].
  destruct (has_subdirectory n entries); [discriminate | reflexivity].
Qed.

Lemma perform_keeps_well_keyed (op : Operation) (s : State) :
  monitors_well_keyed (this s) -> monitors_well_keyed (this (perform op s)).
Proof.
  intros Hold. destruct (perform_this op s) as (sc & monitors & -> & Hcases).
  unfold monitors_well_keyed. simpl.
  destruct Hcases as [[_ ->] | [_ [entries ->]]].
  - intros n m Hm. rewrite lookup_empty in Hm. discriminate.
  - apply adopt_well_keyed. exact Hold.
Qed.

Lemma perform_all_keeps_well_keyed (ops : list Operation) (s : State) :
  monitors_well_keyed (this s) -> monitors_well_keyed (this (perform_all ops s)).
Proof.
  revert s. induction ops as [| op rest IH]; intros s Hs; [exact Hs |].
  unfold perform_all in *. simpl. apply IH, perform_keeps_well_keyed, Hs.
Qed.

(** X6: in a table built by the constructor, at any time of its life,
    every directory monitor is filed under the name it was made with
    and belongs to this table. *)
Theorem monitors_are_filed_under_their_names
    (escapeForFileName : string -> string) (name_ : string)
    (columns_ materialized_columns_ alias_columns_ : NamesAndTypesList)
    (column_defaults_ : list (string * string))
    (remote_database_ remote_table_ : string) (cluster_ : Cluster)
    (sharding_key_ : ASTPtr) (data_path_ : string) (c : Context)
    (ops : list Operation) (n : string) (m : DirectoryMonitor) :
  directory_monitors
    (this (perform_all ops
             (snd (StorageDistributed_full escapeForFileName name_ columns_
                     materialized_columns_ alias_columns_ column_defaults_
                     remote_database_ remote_table_ cluster_ sharding_key_
                     data_path_ c)))) !! n = Some m ->
  m = mkDirectoryMonitor name_ n.
Proof.
  unfold StorageDistributed_full.
  set (s0 := mkState _ c).
  change (snd (createDirectoryMonitors s0)) with (perform do_createDirectoryMonitors s0).
  intros Hm.
  assert (Hkeyed : monitors_well_keyed
                     (this (perform_all ops (perform do_createDirectoryMonitors s0)))).
  { apply perform_all_keeps_well_keyed, perform_keeps_well_keyed.
    intros k v Hk. subst s0. simpl in Hk. rewrite lookup_empty in Hk. discriminate. }
  specialize (Hkeyed n m Hm).
  destruct (perform_all_same_identity ops (perform do_createDirectoryMonitors s0))
    as (Hname & _).
  destruct (perform_same_identity do_createDirectoryMonitors s0) as (Hname0 & _).
  rewrite Hkeyed, Hname, Hname0. reflexivity.
Qed.

Lemma monitors_are_filed_under_their_names_witness :
  mkDirectoryMonitor "hits_all" "default@host2:9000"
  = mkDirectoryMonitor "hits_all" "default@host2:9000".
Proof.
  apply (monitors_are_filed_under_their_names (fun name => name) "hits_all" [] [] [] []
           "default" "hits" two_remote_one_local nullptr "/data/" startup_context
           [do_requireDirectoryMonitor "default@host3:9000"] "default@host2:9000").
  reflexivity.
Defined.

(** X7: only [shutdown] removes directory monitors, and it removes them
    all; every other operation keeps each monitor the table has. *)
Theorem monitors_stay_until_shutdown (op : Operation) (s : State) :
  (op = do_shutdown -> directory_monitors (this (perform op s)) = ∅)
  /\ (op <> do_shutdown ->
      directory_monitors (this s) ⊆ directory_monitors (this (perform op s))).
Proof.
  destruct (perform_this op s) as (sc & monitors & -> & Hcases). simpl.
  destruct Hcases as [[-> ->] | [Hop [entries ->]]].
  - split; [reflexivity | intros Hne; contradiction].
  - split; [intros Heq; contradiction | intros _; apply adopt_keeps].
Qed.

Lemma monitors_stay_until_shutdown_witness :
  directory_monitors (this sample_state) = ∅
  /\ directory_monitors (this sample_state)
     ⊆ directory_monitors
         (this (perform (do_requireDirectoryMonitor "default@host1:9000") sample_state)).
Proof.
  split.
  - apply (monitors_stay_until_shutdown do_shutdown
             (snd (StorageDistributed_full (fun name => name) "hits_all" [] [] [] []
                     "default" "hits" one_remote_shard nullptr "/data/" insert_context))).
    reflexivity.
  - apply (monitors_stay_until_shutdown
             (do_requireDirectoryMonitor "default@host1:9000") sample_state).
    discriminate.
Defined.

(** X8: [requireDirectoryMonitor] returns with a monitor under the name:
    the one that was there, or else a new one of this table; it touches
    no other monitor and nothing around the table, and asking again
    changes nothing. *)
Theorem requireDirectoryMonitor_makes_sure (n : string) (s : State) :
  let s' := snd (requireDirectoryMonitor n s) in
  fst (requireDirectoryMonitor n s) = Returned tt
  /\ directory_monitors (this s') !! n
     = Some (default (mkDirectoryMonitor (name (this s)) n)
               (directory_monitors (this s) !! n))
  /\ (forall k, k <> n ->
        directory_monitors (this s') !! k = directory_monitors (this s) !! k)
  /\ context s' = context s
  /\ requireDirectoryMonitor n s' = (Returned tt, s').
Proof.
  cbv zeta. unfold requireDirectoryMonitor, bind, gets.
  assert (Hagain : forall s1 : State, is_Some (directory_monitors (this s1) !! n) ->
            when (negb (bool_decide (is_Some (directory_monitors (this s1) !! n))))
              (createDirectoryMonitor n) s1 = (Returned tt, s1)).
  { intros s1 Hsome. rewrite bool_decide_eq_true_2 by exact Hsome. reflexivity. }
  destruct (directory_monitors (this s) !! n) as [m |] eqn:Hn.
  - rewrite bool_decide_eq_true_2 by eauto. simpl. rewrite Hn.
    repeat split; try (apply Hagain; rewrite Hn; eauto).
  - rewrite bool_decide_eq_false_2 by (intros [m Hm]; discriminate).
    unfold createDirectoryMonitor, modify, emplace. simpl. rewrite Hn.
    rewrite lookup_insert_eq. repeat split.
    intros k Hk. apply lookup_insert_ne. congruence.
Qed.

Lemma createDirectoryMonitors_eq (s : State) :
  is_empty (path (this s)) = false ->
  createDirectoryMonitors s
  = (Returned tt,
     mkState
       (set_directory_monitors
          (foldl (adopt (name (this s))) (directory_monitors (this s))
             (default [] (files (context s) !! path (this s))))
          (this s))
       (ensure_directory (path (this s)) (context s))).
Proof.
  intros Hpath.
  unfold createDirectoryMonitors, createDirectory, DirectoryIterator, bind, gets, modify.
  rewrite Hpath, for_each_adopt. cbn [fst snd this context on_context].
  unfold ensure_directory.
  destruct (files (context s) !! path (this s)) as [entries |] eqn:Hdir; simpl.
  - rewrite Hdir. reflexivity.
  - rewrite lookup_insert_eq. reflexivity.
Qed.

(** X9: scanning the directory again adopts nothing new: a second
    [createDirectoryMonitors] right after the first leaves the table,
    its monitors and the file system as the first left them. *)
Theorem createDirectoryMonitors_is_idempotent (s : State) :
  createDirectoryMonitors (snd (createDirectoryMonitors s))
  = (Returned tt, snd (createDirectoryMonitors s)).
Proof.
  destruct (is_empty (path (this s))) eqn:Hpath.
  - unfold createDirectoryMonitors, bind, gets. rewrite Hpath. simpl. rewrite Hpath.
    reflexivity.
  - rewrite (createDirectoryMonitors_eq s Hpath). cbn [snd].
    rewrite createDirectoryMonitors_eq by (destruct s as [[] c]; exact Hpath).
    f_equal. destruct s as [t c]. cbn [this context].
    assert (Hname : name (set_directory_monitors
                            (foldl (adopt (name t)) (directory_monitors t)
                               (default [] (files c !! path t))) t) = name t)
      by (destruct t; reflexivity).
    assert (Hp : path (set_directory_monitors
                         (foldl (adopt (name t)) (directory_monitors t)
                            (default [] (files c !! path t))) t) = path t)
      by (destruct t; reflexivity).
    rewrite Hname, Hp.
    assert (Hfiles : files (ensure_directory (path t) c) !! path t
                     = Some (default [] (files c !! path t))).
    { unfold ensure_directory.
      destruct (files c !! path t) as [entries |] eqn:Hdir; simpl;
        [exact Hdir | apply lookup_insert_eq]. }
    rewrite Hfiles. cbn [default].
    assert (Hensure : ensure_directory (path t) (ensure_directory (path t) c)
                      = ensure_directory (path t) c).
    { unfold ensure_directory at 1. rewrite Hfiles. reflexivity. }
    rewrite Hensure. f_equal.
    destruct t. cbn. rewrite adopt_again. reflexivity.
Qed.

(** X10: building a table without a data path touches nothing around it
    and leaves the table without monitor, without path and closed to
    writes.  Building it with a data path gives it the directory named
    after the table under that path, and touches nothing around it but
    the file system: statements, worker, databases, clusters and what
    has been recorded are as before. *)
Theorem construction_touches_the_file_system_only
    (escapeForFileName : string -> string) (name_ : string)
    (columns_ materialized_columns_ alias_columns_ : NamesAndTypesList)
    (column_defaults_ : list (string * string))
    (remote_database_ remote_table_ : string) (cluster_ : Cluster)
    (sharding_key_ : ASTPtr) (data_path_ : string) (c : Context) :
  let built :=
    snd (StorageDistributed_full escapeForFileName name_ columns_
           materialized_columns_ alias_columns_ column_defaults_
           remote_database_ remote_table_ cluster_ sharding_key_ data_path_ c) in
  let directory := data_path_ +:+ escapeForFileName name_ +:+ "/" in
  (data_path_ = "" ->
   context built = c
   /\ directory_monitors (this built) = ∅
   /\ path (this built) = ""
   /\ write_enabled (this built) = false)
  /\ (data_path_ <> "" ->
      path (this built) = directory
      /\ asts (context built) = asts c
      /\ resharding_worker (context built) = resharding_worker c
      /\ databases (context built) = databases c
      /\ getExternalTables (context built) = getExternalTables c
      /\ clusters (context built) = clusters c
      /\ cluster_proxy (context built) = cluster_proxy c
      /\ trace (context built) = trace c).
Proof.
  cbv zeta. unfold StorageDistributed_full. split.
  - intros ->. repeat split.
  - intros Hpath. set (s0 := mkState _ c).
    assert (Hp : path (this s0) = data_path_ +:+ escapeForFileName name_ +:+ "/").
    { simpl. destruct data_path_; [contradiction | reflexivity]. }
    split.
    { destruct (perform_same_identity do_createDirectoryMonitors s0)
        as (_ & _ & _ & _ & _ & _ & _ & Hsame & _).
      unfold perform in Hsame. rewrite Hsame. exact Hp. }
    rewrite createDirectoryMonitors_eq
      by (rewrite Hp; apply configured_path_not_empty; assumption).
    cbn [snd context]. rewrite Hp. subst s0. cbn [context].
    unfold ensure_directory.
    destruct (files c !! (data_path_ +:+ escapeForFileName name_ +:+ "/"));
      repeat split.
Qed.

Lemma construction_touches_the_file_system_only_witness :
  context (snd (StorageDistributed_full (fun name => name) "hits_all" [] [] [] []
                  "default" "hits" one_remote_shard nullptr "" startup_context))
  = startup_context
  /\ path (this (snd (StorageDistributed_full (fun name => name) "hits_all" [] [] [] []
                       "default" "hits" one_remote_shard nullptr "/data/"
                       startup_context)))
     = "/data/hits_all/".
Proof.
  split.
  - apply (construction_touches_the_file_system_only (fun name => name) "hits_all"
             [] [] [] [] "default" "hits" one_remote_shard nullptr "" startup_context).
    reflexivity.
  - refine (proj1 (proj2 (construction_touches_the_file_system_only (fun name => name)
             "hits_all" [] [] [] [] "default" "hits" one_remote_shard nullptr "/data/"
             startup_context) _)).
    discriminate.
Defined.

(** * More on the rewriters and their callers *)

Lemma released_copy (l' : positive) (node : AST) (s : State) :
  asts (context s) !! l' = None ->
  on_context (fun c => set_asts (delete l' (asts c)) c)
    (on_context (set_asts (<[l' := node]> (asts (context s)))) s)
  = s.
Proof.
  intros Hfresh. destruct s as [t []]. unfold on_context, set_asts. simpl in *.
  rewrite delete_insert_id by exact Hfresh. reflexivity.
Qed.

Lemma rewriteSelectQuery_bad_cast (l : positive) (node : AST)
    (database table : string) (s : State) :
  asts (context s) !! l = Some node -> is_select node = false ->
  rewriteSelectQuery (Some l) database table s = (Thrown bad_cast, s).
Proof.
  intros Hl Hshape. pose proof (fresh_location (asts (context s))) as Hfresh.
  unfold rewriteSelectQuery, clone, bind, deref, make_shared. simpl.
  rewrite Hl. simpl. rewrite lookup_insert_eq.
  destruct node; try discriminate Hshape; simpl;
    unfold throw; rewrite released_copy by exact Hfresh; reflexivity.
Qed.

Lemma rewriteInsertQuery_bad_cast (l : positive) (node : AST)
    (database table : string) (s : State) :
  asts (context s) !! l = Some node -> is_insert node = false ->
  rewriteInsertQuery (Some l) database table s = (Thrown bad_cast, s).
Proof.
  intros Hl Hshape. pose proof (fresh_location (asts (context s))) as Hfresh.
  unfold rewriteInsertQuery, clone, bind, deref, make_shared. simpl.
  rewrite Hl. simpl. rewrite lookup_insert_eq.
  destruct node; try discriminate Hshape; simpl;
    unfold throw; rewrite released_copy by exact Hfresh; reflexivity.
Qed.

(** X11: a rewriter given a statement of the other kind (or any node
    that is not the statement it expects) fails the cast and leaves
    every object and everything else as it was: the copy it made is
    gone. *)
Theorem rewriters_reject_other_statements (l : positive) (node : AST)
    (database table : string) (s : State) :
  asts (context s) !! l = Some node ->
  (is_select node = false ->
   rewriteSelectQuery (Some l) database table s = (Thrown bad_cast, s))
  /\ (is_insert node = false ->
      rewriteInsertQuery (Some l) database table s = (Thrown bad_cast, s)).
Proof.
  intros Hl. split; intros Hshape.
  - eapply rewriteSelectQuery_bad_cast; eassumption.
  - eapply rewriteInsertQuery_bad_cast; eassumption.
Qed.

Lemma rewriters_reject_other_statements_witness :
  rewriteSelectQuery (Some 1%positive) "remote" "hits"
    (mkState single_shard_table insert_context)
  = (Thrown bad_cast, mkState single_shard_table insert_context)
  /\ rewriteInsertQuery (Some 1%positive) "remote" "hits"
       (mkState single_shard_table (context_with sample_select))
     = (Thrown bad_cast, mkState single_shard_table (context_with sample_select)).
Proof.
  split.
  - apply (proj1 (rewriters_reject_other_statements 1 sample_insert "remote" "hits"
                    (mkState single_shard_table insert_context) eq_refl)).
    reflexivity.
  - apply (proj2 (rewriters_reject_other_statements 1 sample_select "remote" "hits"
                    (mkState single_shard_table (context_with sample_select)) eq_refl)).
    reflexivity.
Defined.

(** X12: rewriting the rewritten copy again gives what rewriting the
    original with the last names gives: for a read statement the same
    clauses under the last database and table, for a write statement the
    same payload under the last names, still without select.  The first
    copy and the original are as they were. *)
Theorem last_rewrite_wins (l : positive) (d1 t1 d2 t2 : string) (s : State) :
  (forall old_database old_table clauses,
     asts (context s) !! l = Some (ASTSelectQuery old_database old_table clauses) ->
     exists l1 l2,
       fst (rewriteSelectQuery (Some l) d1 t1 s) = Returned (Some l1)
       /\ let s1 := snd (rewriteSelectQuery (Some l) d1 t1 s) in
          let s2 := snd (rewriteSelectQuery (Some l1) d2 t2 s1) in
          fst (rewriteSelectQuery (Some l1) d2 t2 s1) = Returned (Some l2)
          /\ asts (context s2) !! l2
             = Some (ASTSelectQuery (Some (ASTIdentifier d2 Database))
                       (Some (ASTIdentifier t2 Table)) clauses)
          /\ asts (context s2) !! l1
             = Some (ASTSelectQuery (Some (ASTIdentifier d1 Database))
                       (Some (ASTIdentifier t1 Table)) clauses)
          /\ asts (context s2) !! l
             = Some (ASTSelectQuery old_database old_table clauses))
  /\ (forall old_database old_table select columns format data,
        asts (context s) !! l
          = Some (ASTInsertQuery old_database old_table select columns format data) ->
        exists l1 l2,
          fst (rewriteInsertQuery (Some l) d1 t1 s) = Returned (Some l1)
          /\ let s1 := snd (rewriteInsertQuery (Some l) d1 t1 s) in
             let s2 := snd (rewriteInsertQuery (Some l1) d2 t2 s1) in
             fst (rewriteInsertQuery (Some l1) d2 t2 s1) = Returned (Some l2)
             /\ asts (context s2) !! l2
                = Some (ASTInsertQuery d2 t2 None columns format data)
             /\ asts (context s2) !! l1
                = Some (ASTInsertQuery d1 t1 None columns format data)
             /\ asts (context s2) !! l
                = Some (ASTInsertQuery old_database old_table select columns format data)).
Proof.
  split.
  - intros old_database old_table clauses Hl.
    destruct (rewriteSelectQuery_spec l d1 t1 _ _ _ s Hl)
      as (l1 & Hres1 & _ & Hnew1 & _ & Hold1 & _).
    destruct (rewriteSelectQuery_spec l1 d2 t2 _ _ _ _ Hnew1)
      as (l2 & Hres2 & _ & Hnew2 & Hframe2 & Hold2 & _).
    exists l1, l2. cbv zeta. repeat split; try assumption.
    + rewrite Hold2. exact Hnew1.
    + destruct (decide (l = l2)) as [-> | Hne].
      * exfalso.
        destruct (rewriteSelectQuery_spec l1 d2 t2 _ _ _ _ Hnew1)
          as (l2' & Hres2' & Hfresh2' & _).
        rewrite Hres2 in Hres2'. inversion Hres2'; subst l2'.
        rewrite Hold1, Hl in Hfresh2'. discriminate.
      * rewrite Hframe2 by exact Hne. rewrite Hold1. exact Hl.
  - intros old_database old_table select columns format data Hl.
    destruct (rewriteInsertQuery_spec l d1 t1 _ _ _ _ _ _ s Hl)
      as (l1 & Hres1 & _ & Hnew1 & _ & Hold1 & _).
    destruct (rewriteInsertQuery_spec l1 d2 t2 _ _ _ _ _ _ _ Hnew1)
      as (l2 & Hres2 & _ & Hnew2 & Hframe2 & Hold2 & _).
    exists l1, l2. cbv zeta. repeat split; try assumption.
    + rewrite Hold2. exact Hnew1.
    + destruct (decide (l = l2)) as [-> | Hne].
      * exfalso.
        destruct (rewriteInsertQuery_spec l1 d2 t2 _ _ _ _ _ _ _ Hnew1)
          as (l2' & Hres2' & Hfresh2' & _).
        rewrite Hres2 in Hres2'. inversion Hres2'; subst l2'.
        rewrite Hold1, Hl in Hfresh2'. discriminate.
      * rewrite Hframe2 by exact Hne. rewrite Hold1. exact Hl.
Qed.

Lemma last_rewrite_wins_witness :
  exists l1 l2,
    fst (rewriteSelectQuery (Some 1%positive) "remote" "hits"
           (mkState single_shard_table (context_with sample_select)))
      = Returned (Some l1)
    /\ let s1 := snd (rewriteSelectQuery (Some 1%positive) "remote" "hits"
                        (mkState single_shard_table (context_with sample_select))) in
       let s2 := snd (rewriteSelectQuery (Some l1) "default" "hits_all" s1) in
       fst (rewriteSelectQuery (Some l1) "default" "hits_all" s1) = Returned (Some l2)
       /\ asts (context s2) !! l2
          = Some (ASTSelectQuery (Some (ASTIdentifier "default" Database))
                    (Some (ASTIdentifier "hits_all" Table))
                    [("select", ASTExpressionList [ASTIdentifier "UserID" Column]);
                     ("where", ASTIdentifier "IsRobot" Column)])
       /\ asts (context s2) !! l1
          = Some (ASTSelectQuery (Some (ASTIdentifier "remote" Database))
                    (Some (ASTIdentifier "hits" Table))
                    [("select", ASTExpressionList [ASTIdentifier "UserID" Column]);
                     ("where", ASTIdentifier "IsRobot" Column)])
       /\ asts (context s2) !! 1%positive
          = Some (ASTSelectQuery (Some (ASTIdentifier "default" Database))
                    (Some (ASTIdentifier "hits_all" Table))
                    [("select", ASTExpressionList [ASTIdentifier "UserID" Column]);
                     ("where", ASTIdentifier "IsRobot" Column)]).
Proof.
  apply (proj1 (last_rewrite_wins 1 "remote" "hits" "default" "hits_all"
                  (mkState single_shard_table (context_with sample_select)))).
  reflexivity.
Defined.

(** * read and write, end to end *)

Lemma read_streams_select (processed_stage : QueryProcessingStage) (l : positive)
    (settings : Settings) (s : State)
    (old_database old_table : option AST) (clauses : list (string * AST)) :
  asts (context s) !! l = Some (ASTSelectQuery old_database old_table clauses) ->
  let result := read_streams processed_stage (Some l) settings s in
  let l' := fresh (dom (asts (context s))) in
  let rewritten :=
    ASTSelectQuery (Some (ASTIdentifier (remote_database (this s)) Database))
                   (Some (ASTIdentifier (remote_table (this s)) Table)) clauses in
  let d :=
    mkDispatch
      (SelectQueryConstructor processed_stage
         (match global_subqueries_method settings with
          | PUSH => getExternalTables (context s)
          | PULL => []
          end))
      (cluster (this s)) (Some l') (Some rewritten) settings false in
  trace (context (snd result)) = execute d :: trace (context s)
  /\ asts (context s) !! l' = None
  /\ asts (context (snd result)) !! l
     = Some (ASTSelectQuery old_database old_table clauses)
  /\ fst result
     = match cluster_proxy (context s) with
       | [] => Returned finished_streams
       | inl e :: _ => Thrown e
       | inr streams :: _ => Returned streams
       end
  /\ this (snd result) = this s.
Proof.
  intros Hl. cbv zeta. pose proof (fresh_location (asts (context s))) as Hfresh.
  assert (Hne : l <> fresh (dom (asts (context s)))) by congruence.
  unfold read_streams, rewriteSelectQuery, clone, bind, deref, make_shared, gets,
    try_catch, ClusterProxy_Query_execute.
  simpl. rewrite Hl. simpl. rewrite lookup_insert_eq. simpl.
  destruct (global_subqueries_method settings); simpl;
    rewrite lookup_insert_eq;
    destruct (cluster_proxy (context s)) as [| [e | streams] rest]; simpl;
    repeat split; try assumption;
    rewrite ?lookup_delete_ne by congruence;
    rewrite !lookup_insert_ne by congruence; exact Hl.
Qed.

(** X13: for a well-formed read statement, [read] makes one dispatch to
    the cluster and records nothing else: with the stage it has chosen,
    with the external tables of the context when global subqueries are
    pushed and none otherwise, with a new copy of the statement that
    names the remote database and table and keeps every clause, and
    without shard multiplexing.  It returns what the dispatch returns or
    throws; the statement it was given and the table are untouched. *)
Theorem read_dispatches_the_rewritten_statement (column_names : list string)
    (l : positive) (settings : Settings) (max_block_size threads : Z) (s : State)
    (old_database old_table : option AST) (clauses : list (string * AST)) :
  asts (context s) !! l = Some (ASTSelectQuery old_database old_table clauses) ->
  let result := read column_names (Some l) settings max_block_size threads s in
  let s' := snd (snd result) in
  exists d l',
    trace (context s') = execute d :: trace (context s)
    /\ query_constructor d
       = SelectQueryConstructor (fst result)
           (match global_subqueries_method settings with
            | PUSH => getExternalTables (context s)
            | PULL => []
            end)
    /\ dispatched_cluster d = cluster (this s)
    /\ dispatched_settings d = settings
    /\ enable_shard_multiplexing d = false
    /\ dispatched_query d = Some l'
    /\ asts (context s) !! l' = None
    /\ dispatched_tree d
       = Some (ASTSelectQuery (Some (ASTIdentifier (remote_database (this s)) Database))
                 (Some (ASTIdentifier (remote_table (this s)) Table)) clauses)
    /\ asts (context s') !! l = Some (ASTSelectQuery old_database old_table clauses)
    /\ this s' = this s
    /\ fst (snd result)
       = match cluster_proxy (context s) with
         | [] => Returned finished_streams
         | inl e :: _ => Thrown e
         | inr streams :: _ => Returned streams
         end.
Proof.
  intros Hl. cbv zeta. unfold read. cbv zeta. cbn [fst snd].
  destruct (read_streams_select (processed_stage_of (cluster (this s)) settings) l settings s
              old_database old_table clauses Hl)
    as (Htrace & Hfresh & Hold & Hout & Hthis).
  eexists _, _. split; [exact Htrace |].
  repeat split; try assumption.
Qed.

Lemma read_dispatches_the_rewritten_statement_witness :
  exists d l',
    trace (context (snd (snd (read ["UserID"] (Some 1%positive) default_settings 65536 1
                                (mkState single_shard_table (context_with sample_select))))))
      = [execute d]
    /\ dispatched_query d = Some l'
    /\ dispatched_tree d
       = Some (ASTSelectQuery (Some (ASTIdentifier "default" Database))
                 (Some (ASTIdentifier "hits" Table))
                 [("select", ASTExpressionList [ASTIdentifier "UserID" Column]);
                  ("where", ASTIdentifier "IsRobot" Column)])
    /\ enable_shard_multiplexing d = false.
Proof.
  destruct (read_dispatches_the_rewritten_statement ["UserID"] 1 default_settings 65536 1
              (mkState single_shard_table (context_with sample_select))
              (Some (ASTIdentifier "default" Database))
              (Some (ASTIdentifier "hits_all" Table))
              [("select", ASTExpressionList [ASTIdentifier "UserID" Column]);
               ("where", ASTIdentifier "IsRobot" Column)] eq_refl)
    as (d & l' & Htrace & _ & _ & _ & Hmux & Hquery & _ & Htree & _).
  exists d, l'. repeat split; assumption.
Defined.

(** X14: [read] of a node that is not a read statement throws the failed
    cast and dispatches nothing: the state is as before, though the
    stage has already been left in [processed_stage]. *)
Theorem read_rejects_other_statements (column_names : list string) (l : positive)
    (node : AST) (settings : Settings) (max_block_size threads : Z) (s : State) :
  asts (context s) !! l = Some node ->
  is_select node = false ->
  read column_names (Some l) settings max_block_size threads s
  = (processed_stage_of (cluster (this s)) settings, (Thrown bad_cast, s)).
Proof.
  intros Hl Hshape. unfold read. cbv zeta. f_equal.
  unfold read_streams, bind, gets. cbn [fst snd].
  rewrite (rewriteSelectQuery_bad_cast l node _ _ s Hl Hshape). reflexivity.
Qed.

Lemma read_rejects_other_statements_witness :
  read ["UserID"] (Some 1%positive) default_settings 65536 1
    (mkState single_shard_table insert_context)
  = (Complete, (Thrown bad_cast, mkState single_shard_table insert_context)).
Proof.
  apply (read_rejects_other_statements ["UserID"] 1 sample_insert default_settings 65536 1
           (mkState single_shard_table insert_context)).
  - reflexivity.
  - reflexivity.
Defined.

(** X15: [write] looks at the flag before it looks at the statement.
    With writes disabled it throws [STORAGE_REQUIRES_PARAMETER] and does
    nothing, whatever it is given, a null pointer included; with writes
    enabled, a node that is not a write statement fails the cast, and
    again nothing is left behind. *)
Theorem write_checks_the_flag_first (query : ASTPtr) (settings : Settings) (s : State) :
  (write_enabled (this s) = false ->
   write query settings s = (Thrown write_not_supported, s))
  /\ (write_enabled (this s) = true ->
      forall l node,
        query = Some l -> asts (context s) !! l = Some node -> is_insert node = false ->
        write query settings s = (Thrown bad_cast, s)).
Proof.
  unfold write, bind, gets. cbn [fst snd]. split.
  - intros ->. reflexivity.
  - intros -> l node -> Hl Hshape. simpl.
    rewrite (rewriteInsertQuery_bad_cast l node _ _ s Hl Hshape). reflexivity.
Qed.

Lemma write_checks_the_flag_first_witness :
  write nullptr default_settings (mkState overflow_table empty_context)
  = (Thrown write_not_supported, mkState overflow_table empty_context)
  /\ write (Some 1%positive) default_settings
       (mkState single_shard_table (context_with sample_select))
     = (Thrown bad_cast, mkState single_shard_table (context_with sample_select)).
Proof.
  split.
  - apply (proj1 (write_checks_the_flag_first nullptr default_settings
                    (mkState overflow_table empty_context))).
    reflexivity.
  - apply (proj2 (write_checks_the_flag_first (Some 1%positive) default_settings
                    (mkState single_shard_table (context_with sample_select))) eq_refl
             1%positive sample_select); reflexivity.
Defined.

(** * The stage for usual settings *)

(** X16: with [max_parallel_replicas] at 1, its default, the stage is
    [Complete] exactly when the cluster has one shard in all, local and
    remote together, or merging is disabled. *)
Theorem stage_with_one_replica_per_shard (c : Cluster) (settings : Settings) :
  max_parallel_replicas settings = 1 ->
  processed_stage_of c settings = Complete
  <-> (local_shard_count c + remote_shard_count c = 1
       \/ distributed_group_by_no_merge settings = true).
Proof.
  intros Hone. rewrite processed_stage_of_complete.
  destruct (total_shard_count c) as (Htotal & Hl & Hr).
  assert (Hsum : local_shard_count c + remote_shard_count c < size_t_modulus).
  { unfold size_t_add, size_t_wrap, getLocalShardCount, getRemoteShardCount in Htotal.
    pose proof (Z.mod_pos_bound (local_shard_count c + remote_shard_count c)
                  size_t_modulus eq_refl) as Hbound.
    rewrite Htotal in Hbound. lia. }
  rewrite result_size_exact by (rewrite Hone; simpl; lia).
  rewrite Hone. simpl. split; intros [H | H]; auto; left; lia.
Qed.

Lemma stage_with_one_replica_per_shard_witness :
  processed_stage_of two_remote_one_local default_settings = Complete
  <-> (local_shard_count two_remote_one_local + remote_shard_count two_remote_one_local = 1
       \/ distributed_group_by_no_merge default_settings = true).
Proof.
  apply (stage_with_one_replica_per_shard two_remote_one_local default_settings).
  reflexivity.
Defined.

(** X17: with [max_parallel_replicas] at 0 the remote shards do not
    count: the stage is [Complete] exactly when the cluster has one
    local shard or merging is disabled, however many remote shards there
    are. *)
Theorem stage_with_no_replica (c : Cluster) (settings : Settings) :
  max_parallel_replicas settings = 0 ->
  processed_stage_of c settings = Complete
  <-> (local_shard_count c = 1 \/ distributed_group_by_no_merge settings = true).
Proof.
  intros Hzero. rewrite processed_stage_of_complete.
  destruct (total_shard_count c) as (Htotal & Hl & Hr).
  assert (Hsum : local_shard_count c + remote_shard_count c < size_t_modulus).
  { unfold size_t_add, size_t_wrap, getLocalShardCount, getRemoteShardCount in Htotal.
    pose proof (Z.mod_pos_bound (local_shard_count c + remote_shard_count c)
                  size_t_modulus eq_refl) as Hbound.
    rewrite Htotal in Hbound. lia. }
  rewrite result_size_exact by (rewrite Hzero; simpl; lia).
  rewrite Hzero. simpl. split; intros [H | H]; auto; left; lia.
Qed.

Lemma stage_with_no_replica_witness :
  processed_stage_of two_remote_one_local (mkSettings 0 false PULL 1024) = Complete.
Proof.
  apply (stage_with_no_replica two_remote_one_local (mkSettings 0 false PULL 1024)).
  - reflexivity.
  - left. reflexivity.
Defined.

(** * Shard multiplexing *)

#[local] Instance never_multiplexed_preorder : PreOrder never_multiplexed.
Proof.
  split.
  - intros s. exists []. split; [reflexivity | constructor].
  - intros s1 s2 s3 (new1 & H1 & Hn1) (new2 & H2 & Hn2).
    exists (new2 ++ new1). split; [rewrite H2, H1; apply app_assoc |].
    apply Forall_app. split; assumption.
Qed.

Lemma never_multiplexed_same_trace (s s' : State) :
  trace (context s') = trace (context s) -> never_multiplexed s s'.
Proof. intros Htrace. exists []. split; [exact Htrace | constructor]. Qed.

Lemma never_multiplexed_event (s : State) (ev : Event) :
  not_multiplexed ev -> never_multiplexed s (on_context (record_event ev) s).
Proof. intros Hev. exists [ev]. split; [reflexivity | repeat constructor; exact Hev]. Qed.

Lemma not_multiplexed_execute (d : Dispatch) :
  enable_shard_multiplexing d = false -> not_multiplexed (execute d).
Proof. intros Hd d' [= <-]. exact Hd. Qed.

Lemma queries_never_multiplexed :
  (forall processed_stage query settings,
     preserves never_multiplexed (read_streams processed_stage query settings))
  /\ (forall query settings, preserves never_multiplexed (write query settings))
  /\ (forall settings, preserves never_multiplexed (describe settings))
  /\ (forall query database_name first_partition last_partition weighted_zookeeper_paths
        sharding_key_expr do_copy coordinator settings,
        preserves never_multiplexed
          (reshardPartitions query database_name first_partition last_partition
             weighted_zookeeper_paths sharding_key_expr do_copy coordinator settings)).
Proof.
  assert (Hctx : forall s f, (forall c, trace (f c) = trace c) ->
            never_multiplexed s (on_context f s)).
  { intros s f Hf. apply never_multiplexed_same_trace. apply Hf. }
  repeat split; intros.
  - apply (only_read_streams never_multiplexed not_multiplexed);
      first [exact _ | exact Hctx | exact never_multiplexed_event
            | exact not_multiplexed_execute].
  - apply only_write; [exact _ | exact Hctx].
  - apply (only_describe never_multiplexed not_multiplexed);
      first [exact _ | exact Hctx | exact never_multiplexed_event
            | exact not_multiplexed_execute].
  - apply (only_reshardPartitions never_multiplexed not_multiplexed);
      first [exact _ | exact Hctx | exact never_multiplexed_event
            | exact not_multiplexed_execute | intros; intros d' Hd'; discriminate Hd'].
Qed.

Lemma createDirectoryMonitors_context (s : State) :
  context (snd (createDirectoryMonitors s))
  = if is_empty (path (this s)) then context s
    else ensure_directory (path (this s)) (context s).
Proof.
  destruct (is_empty (path (this s))) eqn:Hpath.
  - unfold createDirectoryMonitors, bind, gets. rewrite Hpath. reflexivity.
  - rewrite createDirectoryMonitors_eq by exact Hpath. reflexivity.
Qed.

Lemma ensure_directory_trace (p : string) (c : Context) :
  trace (ensure_directory p c) = trace c.
Proof. unfold ensure_directory. destruct (files c !! p); reflexivity. Qed.

Lemma perform_never_multiplexed (op : Operation) (s : State) :
  never_multiplexed s (perform op s).
Proof.
  destruct queries_never_multiplexed as (Hread & Hwrite & Hdescribe & Hreshard).
  destruct op as [cols q st mb th | q st | params db tbl | | q db fp lp paths key copy coord st
                 | st | n | | n]; unfold perform.
  - unfold read. cbv zeta. cbn [snd]. apply Hread.
  - apply Hwrite.
  - destruct (alter_cases params db tbl s)
      as [[_ ->] | [(_ & e & _ & ->) | [(_ & _ & _ & ->) | (_ & _ & tables & _ & ->)]]].
    + reflexivity.
    + eexists [unlockStructure; apply_commands _; lockStructureForAlter].
      split; [reflexivity |]. repeat constructor; intros d Hd; discriminate Hd.
    + eexists [unlockStructure; apply_commands _; lockStructureForAlter].
      split; [reflexivity |]. repeat constructor; intros d Hd; discriminate Hd.
    + eexists [unlockStructure; alterTable _ _ _; apply_commands _; lockStructureForAlter].
      split; [reflexivity |]. repeat constructor; intros d Hd; discriminate Hd.
  - apply never_multiplexed_same_trace. reflexivity.
  - apply Hreshard.
  - apply Hdescribe.
  - apply never_multiplexed_same_trace. reflexivity.
  - apply never_multiplexed_same_trace. rewrite createDirectoryMonitors_context.
    destruct (is_empty (path (this s))); [reflexivity | apply ensure_directory_trace].
  - apply never_multiplexed_same_trace.
    unfold requireDirectoryMonitor, bind, gets. cbn [fst snd].
    destruct (negb _); reflexivity.
Qed.

(** X18: whatever is done with a table, nothing is ever dispatched to
    the cluster with shard multiplexing enabled: every dispatch that a
    sequence of operations records has it off. *)
Theorem shard_multiplexing_stays_off (ops : list Operation) (s : State) :
  exists new,
    trace (context (perform_all ops s)) = new ++ trace (context s)
    /\ forall d, execute d ∈ new -> enable_shard_multiplexing d = false.
Proof.
  assert (Hall : never_multiplexed s (perform_all ops s)).
  { revert s. induction ops as [| op rest IH]; intros s; [reflexivity |].
    unfold perform_all in *. simpl.
    etransitivity; [apply perform_never_multiplexed | apply IH]. }
  destruct Hall as (new & Htrace & Hnew).
  exists new. split; [exact Htrace |].
  intros d Hd. rewrite Forall_forall in Hnew. exact (Hnew _ Hd d eq_refl).
Qed.

(** * More on reshardPartitions *)

(** X19: neither lambda of [reshardPartitions] lets an exception out:
    the cleanup and the stream callback return normally whatever the
    worker does.  After the callback the flag is set if the worker took
    the status, and is as before if its call threw. *)
Theorem resharding_handlers_never_throw (coordinator_id msg : string) (f : Frame) :
  fst (handle_exception coordinator_id msg f) = Returned tt
  /\ fst (exception_callback coordinator_id f) = Returned tt
  /\ has_notified_error (snd (exception_callback coordinator_id f))
     = if next_call_throws (resharding_worker (context (outer f)))
       then has_notified_error f
       else true.
Proof.
  destruct (handle_exception_spec coordinator_id msg f) as (events & _ & Hret & _).
  destruct (exception_callback_returns coordinator_id f) as [Hcb Hflag].
  repeat split; assumption.
Qed.

(** X20: [createCoordinator] is called outside the [try] block: when it
    throws, its exception reaches the caller and no cleanup is
    attempted: the failed call is the only call made to the worker,
    nothing is logged and nothing is dispatched. *)
Theorem failed_creation_is_not_cleaned_up (query : ASTPtr) (database_name : string)
    (first_partition last_partition : Field)
    (weighted_zookeeper_paths : list (string * Z)) (sharding_key_expr : ASTPtr)
    (do_copy : bool) (coordinator : Field) (settings : Settings) (s : State)
    (e : Exn) (rest : list (option Exn)) :
  started (resharding_worker (context s)) = true ->
  isNull coordinator = true ->
  faults (resharding_worker (context s)) = Some e :: rest ->
  let result :=
    reshardPartitions query database_name first_partition last_partition
      weighted_zookeeper_paths sharding_key_expr do_copy coordinator settings s in
  fst result = Thrown e
  /\ trace (context (snd result))
     = worker_event createCoordinator_call false :: trace (context s)
  /\ this (snd result) = this s
  /\ asts (context (snd result)) = asts (context s).
Proof.
  intros Hstarted Hnull Hfaults. cbv zeta.
  unfold reshardPartitions, isStarted, bind, gets, createCoordinator, worker_call.
  rewrite Hstarted, Hnull. simpl. rewrite Hfaults. repeat split.
Qed.

Lemma failed_creation_is_not_cleaned_up_witness :
  fst (reshard [Some session_expired]) = Thrown session_expired
  /\ trace (context (snd (reshard [Some session_expired])))
     = worker_event createCoordinator_call false
         :: trace (context (resharding_state [Some session_expired]))
  /\ this (snd (reshard [Some session_expired]))
     = this (resharding_state [Some session_expired])
  /\ asts (context (snd (reshard [Some session_expired])))
     = asts (context (resharding_state [Some session_expired])).
Proof.
  apply (failed_creation_is_not_cleaned_up nullptr "default" Null Null
           [("/clickhouse/shard3", 1)] nullptr false Null default_settings
           (resharding_state [Some session_expired]) session_expired []).
  - reflexivity.
  - reflexivity.
  - reflexivity.
Defined.

(** X21: a call of [reshardPartitions] that returns normally has made
    two calls to the worker, [createCoordinator] and [registerQuery]
    with the text of the statement it then sent to the cluster, and
    nothing else: it sets no status, logs nothing, and calls neither
    [dumpCoordinatorState] nor [deleteCoordinator].  The statement sent
    names the remote database and table and the coordinator that
    [createCoordinator] answered, and the tree built for it is gone
    from the store. *)
Theorem successful_resharding_makes_two_calls (query : ASTPtr)
    (database_name : string) (first_partition last_partition : Field)
    (weighted_zookeeper_paths : list (string * Z)) (sharding_key_expr : ASTPtr)
    (do_copy : bool) (coordinator : Field) (settings : Settings) (s : State)
    (coordinator_id : string) :
  let result :=
    reshardPartitions query database_name first_partition last_partition
      weighted_zookeeper_paths sharding_key_expr do_copy coordinator settings s in
  let q := reshard_query (this s) first_partition last_partition weighted_zookeeper_paths
             (sharding_key_expr ≫= (fun l => asts (context s) !! l)) do_copy
             coordinator_id in
  fst result = Returned tt ->
  fst (createCoordinator (cluster (this s)) s) = Returned coordinator_id ->
  exists d,
    trace (context (snd result))
      = execute d
          :: worker_event (registerQuery_call coordinator_id (queryToString q)) true
          :: worker_event createCoordinator_call true
          :: trace (context s)
    /\ query_constructor d = AlterQueryConstructor
    /\ dispatched_cluster d = cluster (this s)
    /\ dispatched_tree d = Some q
    /\ enable_shard_multiplexing d = false
    /\ asts (context (snd result)) = asts (context s).
Proof.
  cbv zeta.
  destruct s as [t [h fs [st records n fl] dbs ext cl px tr]].
  unfold reshardPartitions, isStarted, bind, gets. cbn [context resharding_worker started this].
  destruct st; cbn [negb]; [| discriminate].
  destruct (isNull coordinator); cbn [negb]; [| discriminate].
  unfold createCoordinator, worker_call.
  cbn [context resharding_worker faults started coordinators created].
  destruct fl as [| [e |] rest]; [| discriminate |].
  all: cbn [set_faults tail created started coordinators faults fst].
  all: unfold with_locals, try_catch.
  all: match goal with
       | |- context [dispatch ?a ?b ?c ?d ?e ?f ?g ?fr] =>
           pose proof (dispatch_returned a b c d e f g fr) as Hd;
           destruct (dispatch a b c d e f g fr) as [[[] | ex] f1] eqn:Hrun
       end.
  all: try (intros _ [= <-];
            destruct (Hd eq_refl) as (d & Htrace & Hc & Hcl & Htree & Hmux & Hasts);
            exists d; cbn in *;
            rewrite Htrace, Hasts; repeat split; assumption).
  all: intros Hret; exfalso;
    destruct (handle_exception_spec (coordinator_name n) (message ex) f1)
      as (events & _ & Hok & _);
    destruct (handle_exception (coordinator_name n) (message ex) f1) as [r f2];
    simpl in Hok; subst r; discriminate Hret.
Qed.

Lemma successful_resharding_makes_two_calls_witness :
  exists d,
    trace (context (snd (reshardPartitions nullptr "default" Null Null
                           [("/clickhouse/shard3", 1)] nullptr false Null
                           default_settings answering_state)))
      = [execute d;
         worker_event (registerQuery_call "coordinator-0" reshard_text) true;
         worker_event createCoordinator_call true]
    /\ query_constructor d = AlterQueryConstructor
    /\ dispatched_cluster d = one_remote_shard
    /\ dispatched_tree d
       = Some (reshard_query single_shard_table Null Null [("/clickhouse/shard3", 1)]
                 None false "coordinator-0")
    /\ enable_shard_multiplexing d = false
    /\ asts (context (snd (reshardPartitions nullptr "default" Null Null
                             [("/clickhouse/shard3", 1)] nullptr false Null
                             default_settings answering_state)))
       = ∅.
Proof.
  apply (successful_resharding_makes_two_calls nullptr "default" Null Null
           [("/clickhouse/shard3", 1)] nullptr false Null default_settings
           answering_state "coordinator-0").
  - vm_compute. reflexivity.
  - vm_compute. reflexivity.
Defined.
